(** * TrustCircle: the domain entities and request handlers, embedded in Rocq

    The development follows the server sources, schema by schema:
    - [userSchema] (User model): [calculateTrustScore], [toJSON], the
      [select: false] flag of [password];
    - [serviceSchema] (models/Service.js): [isAvailable];
    - [bookingSchema] (second half of models/Service.js): [updateStatus],
      [calculateCancellationFee], the two [pre('save')] hooks;
    - [communitySchema] (models/Community.js): [addLike], [removeLike];
    - [reviewSchema] (second half of models/Community.js) and
      routes/reviews.js: the creation of a review;
    - routes/bookings.js: creation, status update and cancellation of a
      booking, behind the [bookingParticipant] middleware;
    - the error handler middleware and the [booking_status_update] event of
      socket/handlers.js, behind the middleware that the connection installs;
    - the message thread and the virtuals of a booking, the virtuals, the
      image hook and the page of a service, the whole community post with
      its hooks, and the review document with its methods, its hook and
      the routes that vote on, flag, answer, edit and delete a review.

    JavaScript numbers are modelled as exact rationals extended with [NaN]
    and the two infinities (signed zeros and binary rounding are left out),
    except in [BookingPricing], where the total of a booking is computed on
    IEEE 754 doubles; Mongoose documents are records, or finite maps where
    the code treats them as plain objects; a collection is the list or the
    finite map of its documents; [new Date()] is a parameter [now], in
    milliseconds. *)

From Stdlib Require Import ZArith QArith Qround Bool Lqa.
From Stdlib Require Floats.
From stdpp Require Import gmap strings list.

Local Open Scope Z_scope.

(* ===================================================================== *)
(** ** JavaScript values shared by the models                             *)
(* ===================================================================== *)

Module Js.

(** A JavaScript number: a finite value, [NaN], or an infinity
    ([JInf true] is [-Infinity]). *)
Inductive num : Type :=
| JNaN
| JInf (neg : bool)
| JFin (q : Q).

Definition Qis_zero (q : Q) : bool := Qeq_bool q 0.
Definition Qis_neg (q : Q) : bool := negb (Qle_bool 0 q).

Definition of_Z (z : Z) : num := JFin (inject_Z z).

(** [a / b] *)
Definition div (a b : num) : num :=
  match a, b with
  | JNaN, _ | _, JNaN => JNaN
  | JInf _, JInf _ => JNaN
  | JInf n, JFin q => JInf (xorb n (Qis_neg q))
  | JFin _, JInf _ => JFin 0
  | JFin p, JFin q =>
      if Qis_zero q
      then (if Qis_zero p then JNaN else JInf (Qis_neg p))
      else JFin (p / q)
  end.

(** [a * b] *)
Definition mul (a b : num) : num :=
  match a, b with
  | JNaN, _ | _, JNaN => JNaN
  | JInf n, JInf m => JInf (xorb n m)
  | JInf n, JFin q | JFin q, JInf n =>
      if Qis_zero q then JNaN else JInf (xorb n (Qis_neg q))
  | JFin p, JFin q => JFin (p * q)
  end.

(** [a + b] *)
Definition add (a b : num) : num :=
  match a, b with
  | JNaN, _ | _, JNaN => JNaN
  | JInf n, JInf m => if Bool.eqb n m then JInf n else JNaN
  | JInf n, JFin _ | JFin _, JInf n => JInf n
  | JFin p, JFin q => JFin (p + q)
  end.

(** [a - b] *)
Definition sub (a b : num) : num :=
  match a, b with
  | JNaN, _ | _, JNaN => JNaN
  | JInf n, JInf m => if Bool.eqb n m then JNaN else JInf n
  | JInf n, JFin _ => JInf n
  | JFin _, JInf n => JInf (negb n)
  | JFin p, JFin q => JFin (p - q)
  end.

(** [a > b]: false as soon as one side is [NaN]. *)
Definition gt (a b : num) : bool :=
  match a, b with
  | JNaN, _ | _, JNaN => false
  | JInf n, JInf m => negb n && m
  | JInf n, JFin _ => negb n
  | JFin _, JInf m => m
  | JFin p, JFin q => negb (Qle_bool p q)
  end.

(** [Math.min(a, b)] *)
Definition min (a b : num) : num :=
  match a, b with
  | JNaN, _ | _, JNaN => JNaN
  | _, _ => if gt a b then b else a
  end.

(** [Math.round(a)]: the nearest integer, halves rounded up. *)
Definition round (a : num) : num :=
  match a with
  | JFin q => of_Z (Qfloor (q + (1 # 2)))
  | _ => a
  end.

(** [a === 0] *)
Definition is_zero (a : num) : bool :=
  match a with
  | JFin q => Qis_zero q
  | _ => false
  end.

(** Truthiness of a number: [0] and [NaN] are falsy. *)
Definition truthy (a : num) : bool :=
  match a with
  | JNaN => false
  | JInf _ => true
  | JFin q => negb (Qis_zero q)
  end.

(** [x || 0] on a property that may be [undefined]. *)
Definition or_zero (x : option num) : num :=
  match x with
  | Some a => if truthy a then a else of_Z 0
  | None => of_Z 0
  end.

(** [a < b] *)
Definition lt (a b : num) : bool := gt b a.

(** [a >= b]: false as soon as one side is [NaN]. *)
Definition ge (a b : num) : bool :=
  match a, b with
  | JNaN, _ | _, JNaN => false
  | _, _ => negb (gt b a)
  end.

(** [a === b] on numbers: [NaN] equals nothing, itself included. *)
Definition strict_eq (a b : num) : bool :=
  match a, b with
  | JFin p, JFin q => Qeq_bool p q
  | JInf n, JInf m => Bool.eqb n m
  | _, _ => false
  end.

(** Reading a numeric property that may be [undefined]. *)
Definition to_num (x : option num) : num :=
  match x with
  | Some a => a
  | None => JNaN
  end.

(** Object identifiers are compared through [toString()]. *)
Definition ObjectId : Type := string.

(** A [Date]: milliseconds since the epoch, [None] for an invalid date. *)
Definition Date : Type := option Z.

(** Plain values held by a document. *)
#[warnings="-register-all"]
Inductive value : Type :=
| VNull
| VBool (b : bool)
| VNum (n : num)
| VStr (s : string)
| VDate (d : Date)
| VArr (items : list value)
| VObj (fields : list (string * value)).

(** The exceptions that the modelled code paths raise. *)
Inductive error : Type :=
| TypeError (msg : string)
| DuplicateKey (field val : string)
| ValidationError
| CastError.

(** The outcome of evaluating a function body. *)
Inductive completion (A : Type) : Type :=
| Return (a : A)
| Throw (e : error).
Arguments Return {A} a.
Arguments Throw {A} e.

(** An HTTP response as the handlers build it: the status code and the
    [message] of the envelope ([error.message] on the error path). *)
Record response : Type := {
  statusCode : Z;
  message : string
}.

Definition is_error (r : response) : bool := 400 <=? statusCode r.

(** How a handler ends: [Rejected r] when a guard sends the response [r]
    and returns (a thrown error is turned into its response by the error
    handler); [Accepted a] when the request passes every guard and the
    handler calls the entity operation, [a] being the state that the
    operation leaves. *)
Inductive outcome (A : Type) : Type :=
| Rejected (r : response)
| Accepted (a : A).
Arguments Rejected {A} r.
Arguments Accepted {A} a.

(** The numeric value of a [Date] ([valueOf()]). *)
Definition date_value (d : Date) : num :=
  match d with
  | Some t => of_Z t
  | None => JNaN
  end.

End Js.

(* ===================================================================== *)
(** ** userSchema (models/User.js)                                        *)
(* ===================================================================== *)

Module User.
Import Js.

Record reputation : Type := {
  totalReviews : num;
  averageRating : num;
  completedServices : num;
  cancelledServices : num
}.

(** [userSchema.methods.calculateTrustScore] *)
Definition calculateTrustScore (r : reputation) : num :=
  if is_zero (totalReviews r) then of_Z 0
  else
    let score := mul (div (averageRating r) (of_Z 5)) (of_Z 100) in
    let completionRate :=
      div (completedServices r)
          (add (completedServices r) (cancelledServices r)) in
    let score := mul score completionRate in
    let reviewBonus := mul (min (div (totalReviews r) (of_Z 50)) (of_Z 1)) (of_Z 10) in
    let score := add score reviewBonus in
    min (round score) (of_Z 100).

(** The score the specification describes: the same formula with the
    denominator of the completion rate floored at 1, and the result
    clamped from below as well. *)
Definition specTrustScore (r : reputation) : num :=
  if is_zero (totalReviews r) then of_Z 0
  else
    let total := add (completedServices r) (cancelledServices r) in
    let denom := if gt (of_Z 1) total then of_Z 1 else total in
    let completionRate := div (completedServices r) denom in
    let score :=
      add (mul (mul (div (averageRating r) (of_Z 5)) (of_Z 100)) completionRate)
          (mul (min (div (totalReviews r) (of_Z 50)) (of_Z 1)) (of_Z 10)) in
    let rounded := min (round score) (of_Z 100) in
    if gt (of_Z 0) rounded then of_Z 0 else rounded.

(** A user document as the plain object Mongoose hands out: field name to
    value. Nested paths are nested objects. *)
Abbreviation document := (gmap string value).

(** Paths declared with [select: false] in [userSchema]. *)
Definition deselected_paths : list string := ["password"].

(** The projection of a query: the default one, or [.select('-p')] /
    [.select('+p')] as the routes use them. *)
Inductive selection : Type :=
| SelectDefault
| SelectMinus (path : string)
| SelectPlus (path : string).

Definition project (sel : selection) (stored : document) : document :=
  match sel with
  | SelectDefault => foldr delete stored deselected_paths
  | SelectMinus p => delete p (foldr delete stored deselected_paths)
  | SelectPlus p =>
      foldr delete stored (filter (fun q => q <> p) deselected_paths)
  end.

Definition show_field (d : document) (k : string) : string :=
  match d !! k with
  | Some (VStr s) => s
  | Some VNull => "null"
  | Some _ => "[object]"
  | None => "undefined"
  end.

(** [userSchema.virtual('fullName')] *)
Definition fullName (d : document) : string :=
  show_field d "firstName" +:+ " " +:+ show_field d "lastName".

(** [this.toObject()] under the schema option [toObject: { virtuals: true }]:
    the fields of the document and the virtuals [fullName] and [id]. *)
Definition toObject (d : document) : document :=
  let with_name := <["fullName" := VStr (fullName d)]> d in
  match d !! "_id" with
  | Some v => <["id" := v]> with_name
  | None => with_name
  end.

(** [userSchema.methods.toJSON] *)
Definition toJSON (d : document) : document :=
  let user := toObject d in
  delete "password" user.

Definition rep (reviews : Z) (rating : Q) (completed cancelled : Z) : reputation :=
  {| totalReviews := of_Z reviews;
     averageRating := JFin rating;
     completedServices := of_Z completed;
     cancelledServices := of_Z cancelled |}.

End User.

(* ===================================================================== *)
(** ** models/Service.js                                                  *)
(* ===================================================================== *)

Module Service.
Import Js.

(** An entry of [availability.schedule]. *)
Module Slot.
Record t : Type := {
  day : string;
  startTime : string;
  endTime : string;
  available : bool
}.
End Slot.

(** An entry of [availability.exceptions]. *)
Module Exception.
Record t : Type := {
  date : Date;
  available : bool;
  reason : string
}.
End Exception.

Module Availability.
Record t : Type := {
  schedule : list Slot.t;
  exceptions : list Exception.t;
  advanceBooking : num
}.
End Availability.

Module Pricing.
Record t : Type := {
  type : string;
  amount : num;
  currency : string
}.
End Pricing.

Record service : Type := {
  provider : ObjectId;
  title : string;
  pricing : Pricing.t;
  availability : Availability.t;
  isActive : bool;
  isPaused : bool
}.

(** What a caller may hand to [new Date(...)]. *)
Inductive dateInput : Type :=
| FromDate (d : Date)
| FromMillis (n : num)
| FromString (s : string)
| FromUndefined.

(** The string-valued methods that [Date.prototype] defines. *)
Definition Date_prototype : list string :=
  [ "toString"; "toDateString"; "toTimeString"; "toISOString";
    "toUTCString"; "toGMTString"; "toJSON"; "toLocaleString";
    "toLocaleDateString"; "toLocaleTimeString" ].

Section Runtime.

(** The host's date rendering and parsing: [render name d] is the string
    that the method [name] of [Date.prototype] returns on [d]. *)
Variable render : string -> Date -> string.
Variable parse_date : string -> Date.

(** [new Date(x)] *)
Definition new_Date (x : dateInput) : Date :=
  match x with
  | FromDate d => d
  | FromMillis (JFin q) =>
      let t := Z.quot (Qnum q) (Zpos (Qden q)) in
      if Z.abs t <=? 8640000000000000 then Some t else None
  | FromMillis _ => None
  | FromString s => parse_date s
  | FromUndefined => None
  end.

(** [d.name()] for a [Date] receiver: the property is looked up on
    [Date.prototype]; calling a property that is not there is a
    [TypeError]. *)
Definition call_date_method (name : string) (d : Date) : completion string :=
  if bool_decide (name ∈ Date_prototype)
  then Return (render name d)
  else Throw (TypeError ("requestDate." +:+ name +:+ " is not a function")).

(** [serviceSchema.methods.isAvailable]. The [duration] argument is bound
    and never read. *)
Definition isAvailable (this : service) (date : dateInput) (duration : num)
  : completion bool :=
  if negb (isActive this) || isPaused this then Return false
  else
    let requestDate := new_Date date in
    match call_date_method "toLocaleLowerCase" requestDate with
    | Throw e => Throw e
    | Return lowered =>
        let dayOfWeek := String.substring 0 3 lowered in
        let daySchedule :=
          find (fun schedule =>
                  String.prefix dayOfWeek (Slot.day schedule) && Slot.available schedule)
               (Availability.schedule (availability this)) in
        match daySchedule with
        | None => Return false
        | Some _ =>
            let hasException :=
              existsb (fun exception =>
                         String.eqb (render "toDateString" (Exception.date exception))
                                    (render "toDateString" requestDate)
                         && negb (Exception.available exception))
                      (Availability.exceptions (availability this)) in
            Return (negb hasException)
        end
    end.

End Runtime.

End Service.

(* ===================================================================== *)
(** ** bookingSchema (models/Booking.js, listed in models/Service.js)      *)
(* ===================================================================== *)

Module Booking.
Import Js.

(** An entry of [statusHistory]. *)
Module Entry.
Record t : Type := {
  status : string;
  changedAt : Z;
  changedBy : ObjectId;
  reason : string;
  notes : string
}.
End Entry.

Module Pricing.
Record t : Type := {
  servicePrice : option num;
  platformFee : option num;
  taxes : option num;
  totalAmount : option num;
  currency : string
}.
End Pricing.

Module Completion.
Record t : Type := {
  completedAt : option Z;
  workSummary : option string;
  providerNotes : option string
}.
End Completion.

Module Cancellation.
Record t : Type := {
  cancelledAt : option Z;
  cancelledBy : option ObjectId;
  reason : option string;
  refundAmount : option num;
  refundStatus : string
}.
End Cancellation.

(** A booking document. [isNew] and [pricingModified] are the change
    tracking of the document: what [this.isNew] and
    [this.isModified('pricing')] answer. *)
Record booking : Type := {
  customer : ObjectId;
  provider : ObjectId;
  service : ObjectId;
  scheduledDate : Z;
  scheduledTime : string;
  estimatedDuration : num;
  pricing : Pricing.t;
  status : string;
  statusHistory : list Entry.t;
  completion : Completion.t;
  cancellation : Cancellation.t;
  isNew : bool;
  pricingModified : bool
}.

Definition set_pricing (p : Pricing.t) (b : booking) : booking :=
  {| customer := customer b; provider := provider b; service := service b;
     scheduledDate := scheduledDate b; scheduledTime := scheduledTime b;
     estimatedDuration := estimatedDuration b;
     pricing := p; status := status b; statusHistory := statusHistory b;
     completion := completion b; cancellation := cancellation b;
     isNew := isNew b; pricingModified := pricingModified b |}.

Definition set_status (s : string) (b : booking) : booking :=
  {| customer := customer b; provider := provider b; service := service b;
     scheduledDate := scheduledDate b; scheduledTime := scheduledTime b;
     estimatedDuration := estimatedDuration b;
     pricing := pricing b; status := s; statusHistory := statusHistory b;
     completion := completion b; cancellation := cancellation b;
     isNew := isNew b; pricingModified := pricingModified b |}.

Definition set_statusHistory (h : list Entry.t) (b : booking) : booking :=
  {| customer := customer b; provider := provider b; service := service b;
     scheduledDate := scheduledDate b; scheduledTime := scheduledTime b;
     estimatedDuration := estimatedDuration b;
     pricing := pricing b; status := status b; statusHistory := h;
     completion := completion b; cancellation := cancellation b;
     isNew := isNew b; pricingModified := pricingModified b |}.

Definition set_completion (c : Completion.t) (b : booking) : booking :=
  {| customer := customer b; provider := provider b; service := service b;
     scheduledDate := scheduledDate b; scheduledTime := scheduledTime b;
     estimatedDuration := estimatedDuration b;
     pricing := pricing b; status := status b; statusHistory := statusHistory b;
     completion := c; cancellation := cancellation b;
     isNew := isNew b; pricingModified := pricingModified b |}.

Definition set_cancellation (c : Cancellation.t) (b : booking) : booking :=
  {| customer := customer b; provider := provider b; service := service b;
     scheduledDate := scheduledDate b; scheduledTime := scheduledTime b;
     estimatedDuration := estimatedDuration b;
     pricing := pricing b; status := status b; statusHistory := statusHistory b;
     completion := completion b; cancellation := c;
     isNew := isNew b; pricingModified := pricingModified b |}.

Definition set_tracking (new modified : bool) (b : booking) : booking :=
  {| customer := customer b; provider := provider b; service := service b;
     scheduledDate := scheduledDate b; scheduledTime := scheduledTime b;
     estimatedDuration := estimatedDuration b;
     pricing := pricing b; status := status b; statusHistory := statusHistory b;
     completion := completion b; cancellation := cancellation b;
     isNew := new; pricingModified := modified |}.

Definition set_totalAmount (t : option num) (p : Pricing.t) : Pricing.t :=
  {| Pricing.servicePrice := Pricing.servicePrice p;
     Pricing.platformFee := Pricing.platformFee p;
     Pricing.taxes := Pricing.taxes p;
     Pricing.totalAmount := t;
     Pricing.currency := Pricing.currency p |}.

(** A write to one of the pricing paths of a booking document. *)
Inductive pricingMutation : Type :=
| SetServicePrice (x : option num)
| SetPlatformFee (x : option num)
| SetTaxes (x : option num)
| SetTotalAmount (x : option num).

(** The write, as the document tracks it: the path gets its value and
    [pricing] counts as modified. *)
Definition mutate (m : pricingMutation) (b : booking) : booking :=
  let p := pricing b in
  let p' :=
    match m with
    | SetServicePrice x =>
        {| Pricing.servicePrice := x;
           Pricing.platformFee := Pricing.platformFee p;
           Pricing.taxes := Pricing.taxes p;
           Pricing.totalAmount := Pricing.totalAmount p;
           Pricing.currency := Pricing.currency p |}
    | SetPlatformFee x =>
        {| Pricing.servicePrice := Pricing.servicePrice p;
           Pricing.platformFee := x;
           Pricing.taxes := Pricing.taxes p;
           Pricing.totalAmount := Pricing.totalAmount p;
           Pricing.currency := Pricing.currency p |}
    | SetTaxes x =>
        {| Pricing.servicePrice := Pricing.servicePrice p;
           Pricing.platformFee := Pricing.platformFee p;
           Pricing.taxes := x;
           Pricing.totalAmount := Pricing.totalAmount p;
           Pricing.currency := Pricing.currency p |}
    | SetTotalAmount x => set_totalAmount x p
    end in
  set_tracking (isNew b) true (set_pricing p' b).

(** The first [bookingSchema.pre('save')]: the total, on the exact numbers of
    this model; [BookingPricing] has the same hook on doubles. *)
Definition preSave_totalAmount (this : booking) : booking :=
  if pricingModified this then
    let servicePrice := Pricing.servicePrice (pricing this) in
    let platformFee := Pricing.platformFee (pricing this) in
    let taxes := Pricing.taxes (pricing this) in
    set_pricing
      (set_totalAmount
         (Some (add (add (or_zero servicePrice) (or_zero platformFee)) (or_zero taxes)))
         (pricing this))
      this
  else this.

(** The second [bookingSchema.pre('save')]: the history entry of a new
    document. *)
Definition preSave_history (now : Z) (this : booking) : booking :=
  if isNew this then
    set_statusHistory
      (statusHistory this ++
         [ {| Entry.status := status this;
              Entry.changedAt := now;
              Entry.changedBy := customer this;
              Entry.reason := "Booking created";
              Entry.notes := "Initial booking request" |} ])
      this
  else this.

(** What [this.save()] writes once the validators have let the document
    through: the two hooks in the order of their registration, after which
    the document is stored and its change tracking is reset. *)
Definition save (now : Z) (this : booking) : booking :=
  set_tracking false false (preSave_history now (preSave_totalAmount this)).

(** The [enum] lists of the schema. *)
Definition statuses : list string :=
  ["pending"; "confirmed"; "in_progress"; "completed"; "cancelled"; "no_show";
   "disputed"].

Definition cancellationReasons : list string :=
  ["customer_request"; "provider_unavailable"; "weather"; "emergency";
   "payment_issue"; "mutual_agreement"; "other"].

Definition refundStatuses : list string :=
  ["pending"; "processed"; "failed"; "not_applicable"].

(** The [enum] validator on a path that holds a string. *)
Definition oneOf (values : list string) (x : string) : bool :=
  existsb (String.eqb x) values.

(** The [min] validator: an unset path passes, a number passes when it is
    [>= min]. A [NaN] does not survive the cast to [Number], which save
    reports as a validation error as well. *)
Definition atLeast (min : Z) (x : option num) : bool :=
  match x with
  | Some v => ge v (of_Z min)
  | None => true
  end.

Definition digit (lo hi : nat) (c : Ascii.ascii) : bool :=
  let n := Ascii.nat_of_ascii c in
  ((48 + lo <=? n) && (n <=? 48 + hi))%nat.

(** The [match] validator of [scheduledTime]:
    [/^([01]?[0-9]|2[0-3]):[0-5][0-9]$/]. *)
Definition matchesTime (s : string) : bool :=
  let is_colon := Ascii.eqb (Ascii.ascii_of_nat 58) in
  match String.list_ascii_of_string s with
  | [h; c; m1; m2] =>
      digit 0 9 h && is_colon c && digit 0 5 m1 && digit 0 9 m2
  | [h1; h2; c; m1; m2] =>
      ((digit 0 1 h1 && digit 0 9 h2) || (digit 2 2 h1 && digit 0 3 h2))
      && is_colon c && digit 0 5 m1 && digit 0 9 m2
  | _ => false
  end.

(** The validators that Mongoose derives from the schema and runs on every
    [save()], before the hooks, on the paths of this record: [required] and
    [match] on [scheduledTime], [required] and [min: 15] on
    [estimatedDuration], [required] on [servicePrice] and [totalAmount],
    [min: 0] on the four amounts and on [refundAmount], [enum] on [status],
    on [cancellation.reason] when it is set and on
    [cancellation.refundStatus]. The entries of [statusHistory] carry no
    validator. The paths that the record leaves out ([title], the address,
    the messages) are taken to hold what their validators accept, and the
    identifiers to be well formed. *)
Definition validate (this : booking) : bool :=
  matchesTime (scheduledTime this)
  && ge (estimatedDuration this) (of_Z 15)
  && bool_decide (is_Some (Pricing.servicePrice (pricing this)))
  && atLeast 0 (Pricing.servicePrice (pricing this))
  && atLeast 0 (Pricing.platformFee (pricing this))
  && atLeast 0 (Pricing.taxes (pricing this))
  && bool_decide (is_Some (Pricing.totalAmount (pricing this)))
  && atLeast 0 (Pricing.totalAmount (pricing this))
  && oneOf statuses (status this)
  && match Cancellation.reason (cancellation this) with
     | Some reason => oneOf cancellationReasons reason
     | None => true
     end
  && atLeast 0 (Cancellation.refundAmount (cancellation this))
  && oneOf refundStatuses (Cancellation.refundStatus (cancellation this)).

(** [await this.save()]: the validators, then [save]. A document that a
    validator refuses is not written, and the promise is rejected with a
    [ValidationError]. *)
Definition awaitSave (now : Z) (this : booking) : Js.completion booking :=
  if validate this then Return (save now this) else Throw ValidationError.

(** The writes of [bookingSchema.methods.updateStatus], up to its
    [this.save()]; [now] is the instant read by the [new Date()] calls of
    the body. *)
Definition updateStatus_writes (newStatus : string) (changedBy : ObjectId)
    (reason notes : string) (now : Z) (this : booking) : booking :=
  let oldStatus := status this in
  let this :=
    set_statusHistory
      (statusHistory this ++
         [ {| Entry.status := oldStatus;
              Entry.changedAt := now;
              Entry.changedBy := changedBy;
              Entry.reason := reason;
              Entry.notes := notes |} ])
      this in
  let this := set_status newStatus this in
  let this :=
    if String.eqb newStatus "completed"
       && negb (bool_decide (is_Some (Completion.completedAt (completion this))))
    then
      set_completion
        {| Completion.completedAt := Some now;
           Completion.workSummary := Completion.workSummary (completion this);
           Completion.providerNotes := Completion.providerNotes (completion this) |}
        this
    else this in
  let this :=
    if String.eqb newStatus "cancelled"
       && negb (bool_decide (is_Some (Cancellation.cancelledAt (cancellation this))))
    then
      set_cancellation
        {| Cancellation.cancelledAt := Some now;
           Cancellation.cancelledBy := Some changedBy;
           Cancellation.reason := Some reason;
           Cancellation.refundAmount := Cancellation.refundAmount (cancellation this);
           Cancellation.refundStatus := Cancellation.refundStatus (cancellation this) |}
        this
    else this in
  this.

(** [bookingSchema.methods.updateStatus], for the document it leaves when
    its [save()] goes through. *)
Definition updateStatus (newStatus : string) (changedBy : ObjectId)
    (reason notes : string) (now : Z) (this : booking) : booking :=
  save now (updateStatus_writes newStatus changedBy reason notes now this).

(** [await booking.updateStatus(...)]: the same writes, handed to the
    validators of [save()]. *)
Definition awaitUpdateStatus (newStatus : string) (changedBy : ObjectId)
    (reason notes : string) (now : Z) (this : booking) : Js.completion booking :=
  awaitSave now (updateStatus_writes newStatus changedBy reason notes now this).

(** [bookingSchema.methods.calculateCancellationFee]; [now] is the instant
    read by [new Date()]. *)
Definition calculateCancellationFee (now : Z) (this : booking) : num :=
  let bookingTime := of_Z (scheduledDate this) in
  let hoursUntilBooking :=
    div (sub bookingTime (of_Z now)) (of_Z (1000 * 60 * 60)) in
  if gt hoursUntilBooking (of_Z 24) then of_Z 0
  else if gt hoursUntilBooking (of_Z 2)
       then mul (to_num (Pricing.totalAmount (pricing this))) (JFin (25 # 100))
       else mul (to_num (Pricing.totalAmount (pricing this))) (JFin (5 # 10)).

(** The minutes into the day of a time of day in the format of
    [scheduledTime], [H:MM] or [HH:MM]. *)
Definition minutesOfDay (time : string) : Z :=
  let value := fun c => Z.of_nat (Ascii.nat_of_ascii c) - 48 in
  match String.list_ascii_of_string time with
  | [h; _; m1; m2] => value h * 60 + value m1 * 10 + value m2
  | [h1; h2; _; m1; m2] => (value h1 * 10 + value h2) * 60 + value m1 * 10 + value m2
  | _ => 0
  end.

(** The instant a booking is scheduled for, its date and its time of day
    together: what the creation route builds from the two fields of the
    request ([new Date(`${scheduledDate}T${scheduledTime}`)]) to check the
    advance notice. [scheduledDate] is the first instant of the day, and the
    clock of the server is taken to run on UTC. *)
Definition scheduledInstant (this : booking) : Z :=
  scheduledDate this + minutesOfDay (scheduledTime this) * 60000.

(** The entry that the creation hook appends. *)
Definition creationEntry (state : string) (now : Z) (by_customer : ObjectId)
  : Entry.t :=
  {| Entry.status := state;
     Entry.changedAt := now;
     Entry.changedBy := by_customer;
     Entry.reason := "Booking created";
     Entry.notes := "Initial booking request" |}.

(** A booking after writes to the three components of the price. *)
Definition priced (a f t : Q) (b : booking) : booking :=
  mutate (SetTaxes (Some (JFin t)))
    (mutate (SetPlatformFee (Some (JFin f)))
       (mutate (SetServicePrice (Some (JFin a))) b)).

End Booking.

(* ===================================================================== *)
(** ** bookingSchema.pricing and the hook of the total, on doubles         *)
(* ===================================================================== *)

(** The sum that the first [pre('save')] hook stores is where the binary
    rounding of JavaScript's numbers shows ([0.1 + 0.2]), so this module has
    the pricing paths, their validators and the hook on IEEE 754 binary64
    numbers, the primitive floats of the kernel. *)
Module BookingPricing.
Import Js.
Import Floats.

(** [pricing]: [None] is a path that is not set. *)
Record pricing : Type := {
  servicePrice : option float;
  platformFee : option float;
  taxes : option float;
  totalAmount : option float;
  currency : string
}.

(** The part of a booking document that the total depends on: [pricing],
    and what [this.isModified('pricing')] answers. *)
Record document : Type := {
  price : pricing;
  pricingModified : bool
}.

Definition set_totalAmount (t : option float) (p : pricing) : pricing :=
  {| servicePrice := servicePrice p; platformFee := platformFee p;
     taxes := taxes p; totalAmount := t; currency := currency p |}.

(** A write to one of the pricing paths. *)
Inductive mutation : Type :=
| SetServicePrice (x : option float)
| SetPlatformFee (x : option float)
| SetTaxes (x : option float)
| SetTotalAmount (x : option float).

(** The write, as the document tracks it: the path gets its value and
    [pricing] counts as modified. *)
Definition mutate (m : mutation) (d : document) : document :=
  let p := price d in
  {| price :=
       match m with
       | SetServicePrice x =>
           {| servicePrice := x; platformFee := platformFee p; taxes := taxes p;
              totalAmount := totalAmount p; currency := currency p |}
       | SetPlatformFee x =>
           {| servicePrice := servicePrice p; platformFee := x; taxes := taxes p;
              totalAmount := totalAmount p; currency := currency p |}
       | SetTaxes x =>
           {| servicePrice := servicePrice p; platformFee := platformFee p; taxes := x;
              totalAmount := totalAmount p; currency := currency p |}
       | SetTotalAmount x => set_totalAmount x p
       end;
     pricingModified := true |}.

(** [x || 0]: an unset path, [NaN] and the two zeros are falsy. *)
Definition or_zero (x : option float) : float :=
  match x with
  | Some v => if PrimFloat.is_nan v || PrimFloat.is_zero v then 0%float else v
  | None => 0%float
  end.

(** The first [bookingSchema.pre('save')]. *)
Definition preSave_totalAmount (this : document) : document :=
  if pricingModified this then
    let servicePrice := servicePrice (price this) in
    let platformFee := platformFee (price this) in
    let taxes := taxes (price this) in
    {| price :=
         set_totalAmount
           (Some (or_zero servicePrice + or_zero platformFee + or_zero taxes)%float)
           (price this);
       pricingModified := pricingModified this |}
  else this.

(** The [min: 0] validator: an unset path passes, a number passes when it
    is [>= 0], which [NaN] is not. *)
Definition atLeastZero (x : option float) : bool :=
  match x with
  | Some v => (0 <=? v)%float
  | None => true
  end.

(** The validators of the pricing paths: [required] on [servicePrice] and
    on [totalAmount], [min: 0] on the four amounts. *)
Definition validate (p : pricing) : bool :=
  bool_decide (is_Some (servicePrice p)) && atLeastZero (servicePrice p)
  && atLeastZero (platformFee p)
  && atLeastZero (taxes p)
  && bool_decide (is_Some (totalAmount p)) && atLeastZero (totalAmount p).

(** [await this.save()], for what it does to [pricing]: the validators run
    first, on the document as it was written, then the hook; the change
    tracking is reset once the document is stored. [others] tells whether
    the validators of the other paths of the booking let it through. *)
Definition save (others : bool) (this : document) : completion document :=
  if others && validate (price this)
  then Return {| price := price (preSave_totalAmount this); pricingModified := false |}
  else Throw ValidationError.


(** Two doubles are the same number when they are the same double or are
    both zero: [0] and [-0] are one number with two representations. *)
Definition same_number (x y : float) : Prop :=
  x = y \/ (PrimFloat.is_zero x = true /\ PrimFloat.is_zero y = true).

(** A stored booking of 100 plus a fee of 10 and 5 of taxes. *)
Definition quoted : document :=
  {| price := {| servicePrice := Some 100%float; platformFee := Some 10%float;
                 taxes := Some 5%float; totalAmount := Some 115%float;
                 currency := "USD" |};
     pricingModified := false |}.

End BookingPricing.

(* ===================================================================== *)
(** ** models/Community.js                                                *)
(* ===================================================================== *)

Module Community.
Import Js.

(** An entry of [engagement.likes]. *)
Record like : Type := {
  user : ObjectId;
  likedAt : Z
}.

(** [communitySchema.methods.addLike], as it acts on
    [this.engagement.likes]. The [save()] that follows a push rewrites the
    expiry flags and the engagement rate only. *)
Definition addLike (userId : ObjectId) (now : Z) (likes : list like) : list like :=
  let existingLike := find (fun like => String.eqb (user like) userId) likes in
  match existingLike with
  | None => likes ++ [ {| user := userId; likedAt := now |} ]
  | Some _ => likes
  end.

(** [communitySchema.methods.removeLike] *)
Definition removeLike (userId : ObjectId) (likes : list like) : list like :=
  filter (fun like => negb (String.eqb (user like) userId) = true) likes.



(** The number of entries that [userId] holds in the list. *)
Definition likesOf (userId : ObjectId) (likes : list like) : nat :=
  length (filter (fun like => user like = userId) likes).



End Community.

(* ===================================================================== *)
(** ** reviewSchema (models/Review.js, listed in models/Community.js)     *)
(* ===================================================================== *)

Module Review.
Import Js.

Record review : Type := {
  reviewer : ObjectId;
  reviewee : ObjectId;
  service : ObjectId;
  booking : ObjectId;
  rating : num;
  comment : string;
  reviewType : string;
  isActive : bool
}.

(** The [reviews] collection, oldest document first. *)
Abbreviation collection := (list review).

(** [Review.findOne({ booking, reviewType })] *)
Definition findOne (bookingId : ObjectId) (type : string) (c : collection)
  : option review :=
  find (fun r => String.eqb (booking r) bookingId && String.eqb (reviewType r) type) c.

(** [Review.create(data)]: the schema declares [booking] with
    [unique: true], so the insert fails with the duplicate-key error
    (code 11000) when a document with the same [booking] is stored. *)
Definition create (data : review) (c : collection) : completion collection :=
  if existsb (fun r => String.eqb (booking r) (booking data)) c
  then Throw (DuplicateKey "booking" (booking data))
  else Return (c ++ [data]).

End Review.

(* ===================================================================== *)
(** ** middleware/errorHandler.js and middleware/auth.js                   *)
(* ===================================================================== *)

Module Middleware.
Import Js.

Definition toUpperCase_ascii (c : Ascii.ascii) : Ascii.ascii :=
  let n := Ascii.nat_of_ascii c in
  if ((97 <=? n) && (n <=? 122))%nat then Ascii.ascii_of_nat (n - 32) else c.

(** [field.charAt(0).toUpperCase() + field.slice(1)] *)
Definition capitalize (s : string) : string :=
  match s with
  | EmptyString => EmptyString
  | String c rest => String (toUpperCase_ascii c) rest
  end.

(** [errorHandler], on the errors of this model: the status code and the
    message of the envelope it sends. *)
Definition errorHandler (err : error) : response :=
  match err with
  | CastError => {| statusCode := 404; message := "Resource not found" |}
  | DuplicateKey field val =>
      {| statusCode := 400;
         message := capitalize field +:+ " '" +:+ val +:+ "' already exists" |}
  | ValidationError => {| statusCode := 400; message := "Validation Error" |}
  | TypeError msg =>
      {| statusCode := 500;
         message := if String.eqb msg "" then "Internal Server Error" else msg |}
  end.

(** What [bookingParticipant] leaves on the request for the handler:
    [req.user] is there from [protect], the other three are added. *)
Record participant : Type := {
  user : ObjectId;
  booking : Booking.booking;
  isCustomer : bool;
  isProvider : bool
}.

(** [bookingParticipant]: [req_user] is [req.user], [found] the result of
    [Booking.findById(req.params.id)]. *)
Definition bookingParticipant (req_user : option ObjectId)
    (found : option Booking.booking) : response + participant :=
  match req_user with
  | None => inl {| statusCode := 401; message := "Authentication required" |}
  | Some userId =>
      match found with
      | None => inl {| statusCode := 404; message := "Booking not found" |}
      | Some b =>
          let customerId := Booking.customer b in
          let providerId := Booking.provider b in
          if negb (String.eqb userId customerId) && negb (String.eqb userId providerId)
          then inl {| statusCode := 403;
                      message := "Access denied - not a participant in this booking" |}
          else inr {| user := userId;
                      booking := b;
                      isCustomer := String.eqb userId customerId;
                      isProvider := String.eqb userId providerId |}
      end
  end.

End Middleware.

(* ===================================================================== *)
(** ** routes/bookings.js                                                 *)
(* ===================================================================== *)

Module BookingRoutes.
Import Js.

Definition bad_request (msg : string) : response :=
  {| statusCode := 400; message := msg |}.

Definition forbidden (msg : string) : response :=
  {| statusCode := 403; message := msg |}.

(** *** [PUT /api/bookings/:id/status] *)

(** The body of the request, after the sanitizers of the validator chain. *)
Module StatusBody.
Record t : Type := {
  status : string;
  reason : option string;
  notes : option string
}.
End StatusBody.

(** The [validTransitions] object literal of the handler. *)
Definition validTransitions : list (string * list string) :=
  [ ("pending", ["confirmed"; "cancelled"]);
    ("confirmed", ["in_progress"; "cancelled"; "no_show"]);
    ("in_progress", ["completed"; "cancelled"]);
    ("completed", []);
    ("cancelled", []);
    ("no_show", []) ].

(** [validTransitions[key]]: [None] is [undefined]. *)
Definition transitionsFrom (key : string) : option (list string) :=
  snd <$> find (fun entry => String.eqb (fst entry) key) validTransitions.

Definition includes (xs : list string) (x : string) : bool :=
  existsb (String.eqb x) xs.

(** The handler, behind [protect] and [bookingParticipant]; [errors] are
    the messages that [validationResult(req)] holds for the body. The
    result is what the request does to the stored booking: [Accepted] with
    the booking that [updateStatus] has stored, or [Rejected] with the error
    response, nothing being stored. After [updateStatus] the handler goes on
    to the counters of the service and to the reputation of the provider,
    which are other documents, and then builds its response. *)
Definition updateBookingStatus (now : Z) (req_user : option ObjectId)
    (found : option Booking.booking) (errors : list string) (body : StatusBody.t)
  : outcome Booking.booking :=
  match Middleware.bookingParticipant req_user found with
  | inl r => Rejected r
  | inr req =>
      if negb (bool_decide (errors = [])) then Rejected (bad_request "Validation Error")
      else
        let status := StatusBody.status body in
        let reason := default "" (StatusBody.reason body) in
        let notes := default "" (StatusBody.notes body) in
        let booking := Middleware.booking req in
        match transitionsFrom (Booking.status booking) with
        | None =>
            Rejected (Middleware.errorHandler
                        (TypeError "Cannot read properties of undefined (reading 'includes')"))
        | Some allowed =>
            if negb (includes allowed status) then
              Rejected (bad_request ("Cannot change status from "
                                     +:+ Booking.status booking +:+ " to " +:+ status))
            else if String.eqb status "confirmed" && negb (Middleware.isProvider req) then
              Rejected (forbidden "Only service provider can confirm bookings")
            else if String.eqb status "completed" && negb (Middleware.isProvider req) then
              Rejected (forbidden "Only service provider can mark bookings as completed")
            else
              match Booking.awaitUpdateStatus status (Middleware.user req)
                                              reason notes now booking with
              | Throw e => Rejected (Middleware.errorHandler e)
              | Return stored => Accepted stored
              end
        end
  end.

(** The transition graph as the specification lists it, edge by edge. *)
Definition specTransitions : list (string * string) :=
  [ ("pending", "confirmed"); ("pending", "cancelled");
    ("confirmed", "in_progress"); ("confirmed", "cancelled"); ("confirmed", "no_show");
    ("in_progress", "completed"); ("in_progress", "cancelled") ].

Definition specTransition (src dst : string) : bool :=
  existsb (fun edge => String.eqb (fst edge) src && String.eqb dst (snd edge))
          specTransitions.

(** The requests that the specification lets through: the requester is a
    participant of the booking, the body is well formed, the transition is
    an edge of the graph, and a move into [confirmed] or [completed] comes
    from the provider. *)
Definition specAccepts (uid : ObjectId) (b : Booking.booking) (errors : list string)
    (body : StatusBody.t) : bool :=
  (String.eqb uid (Booking.customer b) || String.eqb uid (Booking.provider b))
  && bool_decide (errors = [])
  && specTransition (Booking.status b) (StatusBody.status body)
  && (if String.eqb (StatusBody.status body) "confirmed"
         || String.eqb (StatusBody.status body) "completed"
      then String.eqb uid (Booking.provider b)
      else true).

(** *** [DELETE /api/bookings/:id] *)

(** What a cancellation that goes through leaves: the booking, and the
    [data] of the response. *)
Module Cancelled.
Record t : Type := {
  booking : Booking.booking;
  refundAmount : num;
  cancellationFee : num;
  refundStatus : string
}.
End Cancelled.

(** How a cancellation request ends. The handler saves twice: inside
    [updateStatus], and again after it has put the refund on the booking. *)
Inductive cancelOutcome : Type :=
| Refused (r : response)
    (** an error response, nothing stored *)
| CancelledWithoutRefund (stored : Booking.booking) (r : response)
    (** the first save went through and [stored] is the booking it wrote;
        the second one was refused, and the response is its error *)
| Cancelled (c : Cancelled.t)
    (** both saves went through *).

(** The handler, behind [protect] and [bookingParticipant]; [errors] are
    the messages that [validationResult(req)] holds for the body, [reason]
    is [req.body.reason] as the sanitizers of the chain leave it. *)
Definition cancelBooking (now : Z) (req_user : option ObjectId)
    (found : option Booking.booking) (errors : list string) (reason : string)
  : cancelOutcome :=
  match Middleware.bookingParticipant req_user found with
  | inl r => Refused r
  | inr req =>
      if negb (bool_decide (errors = [])) then Refused (bad_request "Validation Error")
      else
        let booking := Middleware.booking req in
        if negb (includes ["pending"; "confirmed"] (Booking.status booking)) then
          Refused (bad_request "Only pending or confirmed bookings can be cancelled")
        else
          let cancellationFee := Booking.calculateCancellationFee now booking in
          let refundAmount :=
            sub (to_num (Booking.Pricing.totalAmount (Booking.pricing booking)))
                cancellationFee in
          match Booking.awaitUpdateStatus "cancelled" (Middleware.user req) reason ""
                                          now booking with
          | Throw e => Refused (Middleware.errorHandler e)
          | Return booking =>
              let c := Booking.cancellation booking in
              let refundStatus :=
                if gt refundAmount (of_Z 0) then "pending" else "not_applicable" in
              let written :=
                Booking.set_cancellation
                  {| Booking.Cancellation.cancelledAt := Booking.Cancellation.cancelledAt c;
                     Booking.Cancellation.cancelledBy := Booking.Cancellation.cancelledBy c;
                     Booking.Cancellation.reason := Booking.Cancellation.reason c;
                     Booking.Cancellation.refundAmount := Some refundAmount;
                     Booking.Cancellation.refundStatus := refundStatus |}
                  booking in
              match Booking.awaitSave now written with
              | Throw e => CancelledWithoutRefund booking (Middleware.errorHandler e)
              | Return booking =>
                  Cancelled {| Cancelled.booking := booking;
                               Cancelled.refundAmount := refundAmount;
                               Cancelled.cancellationFee := cancellationFee;
                               Cancelled.refundStatus := refundStatus |}
              end
          end
  end.

(** *** [POST /api/bookings] *)

Module CreateBody.
Record t : Type := {
  service : ObjectId;
  scheduledDate : string;
  scheduledTime : string;
  estimatedDuration : num;
  status : option string;
  statusHistory : list Booking.Entry.t
}.
End CreateBody.

(** A request behind [protect]: the authenticated user, the messages that
    [validationResult(req)] holds for the body, and the body. *)
Record createRequest : Type := {
  user : ObjectId;
  errors : list string;
  body : CreateBody.t
}.

(** [Math.round(x * 100) / 100] *)
Definition round_cents (x : num) : num :=
  div (round (mul x (of_Z 100))) (of_Z 100).

Section Handlers.

Variable render : string -> Date -> string.
Variable parse_date : string -> Date.
(** [String(n)], for the message that quotes the advance-booking hours. *)
Variable show_num : num -> string.

Definition createBooking (services : gmap string Service.service) (now : Z)
    (req : createRequest) : outcome Booking.booking :=
  if negb (bool_decide (errors req = [])) then
    Rejected (bad_request "Validation Error")
  else
    match services !! CreateBody.service (body req) with
    | None => Rejected (bad_request "Service is not available for booking")
    | Some service =>
        if negb (Service.isActive service) || Service.isPaused service then
          Rejected (bad_request "Service is not available for booking")
        else if String.eqb (Service.provider service) (user req) then
          Rejected (bad_request "Cannot book your own service")
        else
          let bookingDateTime :=
            parse_date (CreateBody.scheduledDate (body req) +:+ "T"
                        +:+ CreateBody.scheduledTime (body req)) in
          let advanceBooking :=
            Service.Availability.advanceBooking (Service.availability service) in
          let advance := if truthy advanceBooking then advanceBooking else of_Z 24 in
          let minBookingTime :=
            Service.new_Date parse_date
              (Service.FromMillis
                 (add (of_Z now)
                      (mul (mul (mul advance (of_Z 60)) (of_Z 60)) (of_Z 1000)))) in
          if lt (date_value bookingDateTime) (date_value minBookingTime) then
            Rejected (bad_request ("Booking must be at least " +:+ show_num advance
                                   +:+ " hours in advance"))
          else
            match Service.isAvailable render parse_date service
                    (Service.FromDate bookingDateTime)
                    (CreateBody.estimatedDuration (body req)) with
            | Throw e => Rejected (Middleware.errorHandler e)
            | Return false =>
                Rejected (bad_request "Service is not available at the requested time")
            | Return true =>
                let amount := Service.Pricing.amount (Service.pricing service) in
                let servicePrice :=
                  if String.eqb (Service.Pricing.type (Service.pricing service)) "hourly"
                  then mul amount (div (CreateBody.estimatedDuration (body req)) (of_Z 60))
                  else amount in
                let platformFee := mul servicePrice (JFin (3 # 100)) in
                let taxes := mul (add servicePrice platformFee) (JFin (8 # 100)) in
                let totalAmount := add (add servicePrice platformFee) taxes in
                match parse_date (CreateBody.scheduledDate (body req)) with
                | None => Rejected (Middleware.errorHandler ValidationError)
                | Some scheduled =>
                    match
                      Booking.awaitSave now
                         {| Booking.customer := user req;
                            Booking.provider := Service.provider service;
                            Booking.service := CreateBody.service (body req);
                            Booking.scheduledDate := scheduled;
                            Booking.scheduledTime := CreateBody.scheduledTime (body req);
                            Booking.estimatedDuration :=
                              CreateBody.estimatedDuration (body req);
                            Booking.pricing :=
                              {| Booking.Pricing.servicePrice := Some (round_cents servicePrice);
                                 Booking.Pricing.platformFee := Some (round_cents platformFee);
                                 Booking.Pricing.taxes := Some (round_cents taxes);
                                 Booking.Pricing.totalAmount := Some (round_cents totalAmount);
                                 Booking.Pricing.currency :=
                                   Service.Pricing.currency (Service.pricing service) |};
                            Booking.status :=
                              default "pending" (CreateBody.status (body req));
                            Booking.statusHistory := CreateBody.statusHistory (body req);
                            Booking.completion :=
                              {| Booking.Completion.completedAt := None;
                                 Booking.Completion.workSummary := None;
                                 Booking.Completion.providerNotes := None |};
                            Booking.cancellation :=
                              {| Booking.Cancellation.cancelledAt := None;
                                 Booking.Cancellation.cancelledBy := None;
                                 Booking.Cancellation.reason := None;
                                 Booking.Cancellation.refundAmount := None;
                                 Booking.Cancellation.refundStatus := "not_applicable" |};
                            Booking.isNew := true;
                            Booking.pricingModified := true |}
                    with
                    | Throw e => Rejected (Middleware.errorHandler e)
                    | Return stored => Accepted stored
                    end
                end
            end
    end.

End Handlers.

End BookingRoutes.

(* ===================================================================== *)
(** ** routes/reviews.js                                                  *)
(* ===================================================================== *)

Module ReviewRoutes.
Import Js.

Module Body.
Record t : Type := {
  booking : ObjectId;
  rating : num;
  comment : string;
  reviewType : string
}.
End Body.

(** A request behind [protect]. *)
Record request : Type := {
  user : ObjectId;
  errors : list string;
  body : Body.t
}.

Definition bad_request (msg : string) : response :=
  {| statusCode := 400; message := msg |}.

(** [POST /api/reviews]. After [Review.create] the handler records the
    review on the booking and refreshes the aggregates of the service and
    of the reviewee, which are other documents. *)
Definition createReview (bookings : gmap string Booking.booking)
    (reviews : Review.collection) (req : request)
  : outcome Review.collection :=
  if negb (bool_decide (errors req = [])) then
    Rejected (bad_request "Validation Error")
  else
    match bookings !! Body.booking (body req) with
    | None => Rejected {| statusCode := 404; message := "Booking not found" |}
    | Some booking =>
        if negb (String.eqb (Booking.status booking) "completed") then
          Rejected (bad_request "Can only review completed bookings")
        else
          let isCustomer := String.eqb (Booking.customer booking) (user req) in
          let isProvider := String.eqb (Booking.provider booking) (user req) in
          if negb isCustomer && negb isProvider then
            Rejected {| statusCode := 403;
                        message := "Not authorized to review this booking" |}
          else if isCustomer
                  && negb (String.eqb (Body.reviewType (body req)) "customer_to_provider") then
            Rejected (bad_request "Customers can only create customer_to_provider reviews")
          else if isProvider
                  && negb (String.eqb (Body.reviewType (body req)) "provider_to_customer") then
            Rejected (bad_request "Providers can only create provider_to_customer reviews")
          else
            let existingReview :=
              Review.findOne (Body.booking (body req)) (Body.reviewType (body req)) reviews in
            match existingReview with
            | Some _ => Rejected (bad_request "Review already exists for this booking")
            | None =>
                let reviewer :=
                  if isCustomer then Booking.customer booking else Booking.provider booking in
                let reviewee :=
                  if isCustomer then Booking.provider booking else Booking.customer booking in
                let reviewData :=
                  {| Review.reviewer := reviewer;
                     Review.reviewee := reviewee;
                     Review.service := Booking.service booking;
                     Review.booking := Body.booking (body req);
                     Review.rating := Body.rating (body req);
                     Review.comment := Body.comment (body req);
                     Review.reviewType := Body.reviewType (body req);
                     Review.isActive := true |} in
                match Review.create reviewData reviews with
                | Throw e => Rejected (Middleware.errorHandler e)
                | Return reviews' => Accepted reviews'
                end
            end
    end.

End ReviewRoutes.

(* ===================================================================== *)
(** ** socket/handlers.js                                                 *)
(* ===================================================================== *)

Module SocketHandlers.
Import Js.

(** The properties that [authenticateSocket] reads. *)
Inductive property : Type :=
| handshake | auth | token | headers | authorization | id.

Definition name (p : property) : string :=
  match p with
  | handshake => "handshake"
  | auth => "auth"
  | token => "token"
  | headers => "headers"
  | authorization => "authorization"
  | id => "id"
  end.

(** [v.p] for one of these properties; [VNull] stands for [undefined] and
    for [null]. An object has the property when it is among its fields. An
    array and a primitive value do not have it: none of the six names is an
    index, [length] or a method of a prototype. Reading it from [undefined]
    throws. *)
Definition get (v : value) (p : property) : completion value :=
  match v with
  | VNull =>
      Throw (TypeError ("Cannot read properties of undefined (reading '"
                        +:+ name p +:+ "')"))
  | VObj fields =>
      Return (default VNull
                (snd <$> find (fun field => String.eqb (fst field) (name p)) fields))
  | _ => Return VNull
  end.

(** Truthiness of a value. *)
Definition truthy_value (v : value) : bool :=
  match v with
  | VNull => false
  | VBool b => b
  | VNum n => truthy n
  | VStr s => negb (String.eqb s "")
  | _ => true
  end.

(** [s.split(' ')] *)
Fixpoint split_spaces (s : string) : list string :=
  match s with
  | EmptyString => [EmptyString]
  | String c rest =>
      if Ascii.eqb c (Ascii.ascii_of_nat 32) then EmptyString :: split_spaces rest
      else match split_spaces rest with
           | piece :: pieces => String c piece :: pieces
           | [] => [String c EmptyString]
           end
  end.

(** [a?.split(' ')[1]]: [undefined] for a nullish [a], the second piece of
    a string or [undefined] when there is none; anything else has no
    [split] to call. *)
Definition bearer (a : value) : completion value :=
  match a with
  | VNull => Return VNull
  | VStr s => Return (default VNull (VStr <$> split_spaces s !! 1%nat))
  | _ => Throw (TypeError "socket.handshake.headers.authorization?.split is not a function")
  end.

(** The user document that [User.findById] returns. *)
Record account : Type := {
  _id : ObjectId;
  isActive : bool;
  isSuspended : bool
}.

Section Connection.

(** [jwt.verify(token, process.env.JWT_SECRET)]: the decoded payload, or the
    exception of a token that does not verify. *)
Variable verify : value -> completion value.
(** [User.findById(id).select('-password')] *)
Variable findById : value -> completion (option account).

(** The body of the [try] block of [authenticateSocket]: the message of the
    error it passes to [next], or the user it puts on its argument before
    it calls [next()]. *)
Definition authenticate (socket : value) : completion (string + account) :=
  match get socket handshake with
  | Throw e => Throw e
  | Return shake =>
      match get shake auth with
      | Throw e => Throw e
      | Return credentials =>
          match get credentials token with
          | Throw e => Throw e
          | Return given =>
              let found :=
                if truthy_value given then Return given
                else
                  match get shake headers with
                  | Throw e => Throw e
                  | Return head =>
                      match get head authorization with
                      | Throw e => Throw e
                      | Return a => bearer a
                      end
                  end in
              match found with
              | Throw e => Throw e
              | Return tok =>
                  if negb (truthy_value tok) then
                    Return (inl "Authentication error: No token provided")
                  else
                    match verify tok with
                    | Throw e => Throw e
                    | Return decoded =>
                        match get decoded id with
                        | Throw e => Throw e
                        | Return userId =>
                            match findById userId with
                            | Throw e => Throw e
                            | Return None =>
                                Return (inl "Authentication error: Invalid user")
                            | Return (Some user) =>
                                if negb (isActive user) || isSuspended user then
                                  Return (inl "Authentication error: Invalid user")
                                else Return (inr user)
                            end
                        end
                    end
              end
          end
      end
  end.

(** [authenticateSocket]: whatever the [try] block throws ends in the
    [catch], which passes its own error to [next]. *)
Definition authenticateSocket (socket : value) : string + account :=
  match authenticate socket with
  | Return result => result
  | Throw _ => inl "Authentication error: Invalid token"
  end.

(** The listener of the [booking_status_update] event: the message of the
    [error] event it emits, or the booking that [updateStatus] has stored;
    [userId] is [socket.userId], [found] the result of
    [Booking.findById(bookingId)], and [status], [reason] and [notes] are
    the properties of the data of the event. The listener consults no
    transition table; a save that the validators refuse ends in its
    [catch]. *)
Definition booking_status_update (now : Z) (userId : option ObjectId)
    (found : option Booking.booking) (status : string) (reason notes : option string)
  : string + Booking.booking :=
  match found with
  | None => inl "Booking not found"
  | Some booking =>
      let isParticipant :=
        bool_decide (Some (Booking.customer booking) = userId)
        || bool_decide (Some (Booking.provider booking) = userId) in
      if negb isParticipant then inl "Not authorized for this booking"
      else
        match Booking.awaitUpdateStatus status (default "" userId) (default "" reason)
                                        (default "" notes) now booking with
        | Throw _ => inl "Failed to update booking status"
        | Return stored => inr stored
        end
  end.

(** An incoming event. The connection installs [authenticateSocket] with
    [socket.use], and a function installed that way is called with the
    packet, the array of the event name and its arguments, where
    [authenticateSocket] expects the socket. The listener of the event is
    called when the function has called [next] without an error;
    [listener] is what it then does, and [None] is a packet that does not
    get that far. *)
Definition onevent {A : Type} (event : string) (args : list value) (listener : A)
  : option A :=
  let packet := VArr (VStr event :: args) in
  match authenticateSocket packet with
  | inl _ => None
  | inr _ => Some listener
  end.

End Connection.

End SocketHandlers.

(* ===================================================================== *)
(** ** Concrete documents and requests                                    *)
(* ===================================================================== *)

Module Scenario.
Import Js.

Definition hour : Z := 3600000.

(** A booking of alice with bob in the state [state], on the day that
    starts at instant [at_ms], at the time of day [time], for a total of
    [total]. *)
Definition bookedAt (at_ms : Z) (time : string) (total : Z) (state : string)
  : Booking.booking :=
  {| Booking.customer := "alice";
     Booking.provider := "bob";
     Booking.service := "s1";
     Booking.scheduledDate := at_ms;
     Booking.scheduledTime := time;
     Booking.estimatedDuration := of_Z 60;
     Booking.pricing :=
       {| Booking.Pricing.servicePrice := Some (of_Z total);
          Booking.Pricing.platformFee := Some (of_Z 0);
          Booking.Pricing.taxes := Some (of_Z 0);
          Booking.Pricing.totalAmount := Some (of_Z total);
          Booking.Pricing.currency := "USD" |};
     Booking.status := state;
     Booking.statusHistory := [];
     Booking.completion :=
       {| Booking.Completion.completedAt := None;
          Booking.Completion.workSummary := None;
          Booking.Completion.providerNotes := None |};
     Booking.cancellation :=
       {| Booking.Cancellation.cancelledAt := None;
          Booking.Cancellation.cancelledBy := None;
          Booking.Cancellation.reason := None;
          Booking.Cancellation.refundAmount := None;
          Booking.Cancellation.refundStatus := "not_applicable" |};
     Booking.isNew := false;
     Booking.pricingModified := false |}.

(** The same booking at the first minute of its day. *)
Definition booked (at_ms : Z) (total : Z) (state : string) : Booking.booking :=
  bookedAt at_ms "00:00" total state.

Definition bookings : gmap string Booking.booking :=
  {[ "b1" := booked 0 100 "completed" ]}.

Definition reviewBy (who type : string) : ReviewRoutes.request :=
  {| ReviewRoutes.user := who;
     ReviewRoutes.errors := [];
     ReviewRoutes.body :=
       {| ReviewRoutes.Body.booking := "b1";
          ReviewRoutes.Body.rating := of_Z 4;
          ReviewRoutes.Body.comment := "Arrived on time and did the job well";
          ReviewRoutes.Body.reviewType := type |} |}.

Definition storedReview (from to type : string) : Review.review :=
  {| Review.reviewer := from;
     Review.reviewee := to;
     Review.service := "s1";
     Review.booking := "b1";
     Review.rating := of_Z 4;
     Review.comment := "Arrived on time and did the job well";
     Review.reviewType := type;
     Review.isActive := true |}.

(** Bob's service, active, paused or not, open on Mondays. *)
Definition serviceOfBob (paused : bool) : Service.service :=
  {| Service.provider := "bob";
     Service.title := "Garden care";
     Service.pricing :=
       {| Service.Pricing.type := "fixed";
          Service.Pricing.amount := of_Z 100;
          Service.Pricing.currency := "USD" |};
     Service.availability :=
       {| Service.Availability.schedule :=
            [ {| Service.Slot.day := "monday";
                 Service.Slot.startTime := "09:00";
                 Service.Slot.endTime := "17:00";
                 Service.Slot.available := true |} ];
          Service.Availability.exceptions := [];
          Service.Availability.advanceBooking := of_Z 24 |};
     Service.isActive := true;
     Service.isPaused := paused |}.

Definition bookingOf (who : string) : BookingRoutes.createRequest :=
  {| BookingRoutes.user := who;
     BookingRoutes.errors := [];
     BookingRoutes.body :=
       {| BookingRoutes.CreateBody.service := "s1";
          BookingRoutes.CreateBody.scheduledDate := "2030-01-14";
          BookingRoutes.CreateBody.scheduledTime := "10:00";
          BookingRoutes.CreateBody.estimatedDuration := of_Z 60;
          BookingRoutes.CreateBody.status := None;
          BookingRoutes.CreateBody.statusHistory := [] |} |}.

Definition statusRequest (to : string) : BookingRoutes.StatusBody.t :=
  {| BookingRoutes.StatusBody.status := to;
     BookingRoutes.StatusBody.reason := Some "customer_request";
     BookingRoutes.StatusBody.notes := None |}.

(** Stand-ins for the host functions where a scenario does not reach them. *)
Definition no_render (name : string) (d : Date) : string := "".
Definition no_parse (s : string) : Date := None.
Definition no_show (n : num) : string := "".

End Scenario.

(* ===================================================================== *)
(** ** bookingSchema: the message thread and the virtuals                *)
(* ===================================================================== *)

Module BookingThread.
Import Js.

(** An entry of [messages]. *)
Module Message.
Record t : Type := {
  sender : ObjectId;
  message : string;
  timestamp : Z;
  isRead : bool
}.
End Message.

(** [bookingSchema.methods.addMessage], as it acts on [this.messages]. *)
Definition addMessage (senderId : ObjectId) (message : string) (now : Z)
    (messages : list Message.t) : list Message.t :=
  messages ++ [ {| Message.sender := senderId;
                   Message.message := message;
                   Message.timestamp := now;
                   Message.isRead := false |} ].

(** [bookingSchema.methods.markMessagesAsRead], as it acts on
    [this.messages]. *)
Definition markMessagesAsRead (userId : ObjectId) (messages : list Message.t)
  : list Message.t :=
  (fun message =>
     if negb (String.eqb (Message.sender message) userId)
        && negb (Message.isRead message)
     then {| Message.sender := Message.sender message;
             Message.message := Message.message message;
             Message.timestamp := Message.timestamp message;
             Message.isRead := true |}
     else message) <$> messages.

(** The messages that wait for [userId]: sent by someone else, not read. *)
Definition unreadFor (userId : ObjectId) (messages : list Message.t) : nat :=
  length (filter (fun m => Message.sender m <> userId /\ Message.isRead m = false)
                 messages).

(** [bookingSchema.virtual('isUpcoming')]; [now] is [new Date()]. *)
Definition isUpcoming (now : Z) (this : Booking.booking) : bool :=
  (now <? Booking.scheduledDate this)
  && BookingRoutes.includes ["confirmed"; "pending"] (Booking.status this).

(** [bookingSchema.virtual('isOverdue')] *)
Definition isOverdue (now : Z) (this : Booking.booking) : bool :=
  (Booking.scheduledDate this <? now)
  && BookingRoutes.includes ["confirmed"; "in_progress"] (Booking.status this).

End BookingThread.

(* ===================================================================== *)
(** ** Sequences of calls on one booking                                  *)
(* ===================================================================== *)

Module BookingFlow.
Import Js.

(** One call of [updateStatus]. *)
Record transition : Type := {
  target : string;
  actor : ObjectId;
  why : string;
  note : string;
  instant : Z
}.

Definition applyTransition (b : Booking.booking) (t : transition) : Booking.booking :=
  Booking.updateStatus (target t) (actor t) (why t) (note t) (instant t) b.

(** One [PUT /api/bookings/:id/status] request. *)
Record statusCall : Type := {
  caller : ObjectId;
  sentAt : Z;
  problems : list string;
  payload : BookingRoutes.StatusBody.t
}.

(** The requests are served one after the other on the stored booking: an
    accepted one replaces it, a rejected one leaves it. The result is the
    number of accepted requests and the booking at the end. *)
Fixpoint serve (calls : list statusCall) (b : Booking.booking) : nat * Booking.booking :=
  match calls with
  | [] => (0%nat, b)
  | c :: rest =>
      match BookingRoutes.updateBookingStatus (sentAt c) (Some (caller c)) (Some b)
                                              (problems c) (payload c) with
      | Accepted b' => let (n, final) := serve rest b' in (S n, final)
      | Rejected _ => serve rest b
      end
  end.


End BookingFlow.

(* ===================================================================== *)
(** ** serviceSchema: statistics and images; routes/services.js           *)
(* ===================================================================== *)

Module ServiceListing.
Import Js.

(** [stats], the two counters that the completion rate reads. *)
Module Stats.
Record t : Type := {
  completedBookings : num;
  cancelledBookings : num
}.
End Stats.

(** [serviceSchema.virtual('completionRate')] *)
Definition completionRate (stats : Stats.t) : num :=
  let completedBookings := Stats.completedBookings stats in
  let cancelledBookings := Stats.cancelledBookings stats in
  let total := add completedBookings cancelledBookings in
  if gt total (of_Z 0) then mul (div completedBookings total) (of_Z 100) else of_Z 0.

(** An entry of [images]; [None] is a missing [url] or [caption]. *)
Module Image.
Record t : Type := {
  url : option string;
  caption : option string;
  isPrimary : bool
}.
End Image.

(** [serviceSchema.virtual('primaryImage')]; [None] is [null] or
    [undefined]. *)
Definition primaryImage (images : list Image.t) : option string :=
  let primary := find Image.isPrimary images in
  match primary with
  | Some img => Image.url img
  | None =>
      match images with
      | first :: _ => Image.url first
      | [] => None
      end
  end.

(** The [pre('save')] hook of the schema, as it acts on [this.images]. *)
Definition preSave_primaryImage (images : list Image.t) : list Image.t :=
  if (0 <? length images)%nat && negb (existsb Image.isPrimary images) then
    match images with
    | first :: rest =>
        {| Image.url := Image.url first;
           Image.caption := Image.caption first;
           Image.isPrimary := true |} :: rest
    | [] => images
    end
  else images.

Definition primaries (images : list Image.t) : nat :=
  length (filter (fun img => Image.isPrimary img = true) images).

(** The letter T. *)
Definition letter_T : Ascii.ascii := Ascii.ascii_of_nat 84.

(** [s.split('T')[0]] *)
Fixpoint before_T (s : string) : string :=
  match s with
  | EmptyString => EmptyString
  | String c rest =>
      if Ascii.eqb c letter_T then EmptyString else String c (before_T rest)
  end.

Section Handlers.

Variable render : string -> Date -> string.
Variable parse_date : string -> Date.
(** [d.setDate(d.getDate() + i)] on a copy of [d], in the host's calendar. *)
Variable add_days : Date -> nat -> Date.

(** The loop of [GET /api/services/:id] over the next seven days, from day
    [i] on for [n] more days. *)
Fixpoint upcomingAvailability (service : Service.service) (today : Date)
    (i n : nat) : completion (list (string * bool)) :=
  match n with
  | O => Return []
  | S n' =>
      let date := add_days today i in
      let day := before_T (render "toISOString" date) in
      match Service.isAvailable render parse_date service (Service.FromDate date)
                                (of_Z 60) with
      | Throw e => Throw e
      | Return available =>
          match upcomingAvailability service today (S i) n' with
          | Throw e => Throw e
          | Return rest => Return ((day, available) :: rest)
          end
      end
  end.

(** [GET /api/services/:id]: the [upcomingAvailability] of the response.
    The view counter is bumped on the side, its failure is only logged. *)
Definition getService (services : gmap string Service.service) (today : Date)
    (id : string) : outcome (list (string * bool)) :=
  match services !! id with
  | None => Rejected {| statusCode := 404; message := "Service not found" |}
  | Some service =>
      match upcomingAvailability service today 0 7 with
      | Throw e => Rejected (Middleware.errorHandler e)
      | Return availability => Accepted availability
      end
  end.

End Handlers.

End ServiceListing.

(* ===================================================================== *)
(** ** communitySchema: the whole post, its hooks and its other methods   *)
(* ===================================================================== *)

Module CommunityPost.
Import Js.

(** An entry of [engagement.bookmarks]. *)
Module Bookmark.
Record t : Type := {
  user : ObjectId;
  bookmarkedAt : Z
}.
End Bookmark.

(** An entry of [comments]. *)
Module Comment.
Record t : Type := {
  author : ObjectId;
  content : string;
  parentComment : option ObjectId;
  likes : list Community.like;
  isHidden : bool;
  createdAt : Z
}.
End Comment.

(** An entry of [attendees]. *)
Module Attendee.
Record t : Type := {
  user : ObjectId;
  status : string;
  registeredAt : Z;
  checkedIn : bool;
  checkedInAt : option Z
}.
End Attendee.

(** An entry of [moderation.flags]. *)
Module Flag.
Record t : Type := {
  reason : string;
  flaggedBy : ObjectId;
  flaggedAt : Z;
  description : string
}.
End Flag.

(** A post document: [views], [likes], [shares] and [bookmarks] are the
    paths of [engagement], [flags] is [moderation.flags], [engagementRate]
    is [analytics.engagementRate]. *)
Record post : Type := {
  author : ObjectId;
  type : string;
  status : string;
  allowComments : bool;
  views : num;
  likes : list Community.like;
  shares : num;
  bookmarks : list Bookmark.t;
  comments : list Comment.t;
  attendees : list Attendee.t;
  flags : list Flag.t;
  expiresAt : option Z;
  isExpired : bool;
  isPinned : bool;
  pinnedUntil : option Z;
  isFeatured : bool;
  featuredUntil : option Z;
  engagementRate : num
}.

Definition set_status (x : string) (p : post) : post :=
  {| author := author p; type := type p; status := x;
     allowComments := allowComments p; views := views p; likes := likes p;
     shares := shares p; bookmarks := bookmarks p; comments := comments p;
     attendees := attendees p; flags := flags p; expiresAt := expiresAt p;
     isExpired := isExpired p; isPinned := isPinned p;
     pinnedUntil := pinnedUntil p; isFeatured := isFeatured p;
     featuredUntil := featuredUntil p;
     engagementRate := engagementRate p |}.

Definition set_views (x : num) (p : post) : post :=
  {| author := author p; type := type p; status := status p;
     allowComments := allowComments p; views := x; likes := likes p;
     shares := shares p; bookmarks := bookmarks p; comments := comments p;
     attendees := attendees p; flags := flags p; expiresAt := expiresAt p;
     isExpired := isExpired p; isPinned := isPinned p;
     pinnedUntil := pinnedUntil p; isFeatured := isFeatured p;
     featuredUntil := featuredUntil p;
     engagementRate := engagementRate p |}.

Definition set_likes (x : list Community.like) (p : post) : post :=
  {| author := author p; type := type p; status := status p;
     allowComments := allowComments p; views := views p; likes := x;
     shares := shares p; bookmarks := bookmarks p; comments := comments p;
     attendees := attendees p; flags := flags p; expiresAt := expiresAt p;
     isExpired := isExpired p; isPinned := isPinned p;
     pinnedUntil := pinnedUntil p; isFeatured := isFeatured p;
     featuredUntil := featuredUntil p;
     engagementRate := engagementRate p |}.

Definition set_bookmarks (x : list Bookmark.t) (p : post) : post :=
  {| author := author p; type := type p; status := status p;
     allowComments := allowComments p; views := views p; likes := likes p;
     shares := shares p; bookmarks := x; comments := comments p;
     attendees := attendees p; flags := flags p; expiresAt := expiresAt p;
     isExpired := isExpired p; isPinned := isPinned p;
     pinnedUntil := pinnedUntil p; isFeatured := isFeatured p;
     featuredUntil := featuredUntil p;
     engagementRate := engagementRate p |}.

Definition set_comments (x : list Comment.t) (p : post) : post :=
  {| author := author p; type := type p; status := status p;
     allowComments := allowComments p; views := views p; likes := likes p;
     shares := shares p; bookmarks := bookmarks p; comments := x;
     attendees := attendees p; flags := flags p; expiresAt := expiresAt p;
     isExpired := isExpired p; isPinned := isPinned p;
     pinnedUntil := pinnedUntil p; isFeatured := isFeatured p;
     featuredUntil := featuredUntil p;
     engagementRate := engagementRate p |}.

Definition set_attendees (x : list Attendee.t) (p : post) : post :=
  {| author := author p; type := type p; status := status p;
     allowComments := allowComments p; views := views p; likes := likes p;
     shares := shares p; bookmarks := bookmarks p; comments := comments p;
     attendees := x; flags := flags p; expiresAt := expiresAt p;
     isExpired := isExpired p; isPinned := isPinned p;
     pinnedUntil := pinnedUntil p; isFeatured := isFeatured p;
     featuredUntil := featuredUntil p;
     engagementRate := engagementRate p |}.

Definition set_flags (x : list Flag.t) (p : post) : post :=
  {| author := author p; type := type p; status := status p;
     allowComments := allowComments p; views := views p; likes := likes p;
     shares := shares p; bookmarks := bookmarks p; comments := comments p;
     attendees := attendees p; flags := x; expiresAt := expiresAt p;
     isExpired := isExpired p; isPinned := isPinned p;
     pinnedUntil := pinnedUntil p; isFeatured := isFeatured p;
     featuredUntil := featuredUntil p;
     engagementRate := engagementRate p |}.

Definition set_isExpired (x : bool) (p : post) : post :=
  {| author := author p; type := type p; status := status p;
     allowComments := allowComments p; views := views p; likes := likes p;
     shares := shares p; bookmarks := bookmarks p; comments := comments p;
     attendees := attendees p; flags := flags p; expiresAt := expiresAt p;
     isExpired := x; isPinned := isPinned p; pinnedUntil := pinnedUntil p;
     isFeatured := isFeatured p; featuredUntil := featuredUntil p;
     engagementRate := engagementRate p |}.

Definition set_isPinned (x : bool) (p : post) : post :=
  {| author := author p; type := type p; status := status p;
     allowComments := allowComments p; views := views p; likes := likes p;
     shares := shares p; bookmarks := bookmarks p; comments := comments p;
     attendees := attendees p; flags := flags p; expiresAt := expiresAt p;
     isExpired := isExpired p; isPinned := x;
     pinnedUntil := pinnedUntil p; isFeatured := isFeatured p;
     featuredUntil := featuredUntil p;
     engagementRate := engagementRate p |}.

Definition set_isFeatured (x : bool) (p : post) : post :=
  {| author := author p; type := type p; status := status p;
     allowComments := allowComments p; views := views p; likes := likes p;
     shares := shares p; bookmarks := bookmarks p; comments := comments p;
     attendees := attendees p; flags := flags p; expiresAt := expiresAt p;
     isExpired := isExpired p; isPinned := isPinned p;
     pinnedUntil := pinnedUntil p; isFeatured := x;
     featuredUntil := featuredUntil p;
     engagementRate := engagementRate p |}.

Definition set_engagementRate (x : num) (p : post) : post :=
  {| author := author p; type := type p; status := status p;
     allowComments := allowComments p; views := views p; likes := likes p;
     shares := shares p; bookmarks := bookmarks p; comments := comments p;
     attendees := attendees p; flags := flags p; expiresAt := expiresAt p;
     isExpired := isExpired p; isPinned := isPinned p;
     pinnedUntil := pinnedUntil p; isFeatured := isFeatured p;
     featuredUntil := featuredUntil p; engagementRate := x |}.

(** What a method returns: the message of the [Error] it throws, or the
    document it saved. *)
Abbreviation result := (string + post)%type.

(** [Array.prototype.length] as a number. *)
Definition count {A : Type} (xs : list A) : num := of_Z (Z.of_nat (length xs)).

(** [new Date() > d] for an optional date [d]: an unset date is falsy. *)
Definition past (now : Z) (d : option Z) : bool :=
  match d with
  | Some t => t <? now
  | None => false
  end.

(** The first [communitySchema.pre('save')]: expiry of the post, of its
    pin and of its feature flag. *)
Definition preSave_expiration (now : Z) (this : post) : post :=
  let this :=
    if past now (expiresAt this)
    then set_status "archived" (set_isExpired true this)
    else this in
  let this := if past now (pinnedUntil this) then set_isPinned false this else this in
  let this := if past now (featuredUntil this) then set_isFeatured false this else this in
  this.

(** The second [communitySchema.pre('save')]: the engagement rate. *)
Definition preSave_engagementRate (this : post) : post :=
  if gt (views this) (of_Z 0) then
    let totalEngagements :=
      add (add (count (likes this))
               (count (filter (fun c => Comment.isHidden c = false) (comments this))))
          (shares this) in
    set_engagementRate (mul (div totalEngagements (views this)) (of_Z 100)) this
  else this.

(** [this.save()]: the two hooks in the order of their registration. The
    schema validators are not part of the model. *)
Definition save (now : Z) (this : post) : post :=
  preSave_engagementRate (preSave_expiration now this).

(** [communitySchema.methods.addLike] on the document: a repeated like
    resolves to the document without saving it. *)
Definition addLike (userId : ObjectId) (now : Z) (this : post) : post :=
  let existingLike := find (fun like => String.eqb (Community.user like) userId) (likes this) in
  match existingLike with
  | None =>
      save now (set_likes (likes this ++ [ {| Community.user := userId;
                                              Community.likedAt := now |} ]) this)
  | Some _ => this
  end.

(** [communitySchema.methods.removeLike] on the document. *)
Definition removeLike (userId : ObjectId) (now : Z) (this : post) : post :=
  save now
    (set_likes (filter (fun like => negb (String.eqb (Community.user like) userId) = true)
                       (likes this))
               this).

(** [communitySchema.methods.addComment] *)
Definition addComment (authorId : ObjectId) (content : string)
    (parentCommentId : option ObjectId) (now : Z) (this : post) : result :=
  if negb (allowComments this) then inl "Comments are not allowed on this post"
  else
    let newComment :=
      {| Comment.author := authorId;
         Comment.content := content;
         Comment.parentComment := parentCommentId;
         Comment.likes := [];
         Comment.isHidden := false;
         Comment.createdAt := now |} in
    inr (save now (set_comments (comments this ++ [newComment]) this)).

(** [communitySchema.methods.addBookmark] *)
Definition addBookmark (userId : ObjectId) (now : Z) (this : post) : post :=
  let existingBookmark :=
    find (fun bookmark => String.eqb (Bookmark.user bookmark) userId) (bookmarks this) in
  match existingBookmark with
  | None =>
      save now (set_bookmarks (bookmarks this ++ [ {| Bookmark.user := userId;
                                                      Bookmark.bookmarkedAt := now |} ])
                              this)
  | Some _ => this
  end.

(** [communitySchema.methods.removeBookmark] *)
Definition removeBookmark (userId : ObjectId) (now : Z) (this : post) : post :=
  save now
    (set_bookmarks
       (filter (fun bookmark => negb (String.eqb (Bookmark.user bookmark) userId) = true)
               (bookmarks this))
       this).

(** The in-place update of the first element that satisfies [test]. *)
Fixpoint update_first {A : Type} (test : A -> bool) (f : A -> A) (xs : list A) : list A :=
  match xs with
  | [] => []
  | x :: rest => if test x then f x :: rest else x :: update_first test f rest
  end.

(** [communitySchema.methods.addAttendee] *)
Definition addAttendee (userId : ObjectId) (status : string) (now : Z) (this : post)
  : result :=
  if negb (String.eqb (type this) "event") then inl "Only events can have attendees"
  else
    let is_user := fun attendee => String.eqb (Attendee.user attendee) userId in
    let existingAttendee := find is_user (attendees this) in
    let this :=
      match existingAttendee with
      | Some _ =>
          set_attendees
            (update_first is_user
               (fun existing =>
                  {| Attendee.user := Attendee.user existing;
                     Attendee.status := status;
                     Attendee.registeredAt := now;
                     Attendee.checkedIn := Attendee.checkedIn existing;
                     Attendee.checkedInAt := Attendee.checkedInAt existing |})
               (attendees this))
            this
      | None =>
          set_attendees
            (attendees this ++ [ {| Attendee.user := userId;
                                    Attendee.status := status;
                                    Attendee.registeredAt := now;
                                    Attendee.checkedIn := false;
                                    Attendee.checkedInAt := None |} ])
            this
      end in
    inr (save now this).

(** [communitySchema.methods.checkInAttendee] *)
Definition checkInAttendee (userId : ObjectId) (now : Z) (this : post) : result :=
  let is_user := fun a => String.eqb (Attendee.user a) userId in
  let attendee := find is_user (attendees this) in
  match attendee with
  | Some _ =>
      inr (save now
             (set_attendees
                (update_first is_user
                   (fun a =>
                      {| Attendee.user := Attendee.user a;
                         Attendee.status := Attendee.status a;
                         Attendee.registeredAt := Attendee.registeredAt a;
                         Attendee.checkedIn := true;
                         Attendee.checkedInAt := Some now |})
                   (attendees this))
                this))
  | None => inl "User is not registered for this event"
  end.

(** [communitySchema.methods.incrementViews] *)
Definition incrementViews (now : Z) (this : post) : post :=
  save now (set_views (add (views this) (of_Z 1)) this).

(** [communitySchema.methods.flagPost] *)
Definition flagPost (reason : string) (flaggedBy : ObjectId) (description : string)
    (now : Z) (this : post) : post :=
  let this :=
    set_flags (flags this ++ [ {| Flag.reason := reason;
                                  Flag.flaggedBy := flaggedBy;
                                  Flag.flaggedAt := now;
                                  Flag.description := description |} ])
              this in
  let this :=
    if (3 <=? length (flags this))%nat && String.eqb (status this) "active"
    then set_status "flagged" this
    else this in
  save now this.

(** [communitySchema.virtual('likeCount')] *)
Definition likeCount (this : post) : num := count (likes this).

(** [communitySchema.virtual('commentCount')] *)
Definition commentCount (this : post) : num :=
  count (filter (fun comment => Comment.isHidden comment = false) (comments this)).

(** [communitySchema.virtual('attendeeCount')] *)
Definition attendeeCount (this : post) : num :=
  count (filter (fun attendee => Attendee.status attendee = "going") (attendees this)).

(** [communitySchema.virtual('calculatedEngagementRate')] *)
Definition calculatedEngagementRate (this : post) : num :=
  if is_zero (views this) then of_Z 0
  else
    let totalEngagements := add (add (likeCount this) (commentCount this)) (shares this) in
    mul (div totalEngagements (views this)) (of_Z 100).

(** [DELETE /api/community/:id]: the soft delete, for the post that
    [findById] returned. *)
Definition deletePost (now : Z) (userId : ObjectId) (found : option post) : outcome post :=
  match found with
  | None => Rejected {| statusCode := 404; message := "Post not found" |}
  | Some post =>
      if negb (String.eqb (author post) userId) then
        Rejected {| statusCode := 403; message := "Not authorized to delete this post" |}
      else Accepted (save now (set_status "removed" post))
  end.

(** A call of one of the methods of the document. *)
Inductive call : Type :=
| AddLike (userId : ObjectId)
| RemoveLike (userId : ObjectId)
| AddComment (authorId : ObjectId) (content : string) (parent : option ObjectId)
| AddBookmark (userId : ObjectId)
| RemoveBookmark (userId : ObjectId)
| AddAttendee (userId : ObjectId) (status : string)
| CheckInAttendee (userId : ObjectId)
| IncrementViews
| FlagPost (reason : string) (flaggedBy : ObjectId) (description : string).

(** The document after the call; a call that throws leaves it as stored. *)
Definition perform (now : Z) (this : post) (c : call) : post :=
  match c with
  | AddLike u => addLike u now this
  | RemoveLike u => removeLike u now this
  | AddComment a text parent =>
      match addComment a text parent now this with inr p => p | inl _ => this end
  | AddBookmark u => addBookmark u now this
  | RemoveBookmark u => removeBookmark u now this
  | AddAttendee u s =>
      match addAttendee u s now this with inr p => p | inl _ => this end
  | CheckInAttendee u =>
      match checkInAttendee u now this with inr p => p | inl _ => this end
  | IncrementViews => incrementViews now this
  | FlagPost r u d => flagPost r u d now this
  end.

(** The calls are made one after the other, each at its own instant. *)
Definition run (this : post) (calls : list (Z * call)) : post :=
  foldl (fun p timed => perform (fst timed) p (snd timed)) this calls.


End CommunityPost.

(* ===================================================================== *)
(** ** Concrete posts                                                     *)
(* ===================================================================== *)

Module PostScenario.
Import Js CommunityPost.

(** An active announcement without an expiry date, not yet seen by anyone. *)
Definition announcement : post :=
  {| author := "bob"; type := "announcement"; status := "active";
     allowComments := true; views := of_Z 0; likes := []; shares := of_Z 0;
     bookmarks := []; comments := []; attendees := []; flags := [];
     expiresAt := None; isExpired := false; isPinned := false; pinnedUntil := None;
     isFeatured := false; featuredUntil := None; engagementRate := of_Z 0 |}.

(** The same post after moderation has flagged it. *)
Definition notice : post := set_status "flagged" announcement.

(** An event with one registered attendee and four views. *)
Definition picnic : post :=
  {| author := "bob"; type := "event"; status := "active";
     allowComments := true; views := of_Z 4;
     likes := [ {| Community.user := "ann"; Community.likedAt := 1 |} ];
     shares := of_Z 0;
     bookmarks := []; comments := [];
     attendees := [ {| Attendee.user := "ann"; Attendee.status := "going";
                       Attendee.registeredAt := 1; Attendee.checkedIn := false;
                       Attendee.checkedInAt := None |} ];
     flags := [];
     expiresAt := Some 100; isExpired := false; isPinned := false; pinnedUntil := None;
     isFeatured := false; featuredUntil := None; engagementRate := of_Z 0 |}.

End PostScenario.

(* ===================================================================== *)
(** ** reviewSchema: the methods, the virtuals and the hook of a review    *)
(* ===================================================================== *)

Module ReviewDocument.
Import Js.

(** An entry of [helpfulness.votedBy]. *)
Module Vote.
Record t : Type := {
  user : ObjectId;
  vote : string;
  votedAt : Z
}.
End Vote.

(** An entry of [moderation.flags]. *)
Module Flag.
Record t : Type := {
  reason : string;
  flaggedBy : ObjectId;
  flaggedAt : Z;
  description : string
}.
End Flag.

(** The [response] sub-document; its paths are unset until the reviewee
    answers. *)
Module Response.
Record t : Type := {
  comment : option string;
  respondedAt : option Z;
  respondedBy : option ObjectId
}.
End Response.

(** A review document: [status] and [flags] are the paths of [moderation],
    [upvotes], [downvotes] and [votedBy] those of [helpfulness],
    [sentimentScore], [authenticityScore] and [lastAIUpdate] those of
    [aiAnalysis]. [commentModified] is Mongoose's change tracking of the
    path [comment]: false on a document as the store returns it. The
    [detailedRatings] are left out. *)
Record review : Type := {
  reviewer : ObjectId;
  reviewee : ObjectId;
  rating : num;
  title : option string;
  comment : string;
  isActive : bool;
  status : string;
  flags : list Flag.t;
  upvotes : num;
  downvotes : num;
  votedBy : list Vote.t;
  response : Response.t;
  sentimentScore : num;
  authenticityScore : num;
  lastAIUpdate : option Z;
  reportCount : num;
  createdAt : Z;
  commentModified : bool
}.

Definition set_rating (x : num) (r : review) : review :=
  {| reviewer := reviewer r; reviewee := reviewee r; rating := x; title := title r;
     comment := comment r; isActive := isActive r; status := status r;
     flags := flags r; upvotes := upvotes r; downvotes := downvotes r;
     votedBy := votedBy r; response := response r; sentimentScore := sentimentScore r;
     authenticityScore := authenticityScore r; lastAIUpdate := lastAIUpdate r;
     reportCount := reportCount r; createdAt := createdAt r;
     commentModified := commentModified r |}.

Definition set_title (x : option string) (r : review) : review :=
  {| reviewer := reviewer r; reviewee := reviewee r; rating := rating r; title := x;
     comment := comment r; isActive := isActive r; status := status r;
     flags := flags r; upvotes := upvotes r; downvotes := downvotes r;
     votedBy := votedBy r; response := response r; sentimentScore := sentimentScore r;
     authenticityScore := authenticityScore r; lastAIUpdate := lastAIUpdate r;
     reportCount := reportCount r; createdAt := createdAt r;
     commentModified := commentModified r |}.

Definition set_comment (x : string) (r : review) : review :=
  {| reviewer := reviewer r; reviewee := reviewee r; rating := rating r;
     title := title r; comment := x; isActive := isActive r; status := status r;
     flags := flags r; upvotes := upvotes r; downvotes := downvotes r;
     votedBy := votedBy r; response := response r; sentimentScore := sentimentScore r;
     authenticityScore := authenticityScore r; lastAIUpdate := lastAIUpdate r;
     reportCount := reportCount r; createdAt := createdAt r;
     commentModified := commentModified r |}.

Definition set_isActive (x : bool) (r : review) : review :=
  {| reviewer := reviewer r; reviewee := reviewee r; rating := rating r;
     title := title r; comment := comment r; isActive := x; status := status r;
     flags := flags r; upvotes := upvotes r; downvotes := downvotes r;
     votedBy := votedBy r; response := response r; sentimentScore := sentimentScore r;
     authenticityScore := authenticityScore r; lastAIUpdate := lastAIUpdate r;
     reportCount := reportCount r; createdAt := createdAt r;
     commentModified := commentModified r |}.

Definition set_status (x : string) (r : review) : review :=
  {| reviewer := reviewer r; reviewee := reviewee r; rating := rating r;
     title := title r; comment := comment r; isActive := isActive r; status := x;
     flags := flags r; upvotes := upvotes r; downvotes := downvotes r;
     votedBy := votedBy r; response := response r; sentimentScore := sentimentScore r;
     authenticityScore := authenticityScore r; lastAIUpdate := lastAIUpdate r;
     reportCount := reportCount r; createdAt := createdAt r;
     commentModified := commentModified r |}.

Definition set_flags (x : list Flag.t) (r : review) : review :=
  {| reviewer := reviewer r; reviewee := reviewee r; rating := rating r;
     title := title r; comment := comment r; isActive := isActive r;
     status := status r; flags := x; upvotes := upvotes r; downvotes := downvotes r;
     votedBy := votedBy r; response := response r; sentimentScore := sentimentScore r;
     authenticityScore := authenticityScore r; lastAIUpdate := lastAIUpdate r;
     reportCount := reportCount r; createdAt := createdAt r;
     commentModified := commentModified r |}.

Definition set_upvotes (x : num) (r : review) : review :=
  {| reviewer := reviewer r; reviewee := reviewee r; rating := rating r;
     title := title r; comment := comment r; isActive := isActive r;
     status := status r; flags := flags r; upvotes := x; downvotes := downvotes r;
     votedBy := votedBy r; response := response r; sentimentScore := sentimentScore r;
     authenticityScore := authenticityScore r; lastAIUpdate := lastAIUpdate r;
     reportCount := reportCount r; createdAt := createdAt r;
     commentModified := commentModified r |}.

Definition set_downvotes (x : num) (r : review) : review :=
  {| reviewer := reviewer r; reviewee := reviewee r; rating := rating r;
     title := title r; comment := comment r; isActive := isActive r;
     status := status r; flags := flags r; upvotes := upvotes r; downvotes := x;
     votedBy := votedBy r; response := response r; sentimentScore := sentimentScore r;
     authenticityScore := authenticityScore r; lastAIUpdate := lastAIUpdate r;
     reportCount := reportCount r; createdAt := createdAt r;
     commentModified := commentModified r |}.

Definition set_votedBy (x : list Vote.t) (r : review) : review :=
  {| reviewer := reviewer r; reviewee := reviewee r; rating := rating r;
     title := title r; comment := comment r; isActive := isActive r;
     status := status r; flags := flags r; upvotes := upvotes r;
     downvotes := downvotes r; votedBy := x; response := response r;
     sentimentScore := sentimentScore r; authenticityScore := authenticityScore r;
     lastAIUpdate := lastAIUpdate r; reportCount := reportCount r;
     createdAt := createdAt r; commentModified := commentModified r |}.

Definition set_response (x : Response.t) (r : review) : review :=
  {| reviewer := reviewer r; reviewee := reviewee r; rating := rating r;
     title := title r; comment := comment r; isActive := isActive r;
     status := status r; flags := flags r; upvotes := upvotes r;
     downvotes := downvotes r; votedBy := votedBy r; response := x;
     sentimentScore := sentimentScore r; authenticityScore := authenticityScore r;
     lastAIUpdate := lastAIUpdate r; reportCount := reportCount r;
     createdAt := createdAt r; commentModified := commentModified r |}.

Definition set_sentimentScore (x : num) (r : review) : review :=
  {| reviewer := reviewer r; reviewee := reviewee r; rating := rating r;
     title := title r; comment := comment r; isActive := isActive r;
     status := status r; flags := flags r; upvotes := upvotes r;
     downvotes := downvotes r; votedBy := votedBy r; response := response r;
     sentimentScore := x; authenticityScore := authenticityScore r;
     lastAIUpdate := lastAIUpdate r; reportCount := reportCount r;
     createdAt := createdAt r; commentModified := commentModified r |}.

Definition set_authenticityScore (x : num) (r : review) : review :=
  {| reviewer := reviewer r; reviewee := reviewee r; rating := rating r;
     title := title r; comment := comment r; isActive := isActive r;
     status := status r; flags := flags r; upvotes := upvotes r;
     downvotes := downvotes r; votedBy := votedBy r; response := response r;
     sentimentScore := sentimentScore r; authenticityScore := x;
     lastAIUpdate := lastAIUpdate r; reportCount := reportCount r;
     createdAt := createdAt r; commentModified := commentModified r |}.

Definition set_lastAIUpdate (x : option Z) (r : review) : review :=
  {| reviewer := reviewer r; reviewee := reviewee r; rating := rating r;
     title := title r; comment := comment r; isActive := isActive r;
     status := status r; flags := flags r; upvotes := upvotes r;
     downvotes := downvotes r; votedBy := votedBy r; response := response r;
     sentimentScore := sentimentScore r; authenticityScore := authenticityScore r;
     lastAIUpdate := x; reportCount := reportCount r; createdAt := createdAt r;
     commentModified := commentModified r |}.

Definition set_reportCount (x : num) (r : review) : review :=
  {| reviewer := reviewer r; reviewee := reviewee r; rating := rating r;
     title := title r; comment := comment r; isActive := isActive r;
     status := status r; flags := flags r; upvotes := upvotes r;
     downvotes := downvotes r; votedBy := votedBy r; response := response r;
     sentimentScore := sentimentScore r; authenticityScore := authenticityScore r;
     lastAIUpdate := lastAIUpdate r; reportCount := x; createdAt := createdAt r;
     commentModified := commentModified r |}.

Definition set_commentModified (x : bool) (r : review) : review :=
  {| reviewer := reviewer r; reviewee := reviewee r; rating := rating r;
     title := title r; comment := comment r; isActive := isActive r;
     status := status r; flags := flags r; upvotes := upvotes r;
     downvotes := downvotes r; votedBy := votedBy r; response := response r;
     sentimentScore := sentimentScore r; authenticityScore := authenticityScore r;
     lastAIUpdate := lastAIUpdate r; reportCount := reportCount r;
     createdAt := createdAt r; commentModified := x |}.

(** [Math.max(a, b)] *)
Definition max (a b : num) : num :=
  match a, b with
  | JNaN, _ | _, JNaN => JNaN
  | _, _ => if gt a b then a else b
  end.

(** [a >= b]: false as soon as one side is [NaN]. *)
Definition ge (a b : num) : bool :=
  match a, b with
  | JNaN, _ | _, JNaN => false
  | _, _ => negb (gt b a)
  end.

(** [xs.length] as a number. *)
Definition count {A : Type} (xs : list A) : num := of_Z (Z.of_nat (length xs)).

(** Truthiness of a string that may be [undefined]. *)
Definition truthy_string (s : option string) : bool :=
  match s with
  | Some text => negb (String.eqb text "")
  | None => false
  end.

Definition positiveWords : list string :=
  ["excellent"; "great"; "amazing"; "fantastic"; "wonderful"; "perfect"].

Definition negativeWords : list string :=
  ["terrible"; "awful"; "horrible"; "worst"; "disappointing"; "bad"].

(** [reviewSchema.virtual('helpfulnessScore')] *)
Definition helpfulnessScore (this : review) : num :=
  let total := add (upvotes this) (downvotes this) in
  if gt total (of_Z 0) then mul (div (upvotes this) total) (of_Z 100) else of_Z 0.

(** [reviewSchema.virtual('netHelpfulness')] *)
Definition netHelpfulness (this : review) : num :=
  sub (upvotes this) (downvotes this).

(** [reviewSchema.methods.calculateTrustImpact] *)
Definition calculateTrustImpact (this : review) : num :=
  let impact := rating this in
  let impact :=
    if truthy (authenticityScore this) then mul impact (authenticityScore this)
    else impact in
  let impact :=
    if String.eqb (status this) "flagged" then mul impact (JFin (1 # 2)) else impact in
  let helpfulnessRatio :=
    div (upvotes this) (max (add (upvotes this) (downvotes this)) (of_Z 1)) in
  let impact := mul impact (add (JFin (1 # 2)) (mul helpfulnessRatio (JFin (1 # 2)))) in
  max (of_Z 0) (min (of_Z 5) impact).

Section Hooks.

(** The string primitives of the host: [String.prototype.toLowerCase],
    [String.prototype.includes] and the [length] of a string in UTF-16
    code units. *)
Variable toLowerCase : string -> string.
Variable includes : string -> string -> bool.
Variable length_of : string -> Z.

(** [reviewSchema.pre('save')]: the placeholder analysis, run when the
    comment is modified and no analysis is recorded yet. *)
Definition preSave_aiAnalysis (now : Z) (this : review) : review :=
  if commentModified this && negb (bool_decide (is_Some (lastAIUpdate this))) then
    let this := set_lastAIUpdate (Some now) this in
    let lowered := toLowerCase (comment this) in
    let positiveCount :=
      count (filter (fun word => includes lowered word = true) positiveWords) in
    let negativeCount :=
      count (filter (fun word => includes lowered word = true) negativeWords) in
    let this :=
      set_sentimentScore
        (max (of_Z (-1))
             (min (of_Z 1) (mul (sub positiveCount negativeCount) (JFin (1 # 5)))))
        this in
    if (50 <? length_of (comment this)) && (length_of (comment this) <? 1500)
    then set_authenticityScore (JFin (4 # 5)) this
    else set_authenticityScore (JFin (1 # 2)) this
  else this.

(** [this.save()]: the hook, then the reset of the change tracking. The
    schema validators are not part of the model. *)
Definition save (now : Z) (this : review) : review :=
  set_commentModified false (preSave_aiAnalysis now this).

(** [reviewSchema.methods.addHelpfulnessVote] *)
Definition addHelpfulnessVote (userId : ObjectId) (voteType : string) (now : Z)
    (this : review) : review :=
  let this :=
    set_votedBy
      (filter (fun vote => negb (String.eqb (Vote.user vote) userId) = true) (votedBy this))
      this in
  let this :=
    set_votedBy
      (votedBy this ++ [ {| Vote.user := userId; Vote.vote := voteType;
                            Vote.votedAt := now |} ])
      this in
  let up := count (filter (fun vote => Vote.vote vote = "up") (votedBy this)) in
  let down := count (filter (fun vote => Vote.vote vote = "down") (votedBy this)) in
  let this := set_upvotes up this in
  let this := set_downvotes down this in
  save now this.

(** [reviewSchema.methods.addFlag] *)
Definition addFlag (reason : string) (flaggedBy : ObjectId) (description : string)
    (now : Z) (this : review) : review :=
  let this :=
    set_flags (flags this ++ [ {| Flag.reason := reason;
                                  Flag.flaggedBy := flaggedBy;
                                  Flag.flaggedAt := now;
                                  Flag.description := description |} ])
              this in
  let this := set_reportCount (add (reportCount this) (of_Z 1)) this in
  let this :=
    if ge (reportCount this) (of_Z 3) && String.eqb (status this) "approved"
    then set_status "flagged" this
    else this in
  save now this.

(** [reviewSchema.methods.addResponse]: the message of the error it
    throws, or the saved document. *)
Definition addResponse (responderId : ObjectId) (text : string) (now : Z)
    (this : review) : string + review :=
  if negb (String.eqb (reviewee this) responderId) then
    inl "Only the reviewee can respond to this review"
  else
    inr (save now
           (set_response {| Response.comment := Some text;
                            Response.respondedAt := Some now;
                            Response.respondedBy := Some responderId |}
                         this)).

End Hooks.

End ReviewDocument.

(* ===================================================================== *)
(** ** routes/reviews.js: votes, flags, responses, edits and deletion     *)
(* ===================================================================== *)

Module ReviewRequests.
Import Js ReviewDocument.

Definition bad_request (msg : string) : Js.response :=
  {| statusCode := 400; message := msg |}.

Definition not_found : Js.response :=
  {| statusCode := 404; message := "Review not found" |}.

(** The body of [PUT /api/reviews/:id], on the fields of the model. *)
Module UpdateBody.
Record t : Type := {
  rating : option num;
  title : option string;
  comment : option string
}.
End UpdateBody.

(** [24 * 60 * 60 * 1000] *)
Definition maxEditTime : Z := 24 * 60 * 60 * 1000.

(** [PUT /api/reviews/:id], for the review that [findById] returned:
    [findByIdAndUpdate] writes the given fields to the store and runs no
    [save] hook. *)
Definition updateReview (now : Z) (userId : ObjectId) (errors : list string)
    (body : UpdateBody.t) (found : option review) : outcome review :=
  if negb (bool_decide (errors = [])) then Rejected (bad_request "Validation Error")
  else
    match found with
    | None => Rejected not_found
    | Some review =>
        if negb (String.eqb (reviewer review) userId) then
          Rejected {| statusCode := 403;
                      message := "Not authorized to update this review" |}
        else
          let reviewAge := now - createdAt review in
          if maxEditTime <? reviewAge then
            Rejected (bad_request "Reviews can only be edited within 24 hours of creation")
          else
            let updated :=
              match UpdateBody.rating body with
              | Some n => set_rating n review
              | None => review
              end in
            let updated :=
              match UpdateBody.title body with
              | Some text => set_title (Some text) updated
              | None => updated
              end in
            let updated :=
              match UpdateBody.comment body with
              | Some text => set_comment text updated
              | None => updated
              end in
            let updated :=
              if truthy_string (UpdateBody.comment body)
                 || match UpdateBody.rating body with
                    | Some n => truthy n
                    | None => false
                    end
              then set_status "pending" updated
              else updated in
            Accepted updated
    end.

Section Handlers.

Variable toLowerCase : string -> string.
Variable includes : string -> string -> bool.
Variable length_of : string -> Z.

(** [POST /api/reviews/:id/helpful] *)
Definition markHelpful (now : Z) (userId : ObjectId) (errors : list string)
    (vote : string) (found : option review) : outcome review :=
  if negb (bool_decide (errors = [])) then Rejected (bad_request "Validation Error")
  else
    match found with
    | None => Rejected not_found
    | Some review =>
        if negb (isActive review) then Rejected not_found
        else if String.eqb (reviewer review) userId then
          Rejected (bad_request "Cannot vote on your own review")
        else
          Accepted (addHelpfulnessVote toLowerCase includes length_of userId vote now review)
    end.

(** [POST /api/reviews/:id/flag] *)
Definition flagReview (now : Z) (userId : ObjectId) (errors : list string)
    (reason description : string) (found : option review) : outcome review :=
  if negb (bool_decide (errors = [])) then Rejected (bad_request "Validation Error")
  else
    match found with
    | None => Rejected not_found
    | Some review =>
        if negb (isActive review) then Rejected not_found
        else
          let existingFlag :=
            find (fun flag => String.eqb (Flag.flaggedBy flag) userId) (flags review) in
          match existingFlag with
          | Some _ => Rejected (bad_request "You have already flagged this review")
          | None =>
              Accepted (addFlag toLowerCase includes length_of reason userId description
                                now review)
          end
    end.

(** [POST /api/reviews/:id/response]: [inl] is the error that
    [addResponse] throws and the handler passes to [next]. *)
Definition respondToReview (now : Z) (userId : ObjectId) (errors : list string)
    (text : string) (found : option review) : string + outcome review :=
  if negb (bool_decide (errors = [])) then inr (Rejected (bad_request "Validation Error"))
  else
    match found with
    | None => inr (Rejected not_found)
    | Some review =>
        if negb (isActive review) then inr (Rejected not_found)
        else if truthy_string (Response.comment (response review)) then
          inr (Rejected (bad_request "Response already exists for this review"))
        else
          match addResponse toLowerCase includes length_of userId text now review with
          | inl msg => inl msg
          | inr saved => inr (Accepted saved)
          end
    end.

(** A request on one review. *)
Inductive request : Type :=
| Helpful (userId : ObjectId) (errors : list string) (vote : string)
| FlagReview (userId : ObjectId) (errors : list string) (reason description : string)
| Respond (userId : ObjectId) (errors : list string) (text : string)
| Update (userId : ObjectId) (errors : list string) (body : UpdateBody.t).

(** The stored review after the request; a request that is refused or
    fails leaves it as it is. *)
Definition handle (now : Z) (stored : review) (req : request) : review :=
  match req with
  | Helpful u errors vote =>
      match markHelpful now u errors vote (Some stored) with
      | Accepted r => r
      | Rejected _ => stored
      end
  | FlagReview u errors reason description =>
      match flagReview now u errors reason description (Some stored) with
      | Accepted r => r
      | Rejected _ => stored
      end
  | Respond u errors text =>
      match respondToReview now u errors text (Some stored) with
      | inr (Accepted r) => r
      | _ => stored
      end
  | Update u errors body =>
      match updateReview now u errors body (Some stored) with
      | Accepted r => r
      | Rejected _ => stored
      end
  end.

(** The requests are served one after the other, each at its own instant. *)
Definition serve (stored : review) (reqs : list (Z * request)) : review :=
  foldl (fun r timed => handle (fst timed) r (snd timed)) stored reqs.

End Handlers.

(** [DELETE /api/reviews/:id] on the collection of the creation route, the
    identifier of a review being its position: the soft delete. The
    handler then refreshes the aggregates of the service and of the
    reviewee, which are other documents. *)
Definition deleteReview (userId : ObjectId) (id : nat) (reviews : Review.collection)
  : outcome Review.collection :=
  match reviews !! id with
  | None => Rejected not_found
  | Some review =>
      if negb (String.eqb (Review.reviewer review) userId) then
        Rejected {| statusCode := 403;
                    message := "Not authorized to delete this review" |}
      else
        Accepted (<[ id := {| Review.reviewer := Review.reviewer review;
                              Review.reviewee := Review.reviewee review;
                              Review.service := Review.service review;
                              Review.booking := Review.booking review;
                              Review.rating := Review.rating review;
                              Review.comment := Review.comment review;
                              Review.reviewType := Review.reviewType review;
                              Review.isActive := false |} ]> reviews)
  end.

End ReviewRequests.

Module ReviewScenario.
Import Js ReviewDocument.

(** The host primitives on the ASCII comments of the examples: no letter
    to lower, no word found, the length in characters. *)
Definition toLowerCase (s : string) : string := s.
Definition includes (s word : string) : bool := false.
Definition length_of (s : string) : Z := Z.of_nat (String.length s).

(** Ann's approved review of Bob, as the store returns it. *)
Definition annOnBob : review :=
  {| reviewer := "ann"; reviewee := "bob"; rating := of_Z 4; title := None;
     comment := "Came on time and fixed the tap.";
     isActive := true; status := "approved"; flags := [];
     upvotes := of_Z 0; downvotes := of_Z 0; votedBy := [];
     response := {| Response.comment := None; Response.respondedAt := None;
                    Response.respondedBy := None |};
     sentimentScore := of_Z 0; authenticityScore := JFin (1 # 2);
     lastAIUpdate := Some 0; reportCount := of_Z 0; createdAt := 0;
     commentModified := false |}.

(** Carol votes twice, Ann tries to vote on her own review, and two
    users flag it. *)
Definition requests : list (Z * ReviewRequests.request) :=
  [ (1, ReviewRequests.Helpful "carol" [] "up");
    (2, ReviewRequests.Helpful "ann" [] "up");
    (3, ReviewRequests.Helpful "carol" [] "down");
    (4, ReviewRequests.FlagReview "dave" [] "spam" "");
    (5, ReviewRequests.FlagReview "dave" [] "spam" "");
    (6, ReviewRequests.FlagReview "carol" [] "off_topic" "") ].

End ReviewScenario.

(* ===================================================================== *)
(** * Properties                                                          *)
(* ===================================================================== *)

Module JsFacts.
Import Js.

Lemma Qis_zero_true (q : Q) : Qis_zero q = true <-> (q == 0)%Q.
Proof. unfold Qis_zero. apply Qeq_bool_iff. Qed.

Lemma Qis_zero_false (q : Q) : Qis_zero q = false <-> ~ (q == 0)%Q.
Proof.
  rewrite <- Qis_zero_true. destruct (Qis_zero q); split; intro H; try done.
Qed.

Lemma gt_finite (p q : Q) : gt (JFin p) (JFin q) = true <-> (q < p)%Q.
Proof.
  cbn. rewrite negb_true_iff. split.
  - intro H. apply Qnot_le_lt. intro Hle. apply Qle_bool_iff in Hle. congruence.
  - intro H. destruct (Qle_bool p q) eqn:E; [|done].
    apply Qle_bool_iff in E. exfalso. by apply (Qlt_not_le _ _ H).
Qed.

Lemma gt_finite_false (p q : Q) : gt (JFin p) (JFin q) = false <-> (p <= q)%Q.
Proof.
  cbn. rewrite negb_false_iff. apply Qle_bool_iff.
Qed.

(** [Math.min] of two finite numbers is one of them, and finite. *)
Lemma min_finite (p q : Q) :
  exists m, min (JFin p) (JFin q) = JFin m /\ (m <= q)%Q /\ ((0 <= p)%Q -> (0 <= q)%Q -> (0 <= m)%Q).
Proof.
  unfold min. destruct (gt (JFin p) (JFin q)) eqn:E.
  - exists q. split; [done|]. split; [apply Qle_refl|done].
  - exists p. apply gt_finite_false in E. done.
Qed.

Lemma round_nonneg (q : Q) :
  (0 <= q)%Q -> exists z, round (JFin q) = of_Z z /\ 0 <= z.
Proof.
  intro H. exists (Qfloor (q + (1 # 2))). split; [done|].
  change 0 with (Qfloor 0). apply Qfloor_resp_le.
  apply Qle_trans with q; [done|].
  rewrite <- (Qplus_0_r q) at 1. apply Qplus_le_r. done.
Qed.

End JsFacts.

Module UserFacts.
Import Js User.

Example trust_no_reviews : calculateTrustScore (rep 0 5 3 1) = of_Z 0.
Proof. reflexivity. Qed.

Example trust_ten_perfect : calculateTrustScore (rep 10 5 10 0) = of_Z 100.
Proof. by vm_compute. Qed.

Example trust_half_cancelled : calculateTrustScore (rep 5 4 1 1) = of_Z 41.
Proof. by vm_compute. Qed.

(** Where the user has completed or cancelled at least one service (and the
    stored aggregates are not negative), the code computes the score of the
    specification, an integer between 0 and 100. *)
Lemma calculateTrustScore_meets_spec (n q c k : Q) :
  (0 <= n)%Q -> (0 <= q)%Q -> (0 <= c)%Q -> (0 <= k)%Q -> (1 <= c + k)%Q ->
  let r := {| totalReviews := JFin n; averageRating := JFin q;
              completedServices := JFin c; cancelledServices := JFin k |} in
  calculateTrustScore r = specTrustScore r /\
  exists z, calculateTrustScore r = of_Z z /\ 0 <= z <= 100.
Proof.
  intros Hn Hq Hc Hk Hsum. cbv zeta.
  unfold calculateTrustScore, specTrustScore.
  cbn [totalReviews averageRating completedServices cancelledServices].
  destruct (is_zero (JFin n)) eqn:En.
  { split; [done|]. exists 0. split; [done|lia]. }
  cbn [add].
  assert (Hgt : gt (of_Z 1) (JFin (c + k)) = false) by (by apply JsFacts.gt_finite_false).
  rewrite Hgt.
  match goal with |- ?L = _ /\ _ => set (core := L) end.
  assert (Hcore : exists y, core = of_Z y /\ 0 <= y <= 100).
  { subst core.
    assert (Hnz : Qis_zero (c + k) = false).
    { apply JsFacts.Qis_zero_false. intro E. rewrite E in Hsum.
      by apply Qle_bool_iff in Hsum. }
    unfold of_Z, div.
    replace (Qis_zero (inject_Z 5)) with false by reflexivity.
    replace (Qis_zero (inject_Z 50)) with false by reflexivity.
    rewrite Hnz. cbn [mul].
    destruct (JsFacts.min_finite (n / inject_Z 50) (inject_Z 1)) as (m & -> & _ & Hm0).
    cbn [mul add].
    set (s := (q / inject_Z 5 * inject_Z 100 * (c / (c + k)) + m * inject_Z 10)%Q).
    assert (Hs : (0 <= s)%Q).
    { unfold s.
      assert (0 <= q / inject_Z 5 * inject_Z 100 * (c / (c + k)))%Q.
      { apply Qmult_le_0_compat.
        - apply Qmult_le_0_compat; [|done].
          apply Qle_shift_div_l; [done|]. by rewrite Qmult_0_l.
        - apply Qle_shift_div_l; [|by rewrite Qmult_0_l].
          apply Qlt_le_trans with 1%Q; done. }
      assert (0 <= m * inject_Z 10)%Q.
      { apply Qmult_le_0_compat; [|done]. apply Hm0; [|done].
        apply Qle_shift_div_l; [done|]. by rewrite Qmult_0_l. }
      rewrite <- (Qplus_0_r 0). by apply Qplus_le_compat. }
    destruct (JsFacts.round_nonneg s Hs) as (z & -> & Hz0).
    unfold of_Z, min. destruct (gt (JFin (inject_Z z)) _) eqn:E.
    - exists 100. split; [done|lia].
    - exists z. split; [done|]. split; [done|].
      apply JsFacts.gt_finite_false in E. by rewrite <- Zle_Qle in E. }
  destruct Hcore as (y & Hy & Hr). rewrite Hy.
  assert (Hg0 : gt (of_Z 0) (of_Z y) = false).
  { apply JsFacts.gt_finite_false. rewrite <- Zle_Qle. lia. }
  rewrite Hg0. split; [done|]. by exists y.
Qed.

(** C1 (failing input). A user with one review and neither a completed nor
    a cancelled service: the code divides 0 by 0 and returns [NaN], where
    the specification promises the floored denominator, hence the score 0. *)
Theorem calculateTrustScore_zero_services_is_NaN :
  calculateTrustScore (rep 1 5 0 0) = JNaN /\
  specTrustScore (rep 1 5 0 0) = of_Z 0.
Proof. split; by vm_compute. Qed.

Lemma project_default (d : document) :
  project SelectDefault d = delete "password" d.
Proof. reflexivity. Qed.

Lemma toJSON_keeps_other_fields (d : document) (k : string) :
  k <> "password" -> toJSON d !! k = toObject d !! k.
Proof. intro Hk. unfold toJSON. by rewrite lookup_delete_ne. Qed.

(** C9. The password never appears in the object that [toJSON] returns for
    a user document, whatever the document holds (a document loaded with
    [.select('+password')] included), and a query under the default
    projection does not load it. *)
Theorem password_never_serialized (d stored : document) :
  toJSON d !! "password" = None /\
  project SelectDefault stored !! "password" = None.
Proof.
  split.
  - unfold toJSON. apply lookup_delete_eq.
  - rewrite project_default. apply lookup_delete_eq.
Qed.

End UserFacts.

Module ServiceFacts.
Import Js Service.

Lemma toLocaleLowerCase_not_on_Date :
  bool_decide ("toLocaleLowerCase" ∈ Date_prototype) = false.
Proof. by vm_compute. Qed.

Example isAvailable_on_an_open_monday :
  isAvailable Scenario.no_render Scenario.no_parse (Scenario.serviceOfBob false)
              (FromMillis (of_Z 1894615200000)) (of_Z 60)
  = Throw (TypeError "requestDate.toLocaleLowerCase is not a function").
Proof. by vm_compute. Qed.

(** C2 (failing input: every active, unpaused service). [isAvailable]
    answers [false] for an inactive or paused service; for every other
    service it throws a [TypeError] at [requestDate.toLocaleLowerCase()],
    whatever the date and the schedule: the schedule is never read. *)
Theorem isAvailable_throws_when_bookable
    (render : string -> Date -> string) (parse_date : string -> Date)
    (this : service) (date : dateInput) (duration : num) :
  isAvailable render parse_date this date duration =
    if negb (isActive this) || isPaused this
    then Return false
    else Throw (TypeError "requestDate.toLocaleLowerCase is not a function").
Proof.
  unfold isAvailable, call_date_method.
  rewrite toLocaleLowerCase_not_on_Date.
  by destruct (negb (isActive this) || isPaused this).
Qed.

End ServiceFacts.

Module BookingFacts.
Import Js Booking.

Lemma hours_le (s n k : Z) :
  Qle_bool ((inject_Z s - inject_Z n) / inject_Z (1000 * 60 * 60)) (inject_Z k)
  = (s - n <=? k * 3600000).
Proof.
  apply eq_true_iff_eq. rewrite Qle_bool_iff, Z.leb_le.
  unfold Qle, Qdiv, Qminus, Qplus, Qopp, Qmult, Qinv, inject_Z. simpl.
  lia.
Qed.

Lemma hours_gt (s n k : Z) :
  gt (div (sub (of_Z s) (of_Z n)) (of_Z (1000 * 60 * 60))) (of_Z k)
  = (k * 3600000 <? s - n).
Proof.
  unfold sub, of_Z, div.
  replace (Qis_zero (inject_Z (1000 * 60 * 60))) with false by reflexivity.
  cbn [gt]. rewrite hours_le. rewrite Z.ltb_antisym. reflexivity.
Qed.

(** The fee as a function of the milliseconds left until the scheduled
    date: free above 24 hours, a quarter of the total above 2 hours and up
    to 24, half of the total from 2 hours down. *)
Lemma calculateCancellationFee_tiers (now : Z) (b : booking) :
  calculateCancellationFee now b =
    let left := scheduledDate b - now in
    let total := to_num (Pricing.totalAmount (pricing b)) in
    if 24 * 3600000 <? left then of_Z 0
    else if 2 * 3600000 <? left then mul total (JFin (25 # 100))
         else mul total (JFin (5 # 10)).
Proof.
  unfold calculateCancellationFee. cbv zeta. by rewrite !hours_gt.
Qed.

(** Case analysis on the parts of a booking that steer [updateStatus] and
    [save]: the two tracking flags, [completedAt] and [cancelledAt]. *)
Ltac booking_cases b :=
  destruct b as [? ? ? ? ? ? ? ? ? [[?|] ? ?] [[?|] ? ? ? ?] [] []].

Lemma save_history (now : Z) (b : booking) :
  statusHistory (save now b) =
    statusHistory b ++ (if isNew b then [creationEntry (status b) now (customer b)] else []).
Proof.
  booking_cases b; cbn; by rewrite ?app_nil_r.
Qed.

Lemma save_parties (now : Z) (b : booking) :
  customer (save now b) = customer b /\ provider (save now b) = provider b.
Proof. by booking_cases b. Qed.

Lemma save_cancellation (now : Z) (b : booking) :
  cancellation (save now b) = cancellation b.
Proof. by booking_cases b. Qed.

Lemma updateStatus_status
    (newStatus : string) (actor : ObjectId) (reason notes : string)
    (now : Z) (b : booking) :
  status (updateStatus newStatus actor reason notes now b) = newStatus.
Proof.
  unfold updateStatus, updateStatus_writes; booking_cases b;
    destruct (String.eqb newStatus "completed"), (String.eqb newStatus "cancelled");
    reflexivity.
Qed.

(** C6. [updateStatus] appends an entry that carries the status held before
    the call, then sets the status; [completedAt] is stamped on a
    transition into [completed] when it is not set yet, and the cancellation
    time, actor and reason on a transition into [cancelled] when
    [cancelledAt] is not set yet, and are left alone otherwise; saving a new
    document appends the "Booking created" entry. *)
Theorem updateStatus_history_and_stamps
    (newStatus : string) (actor : ObjectId) (reason notes : string)
    (now : Z) (b fresh : booking) :
  let b' := updateStatus newStatus actor reason notes now b in
  status b' = newStatus /\
  statusHistory b' =
    statusHistory b
    ++ [ {| Entry.status := status b; Entry.changedAt := now;
            Entry.changedBy := actor; Entry.reason := reason;
            Entry.notes := notes |} ]
    ++ (if isNew b then [creationEntry newStatus now (customer b)] else []) /\
  completion b' =
    (if String.eqb newStatus "completed"
     then match Completion.completedAt (completion b) with
          | Some _ => completion b
          | None =>
              {| Completion.completedAt := Some now;
                 Completion.workSummary := Completion.workSummary (completion b);
                 Completion.providerNotes := Completion.providerNotes (completion b) |}
          end
     else completion b) /\
  cancellation b' =
    (if String.eqb newStatus "cancelled"
     then match Cancellation.cancelledAt (cancellation b) with
          | Some _ => cancellation b
          | None =>
              {| Cancellation.cancelledAt := Some now;
                 Cancellation.cancelledBy := Some actor;
                 Cancellation.reason := Some reason;
                 Cancellation.refundAmount := Cancellation.refundAmount (cancellation b);
                 Cancellation.refundStatus := Cancellation.refundStatus (cancellation b) |}
          end
     else cancellation b) /\
  statusHistory (save now fresh) =
    statusHistory fresh
    ++ (if isNew fresh then [creationEntry (status fresh) now (customer fresh)] else []).
Proof.
  cbv zeta. split; [|split; [|split; [|split]]]; [| | | |apply save_history].
  all: unfold updateStatus, updateStatus_writes; booking_cases b;
    destruct (String.eqb newStatus "completed"), (String.eqb newStatus "cancelled");
    cbn; by rewrite <- ?app_assoc.
Qed.

Lemma mutate_marks_pricing (m : pricingMutation) (b : booking) :
  pricingModified (mutate m b) = true.
Proof. by destruct m. Qed.

Lemma save_total_when_modified (now : Z) (b : booking) :
  pricingModified b = true ->
  let p := pricing b in
  pricing (save now b) =
    set_totalAmount
      (Some (add (add (or_zero (Pricing.servicePrice p)) (or_zero (Pricing.platformFee p)))
                 (or_zero (Pricing.taxes p)))) p.
Proof.
  booking_cases b; cbn; by intros.
Qed.

Lemma or_zero_finite (q : Q) : strict_eq (or_zero (Some (JFin q))) (JFin q) = true.
Proof.
  cbn. destruct (Qis_zero q) eqn:E; cbn.
  - apply JsFacts.Qis_zero_true in E. apply Qeq_bool_iff. by symmetry.
  - apply Qeq_bool_iff. reflexivity.
Qed.

(** With the three components present, the stored total is their sum. *)
Lemma save_total_of_finite_components (a f t : Q) (now : Z) (b : booking) :
  exists total,
    Pricing.totalAmount (pricing (save now (priced a f t b))) = Some (JFin total) /\
    (total == a + f + t)%Q.
Proof.
  unfold priced.
  rewrite save_total_when_modified by apply mutate_marks_pricing.
  cbn.
  assert (Hz : forall q, exists q', (if negb (Qis_zero q) then JFin q else of_Z 0) = JFin q'
                                    /\ (q' == q)%Q).
  { intro q. destruct (Qis_zero q) eqn:E; cbn.
    - apply JsFacts.Qis_zero_true in E. exists (inject_Z 0). split; [done|]. by rewrite E.
    - exists q. split; [done|reflexivity]. }
  destruct (Hz a) as (a' & -> & Ha), (Hz f) as (f' & -> & Hf), (Hz t) as (t' & -> & Ht).
  cbn. eexists. split; [reflexivity|]. by rewrite Ha, Hf, Ht.
Qed.

End BookingFacts.

Module BookingPricingFacts.
Import Js BookingPricing.
Import Floats.



Lemma same_number_refl (x : float) : same_number x x.
Proof. by left. Qed.






(** The sum is the sum of doubles: 0.1 + 0.2 is stored as
    0.30000000000000004. *)
Example total_of_a_tenth_and_two_tenths :
  save true (mutate (SetServicePrice (Some 0x1.999999999999ap-4%float))
               (mutate (SetPlatformFee (Some 0x1.999999999999ap-3%float))
                  (mutate (SetTaxes (Some 0%float)) quoted)))
  = Return {| price := {| servicePrice := Some 0x1.999999999999ap-4%float;
                          platformFee := Some 0x1.999999999999ap-3%float;
                          taxes := Some 0%float;
                          totalAmount := Some 0x1.3333333333334p-2%float;
                          currency := "USD" |};
              pricingModified := false |}.
Proof. by vm_compute. Qed.

End BookingPricingFacts.

Module CommunityFacts.
Import Js Community.




Lemma likesOf_app (u : ObjectId) (xs ys : list like) :
  likesOf u (xs ++ ys) = (likesOf u xs + likesOf u ys)%nat.
Proof. unfold likesOf. by rewrite filter_app, length_app. Qed.













End CommunityFacts.

Module ReviewFacts.
Import Js Review ReviewRoutes Scenario.

Lemma create_keeps_bookings_distinct (data : review) (c c' : collection) :
  NoDup (booking <$> c) -> create data c = Return c' -> NoDup (booking <$> c').
Proof.
  unfold create. intros Hnd.
  destruct (existsb _ c) eqn:E; [done|]. intros [= <-].
  rewrite fmap_app. apply NoDup_app. split; [done|]. split; [|apply NoDup_singleton].
  intros b Hb Hin. cbn in Hin. apply list_elem_of_singleton in Hin. subst b.
  apply list_elem_of_fmap in Hb as (r & Hr & Hin).
  apply not_true_iff_false in E. apply E. apply existsb_exists.
  exists r. split; [by apply list_elem_of_In|]. rewrite Hr. apply String.eqb_refl.
Qed.

Lemma createReview_inserts
    (bookings : gmap string Booking.booking) (c c' : collection) (req : request) :
  createReview bookings c req = Accepted c' ->
  exists data, Review.booking data = Body.booking (body req) /\ create data c = Return c'.
Proof.
  unfold createReview.
  destruct (negb _); [done|].
  destruct (bookings !! _) as [b|]; [|done].
  destruct (negb _); [done|].
  destruct (negb _ && negb _); [done|].
  destruct (_ && negb _); [done|].
  destruct (_ && negb _); [done|].
  destruct (findOne _ _ _); [done|].
  destruct (create _ c) as [c''|e] eqn:E; [|done].
  intros [= <-]. eexists. split; [|exact E]. done.
Qed.

(** Through the route the collection never holds two reviews of one
    booking, hence never two of one (booking, reviewType) pair. *)
Lemma createReview_keeps_bookings_distinct
    (bookings : gmap string Booking.booking) (c c' : collection) (req : request) :
  NoDup (booking <$> c) -> createReview bookings c req = Accepted c' ->
  NoDup (booking <$> c').
Proof.
  intros Hnd (data & _ & H)%createReview_inserts.
  eauto using create_keeps_bookings_distinct.
Qed.

(** A second request for a pair that is stored is turned away by the
    handler's own lookup. *)
Lemma createReview_same_pair :
  createReview bookings [storedReview "alice" "bob" "customer_to_provider"]
               (reviewBy "alice" "customer_to_provider")
  = Rejected (bad_request "Review already exists for this booking").
Proof. by vm_compute. Qed.

(** Once a booking has a review, no request adds another one for it,
    whatever its direction. *)
Lemma createReview_one_per_booking
    (bookings : gmap string Booking.booking) (c : collection) (req : request) :
  Body.booking (body req) ∈ booking <$> c ->
  exists r, createReview bookings c req = Rejected r.
Proof.
  intros Hin.
  destruct (createReview bookings c req) as [r|c'] eqn:E; [by eexists|].
  exfalso. apply createReview_inserts in E as (data & Hb & Hc).
  unfold create in Hc.
  apply list_elem_of_fmap in Hin as (r & Hr & Hin).
  assert (existsb (fun r => String.eqb (booking r) (booking data)) c = true) as Hex.
  { apply existsb_exists. exists r. split; [by apply list_elem_of_In|].
    rewrite Hb, Hr. apply String.eqb_refl. }
  by rewrite Hex in Hc.
Qed.

(** C4 (failing input). Booking b1 of alice with bob is completed. Alice's
    customer_to_provider review is created; bob's provider_to_customer
    review of the same booking is then refused with the duplicate-key
    response of the unique index on [booking], and the same happens in the
    other order. *)
Theorem second_direction_review_refused :
  createReview bookings [] (reviewBy "alice" "customer_to_provider")
    = Accepted [storedReview "alice" "bob" "customer_to_provider"] /\
  createReview bookings [storedReview "alice" "bob" "customer_to_provider"]
               (reviewBy "bob" "provider_to_customer")
    = Rejected {| statusCode := 400; message := "Booking 'b1' already exists" |} /\
  createReview bookings [] (reviewBy "bob" "provider_to_customer")
    = Accepted [storedReview "bob" "alice" "provider_to_customer"] /\
  createReview bookings [storedReview "bob" "alice" "provider_to_customer"]
               (reviewBy "alice" "customer_to_provider")
    = Rejected {| statusCode := 400; message := "Booking 'b1' already exists" |}.
Proof. repeat split; by vm_compute. Qed.

End ReviewFacts.

Module BookingRoutesFacts.
Import Js Booking BookingRoutes Scenario.

(** Replace the comparisons of two string literals by their value. *)
Ltac decide_literals :=
  repeat (match goal with
          | |- context [String.eqb ?a ?b] =>
              let v := eval vm_compute in (String.eqb a b) in
              first [constr_eq v true | constr_eq v false];
              change (String.eqb a b) with v
          end).

(** The handler's table and the graph of the specification have the same
    edges. *)
Lemma table_agrees (src dst : string) :
  match transitionsFrom src with
  | Some allowed => includes allowed dst
  | None => false
  end = specTransition src dst.
Proof.
  unfold transitionsFrom, specTransition, includes. cbn -[String.eqb].
  repeat (match goal with
          | |- context [String.eqb ?k src] =>
              destruct (String.eqb_spec k src) as [<-|?];
              [decide_literals; cbn -[String.eqb];
               repeat (match goal with
                       | |- context [String.eqb dst ?k'] => destruct (String.eqb dst k')
                       end);
               reflexivity|]
          end).
  reflexivity.
Qed.

Example pending_to_in_progress_rejected (now : Z) :
  updateBookingStatus now (Some "bob") (Some (booked 0 100 "pending")) []
                      (statusRequest "in_progress")
  = Rejected (bad_request "Cannot change status from pending to in_progress").
Proof. by vm_compute. Qed.

Example terminal_states_have_no_edges (dst : string) :
  specTransition "completed" dst = false /\
  specTransition "cancelled" dst = false /\
  specTransition "no_show" dst = false.
Proof. by rewrite <- !table_agrees. Qed.

Example customer_may_cancel (now : Z) :
  exists b', updateBookingStatus now (Some "alice") (Some (booked 0 100 "confirmed")) []
                                 (statusRequest "cancelled")
             = Accepted b' /\ status b' = "cancelled".
Proof. eexists. split; [by vm_compute|reflexivity]. Qed.

Example customer_may_not_confirm (now : Z) :
  updateBookingStatus now (Some "alice") (Some (booked 0 100 "pending")) []
                      (statusRequest "confirmed")
  = Rejected (forbidden "Only service provider can confirm bookings").
Proof. by vm_compute. Qed.

Example disputed_booking_is_an_error (now : Z) :
  updateBookingStatus now (Some "bob") (Some (booked 0 100 "disputed")) []
                      (statusRequest "cancelled")
  = Rejected {| statusCode := 500;
                message := "Cannot read properties of undefined (reading 'includes')" |}.
Proof. by vm_compute. Qed.

(** A cancellation without a reason: the body passes the validator chain,
    where [reason] is optional, and the transition is in the table, but
    [updateStatus] writes the empty string to [cancellation.reason] and the
    validators of its [save()] refuse it. *)
Example cancel_without_a_reason (now : Z) :
  updateBookingStatus now (Some "alice") (Some (booked 0 100 "confirmed")) []
    {| StatusBody.status := "cancelled"; StatusBody.reason := None;
       StatusBody.notes := None |}
  = Rejected (bad_request "Validation Error").
Proof. by vm_compute. Qed.

(** The listener of the socket event, had it been called, consults no
    table: the customer moves a pending booking straight to completed. *)
Example socket_listener_skips_the_table (now : Z) :
  exists b', SocketHandlers.booking_status_update now (Some "alice")
               (Some (booked 0 100 "pending")) "completed" None None = inr b'
             /\ status b' = "completed".
Proof. eexists. split; [by vm_compute|reflexivity]. Qed.

Lemma oneOf_true (values : list string) (x : string) :
  oneOf values x = true <-> x ∈ values.
Proof.
  unfold oneOf. rewrite existsb_exists. split.
  - intros (y & Hy & ->%String.eqb_eq). by apply list_elem_of_In.
  - intros H. exists x. split; [by apply list_elem_of_In|apply String.eqb_refl].
Qed.

Lemma specTransition_status (src dst : string) :
  specTransition src dst = true -> oneOf statuses dst = true.
Proof.
  unfold specTransition, specTransitions. rewrite existsb_exists.
  intros ([s d] & Hin & H). apply andb_prop in H as [_ ->%String.eqb_eq].
  cbn [snd]. cbn in Hin.
  repeat (destruct Hin as [[= <- <-]|Hin]; [reflexivity|]). done.
Qed.

(** What the validators make of the document that [updateStatus] has
    written, for a booking that they accepted before: they refuse a status
    outside the enum, and a cancellation whose reason, written to
    [cancellation.reason] because no cancellation was recorded yet, is
    outside the enum. *)
Lemma validate_updateStatus_writes
    (newStatus : string) (actor : ObjectId) (reason notes : string)
    (now : Z) (b : booking) :
  validate b = true ->
  validate (updateStatus_writes newStatus actor reason notes now b) =
    oneOf statuses newStatus
    && (if String.eqb newStatus "cancelled"
           && negb (bool_decide (is_Some (Cancellation.cancelledAt (cancellation b))))
        then oneOf cancellationReasons reason
        else true).
Proof.
  unfold validate, updateStatus_writes.
  BookingFacts.booking_cases b;
    cbn [scheduledTime estimatedDuration pricing status cancellation completion
         set_statusHistory set_status set_completion set_cancellation
         Cancellation.reason Cancellation.refundAmount Cancellation.refundStatus
         Cancellation.cancelledAt Completion.completedAt];
    intros H; repeat (apply andb_prop in H as [H ?]);
    destruct (String.eqb newStatus "completed"), (String.eqb newStatus "cancelled");
    repeat (match goal with
            | |- context [bool_decide (is_Some (Some ?x))] =>
                rewrite (bool_decide_true (is_Some (Some x))) by eauto
            | |- context [bool_decide (is_Some (@None ?A))] =>
                rewrite (bool_decide_false (is_Some (@None A))) by (by intros [? ?])
            end);
    cbn [andb negb];
    cbn [scheduledTime estimatedDuration pricing status cancellation completion
         set_statusHistory set_status set_completion set_cancellation
         Cancellation.reason Cancellation.refundAmount Cancellation.refundStatus
         Cancellation.cancelledAt Completion.completedAt];
    repeat (match goal with
            | E : ?x = true |- context [?x] => rewrite E
            end);
    cbn [andb]; rewrite ?andb_true_r; reflexivity.
Qed.

(** C5. A status-update request reaches [updateStatus] exactly when the
    requester is a participant, the body is well formed, the requested
    transition is an edge of the graph (pending to confirmed or cancelled;
    confirmed to in_progress, cancelled or no_show; in_progress to
    completed or cancelled) and a move into confirmed or completed comes
    from the provider. It is then applied, and the booking holds the
    requested status, unless the validators of [save()] refuse the
    document, which is answered with a 400. Every other request ends in an
    error response, and a request that ends in an error response changes
    nothing. On a booking that the validators accepted before, the only
    transition of the graph that they refuse is a first cancellation whose
    reason is not one of the seven of the schema. *)
Theorem status_update_follows_transition_graph
    (now : Z) (req_user : option ObjectId) (found : option booking)
    (errors : list string) (body : StatusBody.t) :
  match req_user, found with
  | Some uid, Some b =>
      let reason := default "" (StatusBody.reason body) in
      let notes := default "" (StatusBody.notes body) in
      if specAccepts uid b errors body
      then
        if validate (updateStatus_writes (StatusBody.status body) uid reason notes now b)
        then updateBookingStatus now req_user found errors body
             = Accepted (updateStatus (StatusBody.status body) uid reason notes now b)
             /\ status (updateStatus (StatusBody.status body) uid reason notes now b)
                = StatusBody.status body
        else updateBookingStatus now req_user found errors body
             = Rejected (bad_request "Validation Error")
      else exists r, updateBookingStatus now req_user found errors body = Rejected r
                     /\ is_error r = true
  | _, _ => exists r, updateBookingStatus now req_user found errors body = Rejected r
                      /\ is_error r = true
  end /\
  forall (uid : ObjectId) (b : booking),
    validate b = true ->
    specTransition (status b) (StatusBody.status body) = true ->
    validate (updateStatus_writes (StatusBody.status body) uid
                (default "" (StatusBody.reason body))
                (default "" (StatusBody.notes body)) now b) =
      (if String.eqb (StatusBody.status body) "cancelled"
          && negb (bool_decide (is_Some (Cancellation.cancelledAt (cancellation b))))
       then oneOf cancellationReasons (default "" (StatusBody.reason body))
       else true).
Proof.
  split.
  - destruct req_user as [uid|]; [|by eexists].
    destruct found as [b|]; [|by eexists].
    cbv zeta.
    unfold specAccepts, updateBookingStatus, Middleware.bookingParticipant,
      awaitUpdateStatus, awaitSave.
    rewrite <- table_agrees.
    destruct (String.eqb uid (customer b)) eqn:Ec, (String.eqb uid (provider b)) eqn:Ep;
      cbn [negb andb orb Middleware.booking Middleware.user
           Middleware.isProvider Middleware.isCustomer];
      try (by eexists).
    all: destruct (bool_decide (errors = [])); cbn [negb andb]; try (by eexists).
    all: destruct (transitionsFrom (status b)) as [allowed|]; try (by eexists).
    all: destruct (includes allowed (StatusBody.status body)); cbn [negb andb];
      try (by eexists).
    all: destruct (String.eqb (StatusBody.status body) "confirmed"); cbn [negb andb orb];
      try (by eexists).
    all: destruct (String.eqb (StatusBody.status body) "completed"); cbn [negb andb orb];
      try (by eexists).
    all: destruct (validate _); [|reflexivity].
    all: split; [reflexivity|].
    all: apply BookingFacts.updateStatus_status.
  - intros uid b Hv Ht.
    rewrite (validate_updateStatus_writes _ _ _ _ _ _ Hv).
    by rewrite (specTransition_status _ _ Ht).
Qed.

(** C3 (counterexample). Exactly 24 hours before a booking at the first
    minute of its day, the fee on a total of 100 is 25, not 0. And 43 hours
    before a booking at 23:00, whose day starts 20 hours from now, the fee
    is 25 as well, not 0: the hours are counted to [scheduledDate], and the
    time of day is not read. *)
Lemma fee_at_24_hours_and_by_time_of_day :
  (scheduledInstant (booked (24 * hour) 100 "confirmed") - 0 = 24 * hour /\
   strict_eq (calculateCancellationFee 0 (booked (24 * hour) 100 "confirmed")) (of_Z 0)
     = false /\
   strict_eq (calculateCancellationFee 0 (booked (24 * hour) 100 "confirmed")) (of_Z 25)
     = true) /\
  (scheduledInstant (bookedAt (20 * hour) "23:00" 100 "confirmed") - 0 = 43 * hour /\
   strict_eq (calculateCancellationFee 0 (bookedAt (20 * hour) "23:00" 100 "confirmed"))
             (of_Z 0) = false /\
   strict_eq (calculateCancellationFee 0 (bookedAt (20 * hour) "23:00" 100 "confirmed"))
             (of_Z 25) = true).
Proof. by vm_compute. Qed.

Example fee_at_exactly_2_hours :
  strict_eq (calculateCancellationFee 0 (booked (2 * hour) 100 "confirmed")) (of_Z 50)
    = true.
Proof. by vm_compute. Qed.

Example fee_thirty_ten_one_hours :
  strict_eq (calculateCancellationFee 0 (booked (30 * hour) 100 "confirmed")) (of_Z 0) = true /\
  strict_eq (calculateCancellationFee 0 (booked (10 * hour) 100 "confirmed")) (of_Z 25) = true /\
  strict_eq (calculateCancellationFee 0 (booked (1 * hour) 100 "confirmed")) (of_Z 50) = true.
Proof. by vm_compute. Qed.

Example refund_twenty_hours_before :
  exists c, cancelBooking 0 (Some "alice") (Some (booked (20 * hour) 100 "confirmed")) []
                          "customer_request" = Cancelled c
            /\ strict_eq (Cancelled.refundAmount c) (of_Z 75) = true
            /\ strict_eq (Cancelled.cancellationFee c) (of_Z 25) = true.
Proof. eexists. split; [by vm_compute|]. by vm_compute. Qed.

(** C3 (amended). The fee is a function of the instant of the call, of
    [scheduledDate] and of the total, and of nothing else in the booking:
    with [left] the milliseconds from now to the scheduled date, it is 0
    when more than 24 hours are left, 25% of the total when more than 2 and
    at most 24 hours are left, and 50% of the total when 2 hours or less
    are left. A cancellation that goes through reports this fee and the
    refund [totalAmount - fee], and puts the refund on the booking. *)
Theorem cancellation_fee_and_refund
    (now : Z) (b : booking) (req_user : option ObjectId) (found : option booking)
    (errors : list string) (reason : string) :
  calculateCancellationFee now b =
    (let left := scheduledDate b - now in
     let total := to_num (Pricing.totalAmount (pricing b)) in
     if 24 * 3600000 <? left then of_Z 0
     else if 2 * 3600000 <? left then mul total (JFin (25 # 100))
          else mul total (JFin (5 # 10))) /\
  (forall other : booking,
     scheduledDate other = scheduledDate b ->
     Pricing.totalAmount (pricing other) = Pricing.totalAmount (pricing b) ->
     calculateCancellationFee now other = calculateCancellationFee now b) /\
  match cancelBooking now req_user found errors reason with
  | Cancelled c =>
      exists b0, found = Some b0 /\
        Cancelled.cancellationFee c = calculateCancellationFee now b0 /\
        Cancelled.refundAmount c =
          sub (to_num (Pricing.totalAmount (pricing b0))) (Cancelled.cancellationFee c) /\
        Cancellation.refundAmount (cancellation (Cancelled.booking c))
          = Some (Cancelled.refundAmount c)
  | _ => True
  end.
Proof.
  split; [apply BookingFacts.calculateCancellationFee_tiers|].
  split.
  { intros other Hd Ht. rewrite !BookingFacts.calculateCancellationFee_tiers.
    cbv zeta. by rewrite Hd, Ht. }
  unfold cancelBooking, Middleware.bookingParticipant, awaitUpdateStatus, awaitSave.
  destruct req_user as [uid|]; [|done].
  destruct found as [b0|]; [|done].
  destruct (negb (String.eqb uid (customer b0)) && negb (String.eqb uid (provider b0)));
    [done|].
  cbn [Middleware.booking Middleware.user].
  destruct (negb _); [done|].
  destruct (negb _); [done|].
  destruct (validate _); [|done].
  destruct (validate _); [|done].
  exists b0. split; [done|]. split; [done|]. split; [done|].
  cbn [Cancelled.booking Cancelled.refundAmount].
  by rewrite BookingFacts.save_cancellation.
Qed.

Section CreateBooking.

Variable render : string -> Date -> string.
Variable parse_date : string -> Date.
Variable show_num : num -> string.

(** No booking that comes out of the creation handler has one user on both
    sides. *)
Lemma created_booking_has_two_parties
    (services : gmap string Service.service) (now : Z) (req : createRequest)
    (b : booking) :
  createBooking render parse_date show_num services now req = Accepted b ->
  customer b <> provider b.
Proof.
  unfold createBooking.
  destruct (negb _); [done|].
  destruct (services !! _) as [svc|]; [|done].
  destruct (negb _ || _); [done|].
  destruct (String.eqb_spec (Service.provider svc) (user req)) as [|Hne]; [done|].
  destruct (lt _ _); [done|].
  destruct (Service.isAvailable _ _ _ _ _) as [[]|]; try done.
  destruct (parse_date _); [|done].
  unfold awaitSave. destruct (validate _); [|done].
  intros [= <-].
  match goal with
  | |- customer (save now ?x) <> _ =>
      destruct (BookingFacts.save_parties now x) as [-> ->]
  end.
  cbn. congruence.
Qed.

(** C10 (amended). A creation request of the provider of the targeted
    service is answered with status 400 and creates no booking; the message
    is "Cannot book your own service" when the body passes validation and
    the service is active and not paused, and the message of the validation
    guard or of the availability guard, which come first, otherwise. *)
Theorem self_booking_rejected
    (services : gmap string Service.service) (now : Z) (req : createRequest)
    (svc : Service.service) :
  services !! CreateBody.service (body req) = Some svc ->
  Service.provider svc = user req ->
  createBooking render parse_date show_num services now req =
    Rejected {| statusCode := 400;
                message :=
                  if negb (bool_decide (errors req = [])) then "Validation Error"
                  else if negb (Service.isActive svc) || Service.isPaused svc
                       then "Service is not available for booking"
                       else "Cannot book your own service" |}.
Proof.
  intros Hsvc Hown. unfold createBooking. rewrite Hsvc.
  destruct (negb (bool_decide (errors req = []))); [done|].
  destruct (negb (Service.isActive svc) || Service.isPaused svc); [done|].
  by rewrite Hown, String.eqb_refl.
Qed.

End CreateBooking.

(** C10 (counterexample). Bob asks to book his own service while it is
    paused: the request is refused, with the message of the availability
    guard and not "Cannot book your own service". *)
Lemma self_booking_of_paused_service :
  Service.provider (serviceOfBob true) = BookingRoutes.user (bookingOf "bob") /\
  createBooking no_render no_parse no_show {[ "s1" := serviceOfBob true ]} 0 (bookingOf "bob")
    = Rejected (bad_request "Service is not available for booking") /\
  createBooking no_render no_parse no_show {[ "s1" := serviceOfBob true ]} 0 (bookingOf "bob")
    <> Rejected (bad_request "Cannot book your own service").
Proof. split; [reflexivity|]. split; [by vm_compute|]. by vm_compute. Qed.

(** Bob asks to book his own active, unpaused service. *)
Lemma self_booking_rejected_witness :
  createBooking no_render no_parse no_show {[ "s1" := serviceOfBob false ]} 0
                (bookingOf "bob")
  = Rejected {| statusCode := 400; message := "Cannot book your own service" |}.
Proof.
  apply (self_booking_rejected no_render no_parse no_show
           {[ "s1" := serviceOfBob false ]} 0 (bookingOf "bob") (serviceOfBob false)).
  - by vm_compute.
  - reflexivity.
Defined.

End BookingRoutesFacts.

Module BookingThreadFacts.
Import Js Booking BookingThread.

Lemma unreadFor_cons (u : ObjectId) (m : Message.t) (ms : list Message.t) :
  unreadFor u (m :: ms) =
    ((if negb (String.eqb (Message.sender m) u) && negb (Message.isRead m) then 1 else 0)
     + unreadFor u ms)%nat.
Proof.
  unfold unreadFor. rewrite filter_cons.
  destruct (String.eqb_spec (Message.sender m) u) as [E|E], (Message.isRead m) eqn:R;
    cbn [negb andb]; destruct (decide _) as [[H1 H2]|H]; try done.
  exfalso. apply H. done.
Qed.

(** X1. After [markMessagesAsRead(u)] nothing waits for [u]; the senders,
    texts, times and order of the thread are as before; the messages that
    [u] sent keep their read flag; and a second call changes nothing. *)
Theorem markMessagesAsRead_clears_inbox (u : ObjectId) (messages : list Message.t) :
  let after := markMessagesAsRead u messages in
  unreadFor u after = 0%nat /\
  Message.sender <$> after = Message.sender <$> messages /\
  Message.message <$> after = Message.message <$> messages /\
  Message.timestamp <$> after = Message.timestamp <$> messages /\
  filter (fun m => Message.sender m = u) after
    = filter (fun m => Message.sender m = u) messages /\
  markMessagesAsRead u after = after.
Proof.
  cbv zeta. induction messages as [|m ms (IH1 & IH2 & IH3 & IH4 & IH5 & IH6)]; [done|].
  unfold markMessagesAsRead in *. rewrite !fmap_cons, unreadFor_cons, !filter_cons.
  rewrite IH1, IH2, IH3, IH4, IH5, IH6.
  destruct m as [s txt t r].
  cbn [Message.sender Message.message Message.timestamp Message.isRead].
  destruct (String.eqb_spec s u) as [E|E], r; cbn [negb andb];
    cbn [Message.sender Message.message Message.timestamp Message.isRead];
    destruct (String.eqb_spec s u); try done;
    cbn [negb andb]; repeat split; try done;
    destruct (decide (s = u)); done.
Qed.

(** The message that alice sends waits for bob until bob reads the thread,
    and never for alice. *)
Example thread_round (now : Z) :
  let thread := addMessage "alice" "On my way" now [] in
  unreadFor "bob" thread = 1%nat /\
  unreadFor "alice" thread = 0%nat /\
  unreadFor "bob" (markMessagesAsRead "alice" thread) = 1%nat /\
  unreadFor "bob" (markMessagesAsRead "bob" thread) = 0%nat.
Proof. by vm_compute. Qed.

(** X2. A booking is never upcoming and overdue at once; a pending booking
    whose date has passed is neither, and so is a booking in progress
    before its date and every completed, cancelled or no-show booking. *)
Theorem upcoming_and_overdue_exclude_each_other (now : Z) (b : booking) :
  isUpcoming now b && isOverdue now b = false /\
  isOverdue now (set_status "pending" b) = false /\
  isUpcoming now (set_status "in_progress" b) = false /\
  (isUpcoming now (set_status "completed" b) || isOverdue now (set_status "completed" b)
   || isUpcoming now (set_status "cancelled" b) || isOverdue now (set_status "cancelled" b)
   || isUpcoming now (set_status "no_show" b) || isOverdue now (set_status "no_show" b))
  = false.
Proof.
  split; [|split; [|split]].
  - unfold isUpcoming, isOverdue.
    destruct (Z.ltb_spec now (scheduledDate b)), (Z.ltb_spec (scheduledDate b) now);
      cbn [andb]; try done; try (by rewrite ?andb_false_r); lia.
  - unfold isOverdue. cbn. apply andb_false_r.
  - unfold isUpcoming. cbn. apply andb_false_r.
  - unfold isUpcoming, isOverdue. cbn. by rewrite !andb_false_r.
Qed.

End BookingThreadFacts.

Module BookingFlowFacts.
Import Js Booking BookingRoutes BookingFlow Scenario.

Lemma updateStatus_persisted
    (newStatus : string) (by_user : ObjectId) (reason notes : string)
    (now : Z) (b : booking) :
  isNew b = false ->
  statusHistory (updateStatus newStatus by_user reason notes now b) =
    statusHistory b ++ [ {| Entry.status := status b; Entry.changedAt := now;
                            Entry.changedBy := by_user; Entry.reason := reason;
                            Entry.notes := notes |} ]
  /\ isNew (updateStatus newStatus by_user reason notes now b) = false.
Proof.
  unfold updateStatus, updateStatus_writes; BookingFacts.booking_cases b; cbn; try done; intros _;
    destruct (String.eqb newStatus "completed"), (String.eqb newStatus "cancelled");
    cbn; by rewrite ?app_nil_r.
Qed.

(** X3. On a stored booking, a run of [updateStatus] calls appends one
    history entry per call, and the entries carry the statuses the booking
    had before each call: the status it started from, then the targets of
    all calls but the last. The booking ends in the target of the last call,
    which the history does not hold yet. *)
Theorem history_records_statuses_left (b : booking) (ts : list transition) :
  isNew b = false ->
  Entry.status <$> statusHistory (foldl applyTransition b ts)
    = (Entry.status <$> statusHistory b) ++ take (length ts) (status b :: (target <$> ts))
  /\ status (foldl applyTransition b ts) = default (status b) (last (target <$> ts)).
Proof.
  revert b. induction ts as [|t ts IH]; intros b Hb.
  - cbn. by rewrite app_nil_r.
  - cbn [foldl length].
    destruct (updateStatus_persisted (target t) (actor t) (why t) (note t) (instant t) b Hb)
      as [Hh Hn].
    pose proof (BookingFacts.updateStatus_status
                  (target t) (actor t) (why t) (note t) (instant t) b) as Hs.
    fold (applyTransition b t) in Hh, Hn, Hs.
    destruct (IH _ Hn) as [IH1 IH2]. split.
    + rewrite IH1, Hh, Hs, fmap_app, <- app_assoc. reflexivity.
    + rewrite IH2, Hs, fmap_cons.
      destruct (target <$> ts) as [|x xs] eqn:E; [done|].
      rewrite last_cons_cons.
      destruct (last (x :: xs)) eqn:El; [done|]. by apply last_None in El.
Qed.

(** Pending, confirmed, started, completed: four statuses, three entries,
    the first of them "pending" and none of them "completed". *)
Lemma history_records_statuses_left_witness :
  Entry.status <$> statusHistory
    (foldl applyTransition (booked 0 100 "pending")
       [ {| target := "confirmed"; actor := "bob"; why := ""; note := ""; instant := 1 |};
         {| target := "in_progress"; actor := "bob"; why := ""; note := ""; instant := 2 |};
         {| target := "completed"; actor := "bob"; why := ""; note := ""; instant := 3 |} ])
  = ["pending"; "confirmed"; "in_progress"].
Proof.
  apply (history_records_statuses_left (booked 0 100 "pending")
           [ {| target := "confirmed"; actor := "bob"; why := ""; note := ""; instant := 1 |};
             {| target := "in_progress"; actor := "bob"; why := ""; note := ""; instant := 2 |};
             {| target := "completed"; actor := "bob"; why := ""; note := ""; instant := 3 |} ]).
  reflexivity.
Defined.






End BookingFlowFacts.

Module CancellationFacts.
Import Js Booking BookingRoutes Scenario.

Lemma includes_two (a c x : string) :
  includes [a; c] x = true <-> x = a \/ x = c.
Proof.
  unfold includes. cbn.
  destruct (String.eqb_spec x a), (String.eqb_spec x c); cbn; split; intros; auto;
    try done. by destruct H.
Qed.

Lemma booking_save_keeps (now : Z) (b : booking) :
  status (save now b) = status b /\
  cancellation (save now b) = cancellation b /\
  isNew (save now b) = false.
Proof. by BookingFacts.booking_cases b. Qed.

Lemma updateStatus_history
    (newStatus : string) (by_user : ObjectId) (reason notes : string)
    (now : Z) (b : booking) :
  statusHistory (updateStatus newStatus by_user reason notes now b) =
    statusHistory b
    ++ [ {| Entry.status := status b; Entry.changedAt := now;
            Entry.changedBy := by_user; Entry.reason := reason;
            Entry.notes := notes |} ]
    ++ (if isNew b then [creationEntry newStatus now (customer b)] else [])
  /\ isNew (updateStatus newStatus by_user reason notes now b) = false.
Proof.
  unfold updateStatus, updateStatus_writes; BookingFacts.booking_cases b;
    destruct (String.eqb newStatus "completed"), (String.eqb newStatus "cancelled");
    cbn; by rewrite <- ?app_assoc.
Qed.

Lemma updateStatus_cancelled_stamp
    (by_user : ObjectId) (reason notes : string) (now : Z) (b : booking) :
  is_Some (Cancellation.cancelledAt
             (cancellation (updateStatus "cancelled" by_user reason notes now b))).
Proof.
  unfold updateStatus, updateStatus_writes; BookingFacts.booking_cases b; cbn; by eexists.
Qed.

Lemma validate_reason (b : booking) (reason : string) :
  validate b = true ->
  Cancellation.reason (cancellation b) = Some reason ->
  oneOf cancellationReasons reason = true.
Proof.
  unfold validate. intros H E. rewrite E in H.
  repeat (apply andb_prop in H as [H ?]). done.
Qed.

Lemma updateStatus_writes_reason
    (by_user : ObjectId) (reason notes : string) (now : Z) (b : booking) :
  Cancellation.cancelledAt (cancellation b) = None ->
  Cancellation.reason
    (cancellation (updateStatus_writes "cancelled" by_user reason notes now b))
  = Some reason.
Proof.
  unfold updateStatus_writes; BookingFacts.booking_cases b; cbn; by intros.
Qed.

(** X5. A cancellation goes through only for a participant, with a body
    that the validator chain of the route accepts, on a pending or confirmed
    booking, and only when the validators of the schema accept the booking
    that [updateStatus] has written; for a booking with no cancellation
    recorded yet that asks for a reason among the seven values of the
    [enum] of [cancellation.reason]. The booking is then cancelled, its
    cancellation time is set, its history has gained the entry of the status
    it left, signed by the requester with the reason, and the refund status
    is "pending" exactly when the refund is positive. When the first save
    goes through and the second one is refused, the booking stays cancelled
    as [updateStatus] stored it and the answer is a 400. Every other refusal
    stores nothing and is a 400, 401, 403 or 404 response. *)
Theorem cancellation_goes_through_when (now : Z) (req_user : option ObjectId)
    (found : option booking) (errors : list string) (reason : string) :
  match cancelBooking now req_user found errors reason with
  | Cancelled c =>
      exists uid b,
        req_user = Some uid /\ found = Some b /\
        (uid = customer b \/ uid = provider b) /\
        errors = [] /\
        (status b = "pending" \/ status b = "confirmed") /\
        validate (updateStatus_writes "cancelled" uid reason "" now b) = true /\
        (Cancellation.cancelledAt (cancellation b) = None ->
         oneOf cancellationReasons reason = true) /\
        status (Cancelled.booking c) = "cancelled" /\
        is_Some (Cancellation.cancelledAt (cancellation (Cancelled.booking c))) /\
        statusHistory (Cancelled.booking c) =
          statusHistory b
          ++ [ {| Entry.status := status b; Entry.changedAt := now;
                  Entry.changedBy := uid; Entry.reason := reason; Entry.notes := "" |} ]
          ++ (if isNew b then [creationEntry "cancelled" now (customer b)] else []) /\
        Cancelled.refundStatus c =
          (if gt (Cancelled.refundAmount c) (of_Z 0) then "pending" else "not_applicable") /\
        Cancellation.refundStatus (cancellation (Cancelled.booking c))
          = Cancelled.refundStatus c
  | CancelledWithoutRefund stored r =>
      exists uid b,
        req_user = Some uid /\ found = Some b /\
        stored = updateStatus "cancelled" uid reason "" now b /\
        status stored = "cancelled" /\
        statusCode r = 400
  | Refused r =>
      statusCode r = 400 \/ statusCode r = 401 \/ statusCode r = 403 \/ statusCode r = 404
  end.
Proof.
  unfold cancelBooking, Middleware.bookingParticipant.
  destruct req_user as [uid|]; [|cbn; tauto].
  destruct found as [b|]; [|cbn; tauto].
  destruct (String.eqb_spec uid (customer b)) as [Ec|Ec],
           (String.eqb_spec uid (provider b)) as [Ep|Ep];
    cbn [negb andb Middleware.booking Middleware.user]; try (cbn; tauto);
    (destruct (decide (errors = [])) as [He|He];
     [rewrite (bool_decide_true _ He)|rewrite (bool_decide_false _ He)];
     cbn [negb]; [|cbn; tauto]);
    (destruct (includes ["pending"; "confirmed"] (status b)) eqn:Ei;
     cbn [negb]; [|cbn; tauto]);
    apply includes_two in Ei;
    unfold awaitUpdateStatus, awaitSave;
    (destruct (validate (updateStatus_writes "cancelled" uid reason "" now b)) eqn:Ev;
     [|cbn; tauto]);
    fold (updateStatus "cancelled" uid reason "" now b);
    pose proof (BookingFacts.updateStatus_status "cancelled" uid reason "" now b) as Hs;
    pose proof (updateStatus_history "cancelled" uid reason "" now b) as [Hh Hn];
    pose proof (updateStatus_cancelled_stamp uid reason "" now b) as Hc;
    set (b1 := updateStatus "cancelled" uid reason "" now b) in *;
    (destruct (validate (set_cancellation _ b1));
     [|exists uid, b; by repeat split]);
    exists uid, b;
    cbn [Cancelled.booking Cancelled.refundStatus Cancelled.refundAmount];
    match goal with
    | |- context [save now ?x] =>
        pose proof (booking_save_keeps now x) as (Ks & Kc & _);
        pose proof (BookingFacts.save_history now x) as Kh
    end;
    rewrite Ks, Kc, Kh;
    cbn [set_cancellation status cancellation statusHistory isNew customer
         Cancellation.cancelledAt Cancellation.refundStatus];
    rewrite Hn, app_nil_r;
    (repeat split; auto);
    intros Hnone;
    apply (validate_reason _ _ Ev), updateStatus_writes_reason, Hnone.
Qed.

(** A cancellation with a reason of the right length that is not one of
    the seven values is refused by the validators of the schema, and one
    without a well-formed body by the chain of the route. *)
Example cancel_with_a_free_text_reason :
  cancelBooking 0 (Some "alice") (Some (booked (30 * hour) 100 "confirmed")) []
                "I changed my mind"
  = Refused (bad_request "Validation Error").
Proof. by vm_compute. Qed.

(** A booking whose total is infinite, cancelled inside the last day: the
    fee and the refund are not numbers, the first save goes through and the
    second one does not. *)
Example cancelled_but_no_refund_recorded :
  let b := set_pricing
             {| Pricing.servicePrice := Some (of_Z 100);
                Pricing.platformFee := Some (of_Z 0);
                Pricing.taxes := Some (of_Z 0);
                Pricing.totalAmount := Some (JInf false);
                Pricing.currency := "USD" |}
             (booked (20 * hour) 100 "confirmed") in
  exists stored r,
    cancelBooking 0 (Some "alice") (Some b) [] "customer_request"
      = CancelledWithoutRefund stored r /\
    status stored = "cancelled" /\
    Cancellation.refundAmount (cancellation stored) = None /\
    statusCode r = 400.
Proof. eexists _, _. split; [by vm_compute|]. by vm_compute. Qed.

Lemma terminal_has_no_transitions (s : string) :
  includes ["completed"; "cancelled"; "no_show"] s = true ->
  transitionsFrom s = Some [] /\ includes ["pending"; "confirmed"] s = false.
Proof.
  unfold includes. cbn -[String.eqb].
  destruct (String.eqb_spec s "completed") as [->|?]; [done|].
  destruct (String.eqb_spec s "cancelled") as [->|?]; [done|].
  destruct (String.eqb_spec s "no_show") as [->|?]; [done|]. done.
Qed.

(** X6. A booking that is completed, cancelled or a no-show stays as it is:
    the status route and the cancellation route refuse every request for it
    with a 4xx response and store nothing, whoever sends it and whatever it
    asks for. *)
Theorem terminal_bookings_are_final (b : booking) (now : Z) (user : option ObjectId)
    (errors : list string) (body : StatusBody.t) (reason : string) :
  includes ["completed"; "cancelled"; "no_show"] (status b) = true ->
  (exists r, updateBookingStatus now user (Some b) errors body = Rejected r
             /\ 400 <= statusCode r < 500) /\
  (exists r, cancelBooking now user (Some b) errors reason = Refused r
             /\ 400 <= statusCode r < 500).
Proof.
  intros (Ht & Hc)%terminal_has_no_transitions.
  unfold updateBookingStatus, cancelBooking, Middleware.bookingParticipant.
  destruct user as [uid|]; [|split; eexists; (split; [reflexivity|cbn; lia])].
  destruct (negb (String.eqb uid (customer b)) && negb (String.eqb uid (provider b)));
    [split; eexists; (split; [reflexivity|cbn; lia])|].
  cbn [Middleware.booking Middleware.user]. rewrite Ht, Hc. cbn [negb includes existsb].
  split; destruct (negb (bool_decide (errors = [])));
    eexists; (split; [reflexivity|cbn; lia]).
Qed.

(** Alice cancels; after that neither she nor bob can cancel again or move
    the booking. *)
Lemma terminal_bookings_are_final_witness :
  (exists r, updateBookingStatus 5 (Some "bob") (Some (booked 0 100 "cancelled")) []
                                 (statusRequest "confirmed") = Rejected r
             /\ 400 <= statusCode r < 500) /\
  (exists r, cancelBooking 5 (Some "bob") (Some (booked 0 100 "cancelled")) []
                           "customer_request" = Refused r
             /\ 400 <= statusCode r < 500).
Proof.
  apply (terminal_bookings_are_final (booked 0 100 "cancelled") 5 (Some "bob") []
           (statusRequest "confirmed") "customer_request").
  reflexivity.
Defined.

Lemma fee_finite (now : Z) (b : booking) (t : Q) :
  Pricing.totalAmount (pricing b) = Some (JFin t) ->
  calculateCancellationFee now b =
    JFin (if 24 * 3600000 <? scheduledDate b - now then inject_Z 0
          else if 2 * 3600000 <? scheduledDate b - now then t * (25 # 100)
               else t * (5 # 10)).
Proof.
  intro Ht. rewrite BookingFacts.calculateCancellationFee_tiers. cbv zeta.
  rewrite Ht. cbn [to_num mul].
  by destruct (24 * 3600000 <? scheduledDate b - now),
             (2 * 3600000 <? scheduledDate b - now).
Qed.

(** X7. For a booking with a total that is not negative, the fee is never
    negative and never more than half of the total, and waiting never makes
    it cheaper: cancelling at a later instant costs at least as much. *)
Theorem fee_is_bounded_and_grows_with_time (now later : Z) (b : booking) (t : Q) :
  Pricing.totalAmount (pricing b) = Some (JFin t) ->
  (0 <= t)%Q ->
  now <= later ->
  exists f f',
    calculateCancellationFee now b = JFin f /\
    calculateCancellationFee later b = JFin f' /\
    (0 <= f)%Q /\ (f <= f')%Q /\ (f' <= t * (1 # 2))%Q.
Proof.
  intros Ht H0 Hle.
  rewrite (fee_finite now b t Ht), (fee_finite later b t Ht).
  eexists _, _. split; [reflexivity|]. split; [reflexivity|].
  assert (Hq : (0 <= t * (25 # 100))%Q) by (apply Qmult_le_0_compat; done).
  assert (Hh : (t * (25 # 100) <= t * (5 # 10))%Q).
  { apply Qmult_le_compat_nonneg; split; try done. apply Qle_refl. }
  assert (Hz : (inject_Z 0 <= t * (25 # 100))%Q) by done.
  assert (He : (t * (5 # 10) <= t * (1 # 2))%Q).
  { apply Qmult_le_compat_nonneg; split; try done. apply Qle_refl. }
  destruct (Z.ltb_spec (24 * 3600000) (scheduledDate b - now)),
           (Z.ltb_spec (2 * 3600000) (scheduledDate b - now)),
           (Z.ltb_spec (24 * 3600000) (scheduledDate b - later)),
           (Z.ltb_spec (2 * 3600000) (scheduledDate b - later));
    try lia; repeat split;
    eauto using Qle_refl, Qle_trans.
Qed.

(** Twenty-five hours ahead and one hour ahead, on a total of 100. *)
Lemma fee_is_bounded_and_grows_with_time_witness :
  exists f f',
    calculateCancellationFee 0 (booked (25 * hour) 100 "confirmed") = JFin f /\
    calculateCancellationFee (24 * hour) (booked (25 * hour) 100 "confirmed") = JFin f' /\
    (0 <= f)%Q /\ (f <= f')%Q /\ (f' <= inject_Z 100 * (1 # 2))%Q.
Proof.
  apply (fee_is_bounded_and_grows_with_time 0 (24 * hour)
           (booked (25 * hour) 100 "confirmed") (inject_Z 100)).
  - reflexivity.
  - by vm_compute.
  - by vm_compute.
Defined.

End CancellationFacts.

Module CreationFacts.
Import Js Booking BookingRoutes Scenario.

(** X8. [POST /api/bookings] never creates a booking. Every request is
    answered with an error: a 400 from one of the guards, or, once all the
    guards before the availability check are passed, the 500 of the
    [TypeError] that [isAvailable] throws. *)
Theorem no_booking_is_ever_created
    (render : string -> Date -> string) (parse_date : string -> Date)
    (show_num : num -> string)
    (services : gmap string Service.service) (now : Z) (req : createRequest) :
  exists r,
    createBooking render parse_date show_num services now req = Rejected r /\
    (statusCode r = 400 \/
     statusCode r = 500 /\ message r = "requestDate.toLocaleLowerCase is not a function").
Proof.
  unfold createBooking.
  destruct (negb _); [by eexists; split; [|left]|].
  destruct (services !! _) as [svc|]; [|by eexists; split; [|left]].
  destruct (negb (Service.isActive svc) || Service.isPaused svc) eqn:Ea;
    [by eexists; split; [|left]|].
  destruct (String.eqb _ _); [by eexists; split; [|left]|].
  destruct (lt _ _); [by eexists; split; [|left]|].
  unfold Service.isAvailable, Service.call_date_method.
  rewrite Ea, ServiceFacts.toLocaleLowerCase_not_on_Date.
  eexists. split; [reflexivity|]. by right.
Qed.

Example stranger_books_open_service :
  createBooking no_render (fun _ => Some (1894615200000)) no_show
                {[ "s1" := serviceOfBob false ]} 0 (bookingOf "alice")
  = Rejected {| statusCode := 500;
                message := "requestDate.toLocaleLowerCase is not a function" |}.
Proof. by vm_compute. Qed.

End CreationFacts.

Module SocketFacts.
Import Js Booking SocketHandlers Scenario.

Section Connection.

Variable verify : value -> Js.completion value.
Variable findById : value -> Js.completion (option account).

(** X9. No event of a connection reaches its listener. The function that
    the connection installs with [socket.use] is [authenticateSocket], which
    is written for a socket and is handed the packet: an array has no
    [handshake], reading [auth] from it throws, and the [catch] passes
    "Authentication error: Invalid token" to [next], whatever the event, its
    arguments, the token check and the users are. So the listener of
    [booking_status_update], as every other one, stores nothing. *)
Theorem socket_events_stop_at_the_middleware
    (event : string) (args : list value) (A : Type) (listener : A) :
  authenticateSocket verify findById (VArr (VStr event :: args))
    = inl "Authentication error: Invalid token" /\
  onevent verify findById event args listener = None.
Proof.
  assert (authenticateSocket verify findById (VArr (VStr event :: args))
          = inl "Authentication error: Invalid token") as H by reflexivity.
  split; [exact H|]. unfold onevent. cbv zeta. by rewrite H.
Qed.

(** The listener of [booking_status_update] by itself: it stores a booking
    exactly when the sender is a participant and the validators accept what
    [updateStatus] has written; the status it leaves is then the one it was
    sent, whatever the booking was in. *)
Lemma booking_status_update_stores
    (now : Z) (userId : option ObjectId) (b : booking) (newStatus : string)
    (reason notes : option string) :
  match booking_status_update now userId (Some b) newStatus reason notes with
  | inr stored =>
      (userId = Some (customer b) \/ userId = Some (provider b)) /\
      validate (updateStatus_writes newStatus (default "" userId) (default "" reason)
                                    (default "" notes) now b) = true /\
      status stored = newStatus
  | inl _ =>
      (userId <> Some (customer b) /\ userId <> Some (provider b)) \/
      validate (updateStatus_writes newStatus (default "" userId) (default "" reason)
                                    (default "" notes) now b) = false
  end.
Proof.
  unfold booking_status_update, awaitUpdateStatus, awaitSave.
  destruct (decide (Some (customer b) = userId)) as [Hc|Hc],
           (decide (Some (provider b) = userId)) as [Hp|Hp];
    rewrite ?(bool_decide_true _ Hc), ?(bool_decide_false _ Hc),
            ?(bool_decide_true _ Hp), ?(bool_decide_false _ Hp);
    cbn [orb negb];
    try (left; split; congruence);
    (destruct (validate _) eqn:Ev; [|by right]);
    (split; [auto|split; [done|apply BookingFacts.updateStatus_status]]).
Qed.

(** Sent past the middleware, the customer's "pending" for a completed
    booking would be stored, and a status outside the enum would not. *)
Example listener_reopens_a_completed_booking :
  (exists stored,
     booking_status_update 7 (Some "alice") (Some (booked 0 100 "completed"))
                           "pending" None None = inr stored
     /\ status stored = "pending") /\
  booking_status_update 7 (Some "alice") (Some (booked 0 100 "completed"))
                        "reopened" None None
    = inl "Failed to update booking status".
Proof. split; [eexists; split; [by vm_compute|reflexivity]|by vm_compute]. Qed.

End Connection.

End SocketFacts.


Module TrustScoreFacts.
Import Js User.

(** X10. For a user with reviews and at least one completed or cancelled
    service, whose stored aggregates are not negative, the trust score is an
    integer between 0 and 100. *)
Theorem trust_score_is_a_percentage (n q c k : Q) :
  (0 <= n)%Q -> (0 <= q)%Q -> (0 <= c)%Q -> (0 <= k)%Q -> (1 <= c + k)%Q ->
  exists z,
    calculateTrustScore {| totalReviews := JFin n; averageRating := JFin q;
                           completedServices := JFin c; cancelledServices := JFin k |}
    = of_Z z /\ 0 <= z <= 100.
Proof.
  intros Hn Hq Hc Hk Hs.
  by destruct (UserFacts.calculateTrustScore_meets_spec n q c k Hn Hq Hc Hk Hs) as [_ H].
Qed.

(** Twelve reviews averaging 4.5, nine services completed, one cancelled. *)
Lemma trust_score_is_a_percentage_witness :
  exists z,
    calculateTrustScore {| totalReviews := JFin 12; averageRating := JFin (9 # 2);
                           completedServices := JFin 9; cancelledServices := JFin 1 |}
    = of_Z z /\ 0 <= z <= 100.
Proof.
  apply (trust_score_is_a_percentage 12 (9 # 2) 9 1); by vm_compute.
Defined.

End TrustScoreFacts.

Module ServiceListingFacts.
Import Js ServiceListing Scenario.

(** X11. The completion rate of a service never divides by zero: with
    counters that are not negative it is a number between 0 and 100, and it
    is 0 for a service without completed or cancelled bookings. *)
Theorem completionRate_is_a_percentage (c k : Q) :
  (0 <= c)%Q -> (0 <= k)%Q ->
  exists r,
    completionRate {| Stats.completedBookings := JFin c;
                      Stats.cancelledBookings := JFin k |} = JFin r /\
    (0 <= r)%Q /\ (r <= 100)%Q /\
    completionRate {| Stats.completedBookings := of_Z 0;
                      Stats.cancelledBookings := of_Z 0 |} = of_Z 0.
Proof.
  intros Hc Hk. unfold completionRate. cbn [Stats.completedBookings Stats.cancelledBookings add].
  destruct (gt (JFin (c + k)) (of_Z 0)) eqn:E.
  - apply JsFacts.gt_finite in E.
    assert (Hnz : Qis_zero (c + k) = false).
    { apply JsFacts.Qis_zero_false. intro Hz. rewrite Hz in E. by apply Qlt_irrefl in E. }
    unfold div. rewrite Hnz. cbn [mul of_Z]. eexists. split; [reflexivity|].
    split; [|split; [|reflexivity]].
    + apply Qmult_le_0_compat; [|done].
      apply Qle_shift_div_l; [done|]. by rewrite Qmult_0_l.
    + apply Qle_trans with (1 * inject_Z 100)%Q; [|done].
      apply Qmult_le_compat_r; [|done].
      apply Qle_shift_div_r; [done|]. rewrite Qmult_1_l.
      rewrite <- (Qplus_0_r c) at 1. by apply Qplus_le_r.
  - exists 0%Q. split; [reflexivity|]. repeat split; done.
Qed.

Lemma completionRate_is_a_percentage_witness :
  exists r,
    completionRate {| Stats.completedBookings := JFin 3;
                      Stats.cancelledBookings := JFin 1 |} = JFin r /\
    (0 <= r)%Q /\ (r <= 100)%Q /\
    completionRate {| Stats.completedBookings := of_Z 0;
                      Stats.cancelledBookings := of_Z 0 |} = of_Z 0.
Proof.
  apply (completionRate_is_a_percentage 3 1); by vm_compute.
Defined.

Lemma primaries_zero (images : list Image.t) :
  existsb Image.isPrimary images = false <-> primaries images = 0%nat.
Proof.
  unfold primaries. induction images as [|img images IH]; [done|].
  cbn [existsb]. rewrite filter_cons.
  destruct (Image.isPrimary img); cbn [orb].
  - destruct (decide _); [|done]. cbn. split; [done|lia].
  - destruct (decide _); [done|]. apply IH.
Qed.

Lemma find_none_of_existsb (images : list Image.t) :
  existsb Image.isPrimary images = false -> find Image.isPrimary images = None.
Proof.
  induction images as [|img images IH]; [done|]. cbn.
  destruct (Image.isPrimary img); [done|]. apply IH.
Qed.

(** X12. The save hook gives a service with images and no primary image
    exactly one, the first; it leaves every other list as it is. It never
    changes an address or a caption, nor what [primaryImage] returns, and
    running it twice is running it once. *)
Theorem primary_image_hook (images : list Image.t) :
  let saved := preSave_primaryImage images in
  primaries saved =
    (if (primaries images =? 0)%nat && negb (length images =? 0)%nat
     then 1%nat else primaries images) /\
  Image.url <$> saved = Image.url <$> images /\
  Image.caption <$> saved = Image.caption <$> images /\
  primaryImage saved = primaryImage images /\
  preSave_primaryImage saved = saved.
Proof.
  cbv zeta. unfold preSave_primaryImage.
  destruct images as [|first rest]; [done|].
  cbn [length Nat.ltb Nat.leb andb].
  destruct (existsb Image.isPrimary (first :: rest)) eqn:E; cbn [negb].
  - assert (primaries (first :: rest) <> 0%nat) as Hp.
    { intro Hp. apply primaries_zero in Hp. congruence. }
    apply Nat.eqb_neq in Hp. rewrite Hp, E. done.
  - pose proof E as Hp. apply primaries_zero in Hp. rewrite Hp.
    cbn [existsb orb] in E. apply orb_false_iff in E as [E1 E2].
    apply primaries_zero in E2.
    cbn [Nat.eqb andb negb length existsb Image.isPrimary orb].
    split; [|split; [|split; [|split]]]; try reflexivity.
    + unfold primaries in *. rewrite filter_cons.
      destruct (decide _) as [_|Hn]; [|by destruct Hn]. cbn [length]. by rewrite E2.
    + unfold primaryImage. cbn [find Image.isPrimary Image.url]. rewrite E1.
      apply primaries_zero in E2. by rewrite (find_none_of_existsb rest E2).
Qed.

Lemma isAvailable_cases
    (render : string -> Date -> string) (parse_date : string -> Date)
    (this : Service.service) (date : Service.dateInput) (duration : num) :
  Service.isAvailable render parse_date this date duration =
    if negb (Service.isActive this) || Service.isPaused this
    then Return false
    else Throw (TypeError "requestDate.toLocaleLowerCase is not a function").
Proof.
  unfold Service.isAvailable, Service.call_date_method.
  rewrite ServiceFacts.toLocaleLowerCase_not_on_Date.
  by destruct (negb (Service.isActive this) || Service.isPaused this).
Qed.

(** X13. [GET /api/services/:id] answers 404 for an unknown service, lists
    the next seven days as unavailable for an inactive or paused service,
    and answers 500 for every active, unpaused service: the page of a
    bookable service cannot be fetched. *)
Theorem service_page_of_bookable_service_fails
    (render : string -> Date -> string) (parse_date : string -> Date)
    (add_days : Date -> nat -> Date)
    (services : gmap string Service.service) (today : Date) (id : string) :
  getService render parse_date add_days services today id =
    match services !! id with
    | None => Rejected {| statusCode := 404; message := "Service not found" |}
    | Some service =>
        if negb (Service.isActive service) || Service.isPaused service
        then Accepted ((fun i => (before_T (render "toISOString" (add_days today i)), false))
                         <$> seq 0 7)
        else Rejected {| statusCode := 500;
                         message := "requestDate.toLocaleLowerCase is not a function" |}
    end.
Proof.
  unfold getService. destruct (services !! id) as [service|]; [|done].
  cbn [upcomingAvailability]. rewrite !isAvailable_cases.
  by destruct (negb (Service.isActive service) || Service.isPaused service).
Qed.

End ServiceListingFacts.

Module CommunityPostFacts.
Import Js CommunityPost.

(** Reduce the projections and the setters of a post, and nothing else. *)
Ltac post_simpl :=
  cbn [author type status allowComments views likes shares bookmarks comments
       attendees flags expiresAt isExpired isPinned pinnedUntil isFeatured
       featuredUntil engagementRate
       set_status set_views set_likes set_bookmarks set_comments set_attendees
       set_flags set_isExpired set_isPinned set_isFeatured set_engagementRate].

(** What [save] touches: the status and the three expiry flags, and the
    stored engagement rate; nothing else. *)
Lemma post_save_keeps (now : Z) (p : post) :
  status (save now p) = (if past now (expiresAt p) then "archived" else status p) /\
  author (save now p) = author p /\
  type (save now p) = type p /\
  allowComments (save now p) = allowComments p /\
  views (save now p) = views p /\
  likes (save now p) = likes p /\
  shares (save now p) = shares p /\
  bookmarks (save now p) = bookmarks p /\
  comments (save now p) = comments p /\
  attendees (save now p) = attendees p /\
  flags (save now p) = flags p /\
  expiresAt (save now p) = expiresAt p.
Proof.
  unfold save, preSave_engagementRate, preSave_expiration.
  destruct p as [? ? ? ? v ? ? ? ? ? ? e ? ? pu ? fu ?].
  post_simpl.
  destruct (past now e); post_simpl;
    (destruct (past now pu); post_simpl;
     (destruct (past now fu); post_simpl;
      (destruct (gt v (of_Z 0)); post_simpl; repeat split))).
Qed.

Ltac save_fields now x :=
  let H := fresh "K" in
  pose proof (post_save_keeps now x) as H;
  destruct H as (?Ks & ?Ka & ?Kt & ?Kc & ?Kv & ?Kl & ?Ksh & ?Kb & ?Kco & ?Kat & ?Kf & ?Ke).

Lemma perform_status (now : Z) (p : post) (c : call) :
  (status (perform now p c) = status p \/
   status (perform now p c) = "archived" \/
   status (perform now p c) = "flagged" /\ status p = "active") /\
  expiresAt (perform now p c) = expiresAt p.
Proof.
  destruct c; cbn [perform].
  - unfold addLike. destruct (find _ _); [by split; [left|]|].
    match goal with |- context [save now ?x] => save_fields now x end.
    rewrite Ks, Ke. post_simpl. destruct (past now (expiresAt p)); split; auto.
  - unfold removeLike.
    match goal with |- context [save now ?x] => save_fields now x end.
    rewrite Ks, Ke. post_simpl. destruct (past now (expiresAt p)); split; auto.
  - unfold addComment. destruct (negb _); [by split; [left|]|].
    match goal with |- context [save now ?x] => save_fields now x end.
    rewrite Ks, Ke. post_simpl. destruct (past now (expiresAt p)); split; auto.
  - unfold addBookmark. destruct (find _ _); [by split; [left|]|].
    match goal with |- context [save now ?x] => save_fields now x end.
    rewrite Ks, Ke. post_simpl. destruct (past now (expiresAt p)); split; auto.
  - unfold removeBookmark.
    match goal with |- context [save now ?x] => save_fields now x end.
    rewrite Ks, Ke. post_simpl. destruct (past now (expiresAt p)); split; auto.
  - unfold addAttendee. destruct (negb _); [by split; [left|]|].
    destruct (find _ _);
      match goal with |- context [save now ?x] => save_fields now x end;
      rewrite Ks, Ke; post_simpl; destruct (past now (expiresAt p)); split; auto.
  - unfold checkInAttendee. destruct (find _ _); [|by split; [left|]].
    match goal with |- context [save now ?x] => save_fields now x end.
    rewrite Ks, Ke. post_simpl. destruct (past now (expiresAt p)); split; auto.
  - unfold incrementViews.
    match goal with |- context [save now ?x] => save_fields now x end.
    rewrite Ks, Ke. post_simpl. destruct (past now (expiresAt p)); split; auto.
  - unfold flagPost.
    match goal with |- context [save now ?x] => save_fields now x end.
    rewrite Ks, Ke.
    post_simpl.
    destruct (String.eqb_spec (status p) "active") as [Ea|Ea];
      destruct (3 <=? _)%nat; cbn [andb]; post_simpl; destruct (past now (expiresAt p));
      split; auto.
Qed.

(** X14. No method of a post brings it back: a post that is not active
    (flagged, removed, archived, pending) keeps its status under every
    sequence of likes, comments, bookmarks, registrations, check-ins, views
    and flags, except that a save past its expiry date archives it. *)
Theorem inactive_posts_stay_inactive (p : post) (calls : list (Z * call)) :
  status p <> "active" ->
  (status (run p calls) = status p \/ status (run p calls) = "archived") /\
  status (run p calls) <> "active".
Proof.
  revert p. induction calls as [|[t c] calls IH]; intros p Hp.
  - cbn. split; [by left|done].
  - unfold run in *. cbn [foldl fst snd].
    destruct (perform_status t p c) as [[Hs|[Hs|[_ Ha]]] _]; [| |done].
    + destruct (IH (perform t p c)) as [Hr Hn]; [by rewrite Hs|].
      split; [|done]. by rewrite <- Hs.
    + destruct (IH (perform t p c)) as [Hr Hn]; [by rewrite Hs|].
      split; [|done]. rewrite Hs in Hr. destruct Hr; by right.
Qed.

(** A flagged post collects likes and views and stays flagged. *)
Lemma inactive_posts_stay_inactive_witness :
  (status (run PostScenario.notice [(1, AddLike "ann"); (2, IncrementViews)])
     = status PostScenario.notice \/
   status (run PostScenario.notice [(1, AddLike "ann"); (2, IncrementViews)]) = "archived") /\
  status (run PostScenario.notice [(1, AddLike "ann"); (2, IncrementViews)]) <> "active".
Proof.
  apply (inactive_posts_stay_inactive PostScenario.notice
           [(1, AddLike "ann"); (2, IncrementViews)]).
  by vm_compute.
Defined.

(** X15. The author's delete marks the post removed, except that a post
    past its expiry date comes out archived: the save hook overwrites the
    status that the handler has just set. Likes and comments are kept.
    Anyone else gets a 403. *)
Theorem delete_of_expired_post_archives_it (now : Z) (userId : ObjectId) (p : post) :
  match deletePost now userId (Some p) with
  | Accepted p' =>
      author p = userId /\
      status p' = (if past now (expiresAt p) then "archived" else "removed") /\
      likes p' = likes p /\ comments p' = comments p
  | Rejected r => author p <> userId /\ statusCode r = 403
  end.
Proof.
  unfold deletePost. destruct (String.eqb_spec (author p) userId) as [E|E]; cbn [negb].
  - save_fields now (set_status "removed" p). rewrite Ks, Kl, Kco. by post_simpl.
  - done.
Qed.

(** X16. Each [flagPost] call adds a flag, whoever sends it and however
    often. With the new flag included, the third flag on an active post
    turns it to flagged; a post in any other status keeps it; and a save
    past the expiry date archives the post whatever the flags say. *)
Theorem third_flag_flags_an_active_post
    (reason : string) (flaggedBy : ObjectId) (description : string)
    (now : Z) (p : post) :
  let p' := flagPost reason flaggedBy description now p in
  length (flags p') = S (length (flags p)) /\
  status p' =
    (if past now (expiresAt p) then "archived"
     else if (2 <=? length (flags p))%nat && String.eqb (status p) "active"
          then "flagged" else status p).
Proof.
  cbv zeta. unfold flagPost.
  match goal with |- context [save now ?x] => save_fields now x end.
  rewrite Ks, Kf. post_simpl. rewrite length_app. cbn [length].
  replace (length (flags p) + 1)%nat with (S (length (flags p))) by lia.
  change (3 <=? S (length (flags p)))%nat with (2 <=? length (flags p))%nat.
  destruct ((2 <=? length (flags p))%nat && String.eqb (status p) "active");
    post_simpl; rewrite length_app; cbn [length]; split; try reflexivity; lia.
Qed.

Example one_user_flags_three_times :
  status (run PostScenario.announcement
            [(1, FlagPost "spam" "ann" ""); (2, FlagPost "spam" "ann" "")]) = "active" /\
  status (run PostScenario.announcement
            [(1, FlagPost "spam" "ann" ""); (2, FlagPost "spam" "ann" "");
             (3, FlagPost "spam" "ann" "")]) = "flagged".
Proof. by vm_compute. Qed.

(** X17. [addComment] throws on a post that does not allow comments.
    Otherwise the new comment is the last one, visible and without likes,
    the earlier comments are untouched and the visible-comment count grows
    by exactly one. *)
Theorem addComment_appends_one_visible_comment
    (authorId : ObjectId) (content : string) (parent : option ObjectId)
    (now : Z) (p : post) :
  match addComment authorId content parent now p with
  | inl msg => allowComments p = false /\ msg = "Comments are not allowed on this post"
  | inr p' =>
      allowComments p = true /\
      comments p' =
        comments p ++ [ {| Comment.author := authorId; Comment.content := content;
                           Comment.parentComment := parent; Comment.likes := [];
                           Comment.isHidden := false; Comment.createdAt := now |} ] /\
      commentCount p' = add (commentCount p) (of_Z 1)
  end.
Proof.
  unfold addComment. destruct (allowComments p); cbn [negb]; [|done].
  match goal with |- context [save now ?x] => save_fields now x end.
  unfold commentCount. rewrite Kco. post_simpl.
  split; [done|]. split; [done|].
  unfold count, of_Z, add.
  rewrite filter_app, filter_cons, filter_nil. cbn [Comment.isHidden].
  destruct (decide (false = false)); [|done].
  rewrite length_app. cbn [length].
  f_equal. rewrite Nat2Z.inj_add. unfold inject_Z, Qplus. cbn [Qnum Qden].
  f_equal. lia.
Qed.


Lemma find_attendee_user (u : ObjectId) (l : list Attendee.t) (a : Attendee.t) :
  find (fun a => String.eqb (Attendee.user a) u) l = Some a -> Attendee.user a = u.
Proof.
  induction l as [|x l IH]; cbn; [done|].
  destruct (String.eqb_spec (Attendee.user x) u) as [E|E]; [by intros [= <-]|apply IH].
Qed.







Example only_events_have_attendees (now : Z) :
  addAttendee "ann" "going" now PostScenario.announcement = inl "Only events can have attendees" /\
  checkInAttendee "bob" now PostScenario.picnic = inl "User is not registered for this event".
Proof. by vm_compute. Qed.

(** X19. When [save] runs on a post with views, the stored engagement rate
    is the value of the [calculatedEngagementRate] virtual. *)
Theorem stored_engagement_rate_is_the_virtual (now : Z) (p : post) :
  gt (views p) (of_Z 0) = true ->
  engagementRate (save now p) = calculatedEngagementRate (save now p).
Proof.
  intros Hv.
  assert (Hz : is_zero (views p) = false).
  { destruct (views p) as [|n|q]; try done. cbn in *.
    apply negb_true_iff in Hv. unfold Qis_zero.
    destruct (Qeq_bool q 0) eqn:E; [|done].
    apply Qeq_bool_iff in E. exfalso.
    assert (Qle_bool q (inject_Z 0) = true); [|congruence].
    apply Qle_bool_iff. rewrite E. done. }
  unfold calculatedEngagementRate, likeCount, commentCount.
  save_fields now p. rewrite Kv, Kl, Kco, Ksh, Hz.
  unfold save, preSave_engagementRate.
  assert (Hk : views (preSave_expiration now p) = views p /\
               likes (preSave_expiration now p) = likes p /\
               comments (preSave_expiration now p) = comments p /\
               shares (preSave_expiration now p) = shares p).
  { unfold preSave_expiration. destruct p as [? ? ? ? v ? ? ? ? ? ? e ? ? pu ? fu ?].
    post_simpl.
    destruct (past now e); post_simpl;
      (destruct (past now pu); post_simpl; (destruct (past now fu); by post_simpl)). }
  destruct Hk as (-> & -> & -> & ->). rewrite Hv. by post_simpl.
Qed.

Lemma stored_engagement_rate_is_the_virtual_witness :
  engagementRate (save 3 PostScenario.picnic) = calculatedEngagementRate (save 3 PostScenario.picnic).
Proof.
  apply (stored_engagement_rate_is_the_virtual 3 PostScenario.picnic). by vm_compute.
Defined.

End CommunityPostFacts.

Module LikeRoundTripFacts.
Import Js Community.




(** Carol likes and unlikes a post that ann likes; and a list that holds
    carol twice holds her no more after one [removeLike], with ann's entry
    untouched. *)
Example carol_likes_and_unlikes :
  removeLike "carol" (addLike "carol" 9 [ {| user := "ann"; likedAt := 1 |} ])
    = [ {| user := "ann"; likedAt := 1 |} ] /\
  removeLike "carol" [ {| user := "carol"; likedAt := 1 |};
                       {| user := "ann"; likedAt := 2 |};
                       {| user := "carol"; likedAt := 3 |} ]
    = [ {| user := "ann"; likedAt := 2 |} ].
Proof. by vm_compute. Qed.

End LikeRoundTripFacts.
Module ReviewDocumentFacts.
Import Js ReviewDocument.

(** Reduce the projections and the setters of a review, and nothing else. *)
Ltac review_simpl :=
  cbn [reviewer reviewee rating title comment isActive status flags upvotes downvotes
       votedBy response sentimentScore authenticityScore lastAIUpdate reportCount
       createdAt commentModified
       set_rating set_title set_comment set_isActive set_status set_flags set_upvotes
       set_downvotes set_votedBy set_response set_sentimentScore set_authenticityScore
       set_lastAIUpdate set_reportCount set_commentModified].


Lemma filter_out_user_again (u : ObjectId) (l : list Vote.t) (x : Vote.t) :
  Vote.user x = u ->
  filter (fun vote => negb (String.eqb (Vote.user vote) u) = true)
         (filter (fun vote => negb (String.eqb (Vote.user vote) u) = true) l ++ [x])
    = filter (fun vote => negb (String.eqb (Vote.user vote) u) = true) l.
Proof.
  intros Hx. rewrite filter_app, filter_cons, filter_nil.
  rewrite Hx, String.eqb_refl. cbn [negb].
  destruct (decide (false = true)); [done|]. rewrite app_nil_r.
  induction l as [|y l IH]; [done|].
  rewrite !filter_cons. destruct (decide _) as [Hy|Hy]; [|done].
  rewrite filter_cons. destruct (decide _); [|done]. by rewrite IH.
Qed.

Lemma filter_out_user_users (u : ObjectId) (l : list Vote.t) :
  u ∉ Vote.user <$> filter (fun vote => negb (String.eqb (Vote.user vote) u) = true) l.
Proof.
  intros Hin. apply list_elem_of_fmap in Hin as (x & Hx & Hin).
  apply list_elem_of_filter in Hin as [Hne _].
  rewrite <- Hx, String.eqb_refl in Hne. done.
Qed.

Lemma find_flag_None (u : ObjectId) (l : list Flag.t) :
  find (fun flag => String.eqb (Flag.flaggedBy flag) u) l = None ->
  u ∉ Flag.flaggedBy <$> l.
Proof.
  induction l as [|x l IH]; cbn; [intros _; apply not_elem_of_nil|].
  destruct (String.eqb_spec (Flag.flaggedBy x) u) as [E|E]; [done|].
  intros H. apply not_elem_of_cons. split; [congruence|by apply IH].
Qed.

(** [Math.max(0, Math.min(5, x))] and the like on a finite [x]. *)
Lemma clamp_finite (lo hi : Z) (q : Q) :
  (lo <= hi)%Z ->
  exists s, max (of_Z lo) (min (of_Z hi) (JFin q)) = JFin s /\
            (inject_Z lo <= s)%Q /\ (s <= inject_Z hi)%Q /\
            ((inject_Z lo <= q)%Q -> (q <= inject_Z hi)%Q -> (s == q)%Q).
Proof.
  intros Hlh. assert (Hq : (inject_Z lo <= inject_Z hi)%Q) by (by rewrite <- Zle_Qle).
  unfold max, min, of_Z, gt.
  destruct (Qle_bool (inject_Z hi) q) eqn:E1; cbn [negb].
  - apply Qle_bool_iff in E1.
    destruct (Qle_bool (inject_Z lo) (inject_Z hi)) eqn:E2; cbn [negb].
    + eexists. split; [reflexivity|]. split; [done|]. split; [apply Qle_refl|].
      intros _ H. by apply Qle_antisym.
    + exfalso. apply not_true_iff_false in E2. apply E2. by apply Qle_bool_iff.
  - assert (Hlt : (q < inject_Z hi)%Q).
    { apply Qnot_le_lt. intros H. apply Qle_bool_iff in H. congruence. }
    destruct (Qle_bool (inject_Z lo) q) eqn:E2; cbn [negb].
    + apply Qle_bool_iff in E2. eexists. split; [reflexivity|].
      split; [done|]. split; [by apply Qlt_le_weak|]. intros _ _. reflexivity.
    + eexists. split; [reflexivity|]. split; [apply Qle_refl|]. split; [done|].
      intros H _. apply Qle_bool_iff in H. congruence.
Qed.

Lemma max_one (s : Q) :
  (0 <= s)%Q ->
  exists m, max (JFin s) (of_Z 1) = JFin m /\ (1 <= m)%Q /\ (s <= m)%Q.
Proof.
  intros Hs. unfold max, of_Z, gt.
  destruct (Qle_bool s (inject_Z 1)) eqn:E; cbn [negb].
  - apply Qle_bool_iff in E. eexists. split; [reflexivity|]. split; [apply Qle_refl|done].
  - assert (inject_Z 1 < s)%Q.
    { apply Qnot_le_lt. intros H. apply Qle_bool_iff in H. congruence. }
    eexists. split; [reflexivity|]. split; [by apply Qlt_le_weak|apply Qle_refl].
Qed.

Lemma ratio_bounds (u m : Q) :
  (0 <= u)%Q -> (1 <= m)%Q -> (u <= m)%Q ->
  div (JFin u) (JFin m) = JFin (u / m) /\ (0 <= u / m)%Q /\ (u / m <= 1)%Q.
Proof.
  intros Hu Hm Hum.
  assert (Hpos : (0 < m)%Q) by lra.
  split.
  - unfold div, Qis_zero. destruct (Qeq_bool m 0) eqn:E; [|done].
    apply Qeq_bool_iff in E. lra.
  - split.
    + apply Qle_shift_div_l; [done|]. lra.
    + apply Qle_shift_div_r; [done|]. lra.
Qed.

(** X21. [calculateTrustImpact] on a review with a rating between 0 and 5,
    an authenticity score between 0 and 1 and non-negative vote counters:
    the impact is a finite number between 0 and the rating. An authenticity
    score of 0 is falsy and leaves the rating unscaled. A review without
    upvotes weighs half of its scaled rating, a flagged one half again. *)
Theorem trust_impact_is_at_most_the_rating (r : review) (q a u d : Q) :
  rating r = JFin q -> (0 <= q)%Q -> (q <= 5)%Q ->
  authenticityScore r = JFin a -> (0 <= a)%Q -> (a <= 1)%Q ->
  upvotes r = JFin u -> (0 <= u)%Q ->
  downvotes r = JFin d -> (0 <= d)%Q ->
  exists x,
    calculateTrustImpact r = JFin x /\ (0 <= x)%Q /\ (x <= q)%Q /\
    ((u == 0)%Q ->
     (x == (if Qis_zero a then q else q * a)
           * (if String.eqb (status r) "flagged" then 1 # 2 else 1) * (1 # 2))%Q).
Proof.
  intros Hr Hq0 Hq5 Ha Ha0 Ha1 Hu Hu0 Hd Hd0.
  unfold calculateTrustImpact. rewrite Hr, Ha, Hu, Hd.
  cbn [truthy add].
  destruct (max_one (u + d)) as (m & -> & Hm1 & Hmu); [lra|].
  destruct (ratio_bounds u m) as (-> & Hr0 & Hr1); [done|done|lra|].
  assert (Hzero : (u == 0)%Q -> (u / m == 0)%Q).
  { intros ->. unfold Qdiv. lra. }
  set (ratio := (u / m)%Q) in *.
  set (b := (q * a)%Q).
  assert (Hb : (0 <= b)%Q /\ (b <= q)%Q) by (unfold b; nra).
  set (f := ((1 # 2) + ratio * (1 # 2))%Q).
  assert (Hf : ((1 # 2) <= f)%Q /\ (f <= 1)%Q) by (unfold f; lra).
  assert (Hf0 : (ratio == 0)%Q -> (f == 1 # 2)%Q) by (unfold f; intros ->; lra).
  destruct (String.eqb (status r) "flagged"); destruct (Qis_zero a);
    cbn [negb mul add]; fold b; fold f;
    match goal with
    | |- context [min (of_Z 5) (JFin ?y)] =>
        destruct (clamp_finite 0 5 y) as (x & -> & Hx0 & Hx5 & Hxy); [lia|];
        assert (Hy : (0 <= y)%Q /\ (y <= q)%Q) by nra;
        change (inject_Z 0) with 0%Q in Hx0, Hxy;
        change (inject_Z 5) with 5%Q in Hx5, Hxy;
        assert (Hxe : (x == y)%Q) by (apply Hxy; lra);
        exists x; split; [reflexivity|]; split; [lra|]; split; [lra|];
        intros Hu'; rewrite Hxe; specialize (Hf0 (Hzero Hu')); nra
    end.
Qed.

Lemma trust_impact_is_at_most_the_rating_witness :
  exists x,
    calculateTrustImpact ReviewScenario.annOnBob = JFin x /\ (0 <= x)%Q /\ (x <= 4)%Q /\
    ((0 == 0)%Q ->
     (x == (if Qis_zero (1 # 2) then 4 else 4 * (1 # 2))
           * (if String.eqb (status ReviewScenario.annOnBob) "flagged" then 1 # 2 else 1)
           * (1 # 2))%Q).
Proof.
  apply (trust_impact_is_at_most_the_rating ReviewScenario.annOnBob 4 (1 # 2) 0 0);
    try reflexivity; unfold Qle; simpl; lia.
Defined.

Section Hooks.

Variable toLowerCase : string -> string.
Variable includes : string -> string -> bool.
Variable length_of : string -> Z.

Local Abbreviation save := (ReviewDocument.save toLowerCase includes length_of).
Local Abbreviation addHelpfulnessVote :=
  (ReviewDocument.addHelpfulnessVote toLowerCase includes length_of).
Local Abbreviation addFlag := (ReviewDocument.addFlag toLowerCase includes length_of).
Local Abbreviation addResponse := (ReviewDocument.addResponse toLowerCase includes length_of).

(** What [save] leaves alone: everything but the three paths of the
    analysis and the change tracking. *)
Lemma review_save_keeps (now : Z) (r : review) :
  reviewer (save now r) = reviewer r /\
  reviewee (save now r) = reviewee r /\
  rating (save now r) = rating r /\
  comment (save now r) = comment r /\
  isActive (save now r) = isActive r /\
  status (save now r) = status r /\
  flags (save now r) = flags r /\
  upvotes (save now r) = upvotes r /\
  downvotes (save now r) = downvotes r /\
  votedBy (save now r) = votedBy r /\
  response (save now r) = response r /\
  reportCount (save now r) = reportCount r /\
  createdAt (save now r) = createdAt r.
Proof.
  unfold ReviewDocument.save, preSave_aiAnalysis.
  destruct (commentModified r && _); [|by review_simpl].
  review_simpl. destruct (_ && _); by review_simpl.
Qed.

Ltac save_fields now x :=
  let H := fresh "K" in
  pose proof (review_save_keeps now x) as H;
  destruct H as (?Kr & ?Ke & ?Kra & ?Kc & ?Ka & ?Ks & ?Kf & ?Ku & ?Kd & ?Kv & ?Kre
                 & ?Krc & ?Kca).

Lemma counters_follow_votes
    (userId : ObjectId) (voteType : string) (now : Z) (r : review) :
  upvotes (addHelpfulnessVote userId voteType now r)
    = count (filter (fun x => Vote.vote x = "up")
                    (votedBy (addHelpfulnessVote userId voteType now r))) /\
  downvotes (addHelpfulnessVote userId voteType now r)
    = count (filter (fun x => Vote.vote x = "down")
                    (votedBy (addHelpfulnessVote userId voteType now r))).
Proof.
  unfold ReviewDocument.addHelpfulnessVote.
  match goal with |- context [save now ?x] => save_fields now x end.
  rewrite Kv, Ku, Kd. by review_simpl.
Qed.


(** X23. The last vote wins: a vote cast after an earlier vote of the same
    user leaves the list and the counters as if the earlier one had never
    been cast. *)
Theorem last_vote_wins
    (userId : ObjectId) (first second : string) (t1 t2 : Z) (r : review) :
  let twice := addHelpfulnessVote userId second t2 (addHelpfulnessVote userId first t1 r) in
  let once := addHelpfulnessVote userId second t2 r in
  votedBy twice = votedBy once /\
  upvotes twice = upvotes once /\
  downvotes twice = downvotes once.
Proof.
  cbv zeta.
  assert (Hv : votedBy (addHelpfulnessVote userId second t2
                          (addHelpfulnessVote userId first t1 r))
               = votedBy (addHelpfulnessVote userId second t2 r)).
  { unfold ReviewDocument.addHelpfulnessVote at 1 3.
    match goal with |- votedBy (save t2 ?x) = votedBy (save t2 ?y) =>
      rewrite (proj1 (proj2 (proj2 (proj2 (proj2 (proj2 (proj2 (proj2 (proj2
                 (proj2 (review_save_keeps t2 x)))))))))));
      rewrite (proj1 (proj2 (proj2 (proj2 (proj2 (proj2 (proj2 (proj2 (proj2
                 (proj2 (review_save_keeps t2 y)))))))))))
    end.
    review_simpl. f_equal.
    unfold ReviewDocument.addHelpfulnessVote.
    match goal with |- context [save t1 ?x] => save_fields t1 x end.
    rewrite Kv. review_simpl. by apply filter_out_user_again. }
  split; [exact Hv|].
  destruct (counters_follow_votes userId second t2
              (addHelpfulnessVote userId first t1 r)) as [-> ->].
  destruct (counters_follow_votes userId second t2 r) as [-> ->].
  by rewrite Hv.
Qed.

(** X24. The placeholder analysis runs at most once: the first save of
    a review with a modified comment stamps [lastAIUpdate], and a later
    save leaves the analysis as it is even when the comment has been
    rewritten. When it runs, the sentiment score is a finite number between
    -1 and 1 and the authenticity score is 0.8 or 0.5. *)
Theorem analysis_runs_at_most_once (now later : Z) (text : string) (r : review) :
  let first := save now (set_commentModified true r) in
  let second := save later (set_commentModified true (set_comment text first)) in
  lastAIUpdate first <> None /\
  sentimentScore second = sentimentScore first /\
  authenticityScore second = authenticityScore first /\
  lastAIUpdate second = lastAIUpdate first /\
  match lastAIUpdate r with
  | Some _ =>
      sentimentScore first = sentimentScore r /\
      authenticityScore first = authenticityScore r /\
      lastAIUpdate first = lastAIUpdate r
  | None =>
      (exists s, sentimentScore first = JFin s /\ (-1 <= s)%Q /\ (s <= 1)%Q) /\
      (authenticityScore first = JFin (4 # 5) \/ authenticityScore first = JFin (1 # 2)) /\
      lastAIUpdate first = Some now
  end.
Proof.
  cbv zeta.
  assert (Hlater : forall x, lastAIUpdate x <> None ->
            sentimentScore (save later (set_commentModified true (set_comment text x)))
              = sentimentScore x /\
            authenticityScore (save later (set_commentModified true (set_comment text x)))
              = authenticityScore x /\
            lastAIUpdate (save later (set_commentModified true (set_comment text x)))
              = lastAIUpdate x).
  { intros x Hx. unfold ReviewDocument.save, preSave_aiAnalysis. review_simpl.
    destruct (lastAIUpdate x) as [t|] eqn:E; [|done].
    rewrite bool_decide_true by eauto. by review_simpl. }
  assert (Hfirst : lastAIUpdate (save now (set_commentModified true r)) <> None).
  { unfold ReviewDocument.save, preSave_aiAnalysis. review_simpl.
    destruct (lastAIUpdate r) as [t|] eqn:E.
    - rewrite bool_decide_true by eauto. cbn [andb negb]. review_simpl. by rewrite E.
    - rewrite bool_decide_false by (intros [? ?]; done). cbn [andb negb]. review_simpl.
      destruct (_ && _); by review_simpl. }
  split; [exact Hfirst|].
  destruct (Hlater _ Hfirst) as (H1 & H2 & H3).
  split; [exact H1|]. split; [exact H2|]. split; [exact H3|].
  unfold ReviewDocument.save, preSave_aiAnalysis. review_simpl.
  destruct (lastAIUpdate r) as [t|] eqn:E.
  - rewrite bool_decide_true by eauto. cbn [andb negb]. review_simpl. by rewrite E.
  - rewrite bool_decide_false by (intros [? ?]; done). cbn [andb negb]. review_simpl.
    split; [|split].
    + destruct (_ && _); review_simpl; unfold count, of_Z; cbn [sub mul];
        match goal with
        | |- context [min (JFin (inject_Z 1)) (JFin ?q)] =>
            destruct (clamp_finite (-1) 1 q) as (s & Hs & Hlo & Hhi & _); [lia|]
        end; unfold of_Z in Hs; rewrite Hs; exists s; done.
    + destruct (_ && _); review_simpl; auto.
    + destruct (_ && _); by review_simpl.
Qed.

End Hooks.

End ReviewDocumentFacts.

Module ReviewRequestsFacts.
Import Js ReviewDocument ReviewRequests.
Import ReviewDocumentFacts.

Lemma count_succ {A : Type} (xs : list A) (x : A) :
  add (count xs) (of_Z 1) = count (xs ++ [x]).
Proof.
  unfold count, of_Z, add. rewrite length_app. cbn [length].
  f_equal. rewrite Nat2Z.inj_add. unfold inject_Z, Qplus. cbn [Qnum Qden].
  f_equal. lia.
Qed.

Lemma ge_count_3 {A : Type} (xs : list A) :
  ge (count xs) (of_Z 3) = true -> (3 <= length xs)%nat.
Proof.
  unfold ge, count, of_Z, gt. intros H. apply negb_true_iff in H.
  apply negb_false_iff in H. apply Qle_bool_iff in H.
  rewrite <- Zle_Qle in H. lia.
Qed.

Section Handlers.

Variable toLowerCase : string -> string.
Variable includes : string -> string -> bool.
Variable length_of : string -> Z.

Local Abbreviation handle := (ReviewRequests.handle toLowerCase includes length_of).
Local Abbreviation serve := (ReviewRequests.serve toLowerCase includes length_of).
Local Abbreviation save := (ReviewDocument.save toLowerCase includes length_of).

Ltac saved now :=
  match goal with
  | |- context [save now ?x] =>
      let H := fresh "K" in
      pose proof (review_save_keeps toLowerCase includes length_of now x) as H;
      destruct H as (Kr & Ke & Kra & Kc & Ka & Ks & Kf & Ku & Kd & Kv & Kre & Krc & Kca)
  end.

(** What one request can do to the stored review. *)
Lemma handle_cases (now : Z) (r : review) (req : request) :
  reviewer (handle now r req) = reviewer r /\
  reviewee (handle now r req) = reviewee r /\
  (votedBy (handle now r req) = votedBy r \/
   exists u v, u <> reviewer r /\
     votedBy (handle now r req)
       = filter (fun vote => negb (String.eqb (Vote.user vote) u) = true) (votedBy r)
         ++ [ {| Vote.user := u; Vote.vote := v; Vote.votedAt := now |} ]) /\
  (flags (handle now r req) = flags r /\
   reportCount (handle now r req) = reportCount r /\
   (status (handle now r req) = status r \/ status (handle now r req) = "pending")
   \/
   exists f, (Flag.flaggedBy f ∉ Flag.flaggedBy <$> flags r) /\
     flags (handle now r req) = flags r ++ [f] /\
     reportCount (handle now r req) = add (reportCount r) (of_Z 1) /\
     status (handle now r req) =
       (if ge (add (reportCount r) (of_Z 1)) (of_Z 3) && String.eqb (status r) "approved"
        then "flagged" else status r)) /\
  (response (handle now r req) = response r \/
   truthy_string (Response.comment (response r)) = false /\
   Response.respondedBy (response (handle now r req)) = Some (reviewee r)).
Proof.
  assert (Hsame :
    reviewer r = reviewer r /\ reviewee r = reviewee r /\
    (votedBy r = votedBy r \/
     exists u v, u <> reviewer r /\
       votedBy r
         = filter (fun vote => negb (String.eqb (Vote.user vote) u) = true) (votedBy r)
           ++ [ {| Vote.user := u; Vote.vote := v; Vote.votedAt := now |} ]) /\
    (flags r = flags r /\ reportCount r = reportCount r /\
     (status r = status r \/ status r = "pending")
     \/
     exists f, (Flag.flaggedBy f ∉ Flag.flaggedBy <$> flags r) /\
       flags r = flags r ++ [f] /\
       reportCount r = add (reportCount r) (of_Z 1) /\
       status r =
         (if ge (add (reportCount r) (of_Z 1)) (of_Z 3) && String.eqb (status r) "approved"
          then "flagged" else status r)) /\
    (response r = response r \/
     truthy_string (Response.comment (response r)) = false /\
     Response.respondedBy (response r) = Some (reviewee r))).
  { repeat split; auto. }
  destruct req as [u errors v | u errors reason description | u errors text | u errors body];
    cbn [ReviewRequests.handle].
  - unfold markHelpful.
    destruct (negb (bool_decide _)); [exact Hsame|].
    destruct (negb (isActive r)); [exact Hsame|].
    destruct (String.eqb_spec (reviewer r) u) as [E|E]; [exact Hsame|].
    unfold addHelpfulnessVote. saved now.
    rewrite Kr, Ke, Kv, Kf, Krc, Ks, Kre. review_simpl.
    split; [done|]. split; [done|]. split; [|split; [left|left]; auto].
    right. exists u, v. split; [congruence|done].
  - unfold flagReview.
    destruct (negb (bool_decide _)); [exact Hsame|].
    destruct (negb (isActive r)); [exact Hsame|].
    destruct (find _ (flags r)) eqn:Ef; [exact Hsame|].
    apply find_flag_None in Ef.
    unfold addFlag. saved now.
    rewrite Kr, Ke, Kv, Kf, Krc, Ks, Kre. review_simpl.
    destruct (ge _ _ && _); review_simpl;
      (split; [done|]; split; [done|]; split; [by left|]; split; [|by left];
       right; eexists; (split; [|split; [reflexivity|split; reflexivity]]);
       exact Ef).
  - unfold respondToReview.
    destruct (negb (bool_decide _)); [exact Hsame|].
    destruct (negb (isActive r)); [exact Hsame|].
    destruct (truthy_string _) eqn:Et; [exact Hsame|].
    unfold addResponse.
    destruct (String.eqb_spec (reviewee r) u) as [E|E]; cbn [negb]; [|exact Hsame].
    saved now.
    rewrite Kr, Ke, Kv, Kf, Krc, Ks, Kre. review_simpl.
    split; [done|]. split; [done|]. split; [by left|]. split; [left; auto|].
    right. split; [done|]. cbn. by rewrite E.
  - unfold updateReview.
    destruct (negb (bool_decide _)); [exact Hsame|].
    destruct (negb (String.eqb _ _)); [exact Hsame|].
    destruct (maxEditTime <? _); [exact Hsame|].
    destruct (UpdateBody.rating body), (UpdateBody.title body), (UpdateBody.comment body);
      destruct (_ || _); review_simpl;
      (split; [done|]; split; [done|]; split; [by left|]; split; [left; auto|by left]).
Qed.

Lemma serve_cons (r : review) (now : Z) (req : request) (reqs : list (Z * request)) :
  serve r ((now, req) :: reqs) = serve (handle now r req) reqs.
Proof. reflexivity. Qed.

(** X25. Through the routes nobody votes on their own review and nobody
    holds two votes: a review whose voters are distinct and do not include
    its reviewer stays so under every sequence of votes, flags, responses
    and edits. *)
Theorem voters_are_distinct_and_never_the_reviewer
    (r : review) (reqs : list (Z * request)) :
  reviewer r ∉ Vote.user <$> votedBy r ->
  NoDup (Vote.user <$> votedBy r) ->
  reviewer (serve r reqs) = reviewer r /\
  (reviewer r ∉ Vote.user <$> votedBy (serve r reqs)) /\
  NoDup (Vote.user <$> votedBy (serve r reqs)).
Proof.
  revert r. induction reqs as [|[now req] reqs IH]; intros r Hown Hnd; [done|].
  rewrite serve_cons.
  destruct (handle_cases now r req) as (Hr & _ & Hv & _ & _).
  destruct (IH (handle now r req)) as (IH1 & IH2 & IH3).
  - rewrite Hr. destruct Hv as [->|(u & v & Hu & ->)]; [done|].
    rewrite fmap_app. cbn. rewrite elem_of_app, list_elem_of_singleton.
    intros [Hin|Heq]; [|congruence].
    apply Hown. apply list_elem_of_fmap in Hin as (x & Hx & Hin).
    apply list_elem_of_filter in Hin as [_ Hin].
    apply list_elem_of_fmap. eauto.
  - destruct Hv as [->|(u & v & Hu & ->)]; [done|].
    rewrite fmap_app. apply NoDup_app. split; [|split; [|apply NoDup_singleton]].
    + eapply sublist_NoDup; [exact Hnd|]. apply fmap_sublist, sublist_filter.
    + intros w Hw Hin. cbn in Hin. apply list_elem_of_singleton in Hin. subst w.
      by apply filter_out_user_users in Hw.
  - rewrite Hr in IH1, IH2. done.
Qed.

(** X26. Through the routes a review is flagged once per user and every
    flag is counted: if [reportCount] is the number of flags and the
    flaggers are distinct, both stay true under every sequence of
    requests, and the status turns to flagged only on a review that was
    approved and only with three flags or more on record. *)
Theorem flags_are_counted_and_distinct (r : review) (reqs : list (Z * request)) :
  reportCount r = count (flags r) ->
  NoDup (Flag.flaggedBy <$> flags r) ->
  reportCount (serve r reqs) = count (flags (serve r reqs)) /\
  NoDup (Flag.flaggedBy <$> flags (serve r reqs)) /\
  (status (serve r reqs) = "flagged" ->
   status r = "flagged" \/
   status r = "approved" /\ (3 <= length (flags (serve r reqs)))%nat).
Proof.
  assert (Hgen : forall reqs r,
    reportCount r = count (flags r) ->
    NoDup (Flag.flaggedBy <$> flags r) ->
    reportCount (serve r reqs) = count (flags (serve r reqs)) /\
    NoDup (Flag.flaggedBy <$> flags (serve r reqs)) /\
    (length (flags r) <= length (flags (serve r reqs)))%nat /\
    (status (serve r reqs) = "flagged" ->
     status r = "flagged" \/
     status r = "approved" /\ (3 <= length (flags (serve r reqs)))%nat)).
  { clear r reqs. induction reqs as [|[now req] reqs IH]; intros r Hc Hnd.
    - split; [done|]. split; [done|]. split; [done|]. by left.
    - rewrite serve_cons.
      destruct (handle_cases now r req) as (_ & _ & _ & Hf & _).
      destruct Hf as [(Hfl & Hrc & Hst)|(f & Hnew & Hfl & Hrc & Hst)].
      + destruct (IH (handle now r req)) as (IH1 & IH2 & IH3 & IH4).
        { by rewrite Hrc, Hfl. }
        { by rewrite Hfl. }
        split; [done|]. split; [done|]. split; [by rewrite <- Hfl|].
        intros Hflag. destruct (IH4 Hflag) as [H|[H Hlen]].
        * destruct Hst as [Hst|Hst]; [left; congruence|congruence].
        * destruct Hst as [Hst|Hst]; [right; split; [congruence|done]|congruence].
      + destruct (IH (handle now r req)) as (IH1 & IH2 & IH3 & IH4).
        { rewrite Hrc, Hfl, Hc. apply count_succ. }
        { rewrite Hfl, fmap_app. apply NoDup_app.
          split; [done|]. split; [|apply NoDup_singleton].
          intros w Hw Hin. cbn in Hin. apply list_elem_of_singleton in Hin. by subst w. }
        rewrite Hfl, length_app in IH3. cbn [length] in IH3.
        split; [done|]. split; [done|]. split; [lia|].
        intros Hflag. destruct (IH4 Hflag) as [H|[H Hlen]].
        * rewrite Hst in H.
          destruct (ge _ _) eqn:Hge; cbn [andb] in H; [|by left].
          destruct (String.eqb_spec (status r) "approved") as [Ea|Ea]; [|by left].
          right. split; [done|].
          rewrite Hc, (count_succ _ f) in Hge. apply ge_count_3 in Hge.
          rewrite length_app in Hge. cbn [length] in Hge. lia.
        * rewrite Hst in H.
          destruct (ge _ _); cbn [andb] in H; [|right; by split].
          destruct (String.eqb_spec (status r) "approved") as [Ea|Ea]; [done|].
          right. by split. }
  intros Hc Hnd. destruct (Hgen reqs r Hc Hnd) as (H1 & H2 & _ & H4). done.
Qed.

(** X27. Only the reviewee's answer is stored, and a stored answer is
    final: under every sequence of requests the response of a review is
    the one it had, unless it had none (or an empty one), in which case it
    may have become a response of the reviewee. *)
Theorem response_is_the_reviewees_and_final (r : review) (reqs : list (Z * request)) :
  response (serve r reqs) = response r \/
  truthy_string (Response.comment (response r)) = false /\
  Response.respondedBy (response (serve r reqs)) = Some (reviewee r).
Proof.
  revert r. induction reqs as [|[now req] reqs IH]; intros r; [by left|].
  rewrite serve_cons.
  destruct (handle_cases now r req) as (_ & He & _ & _ & Hre).
  destruct (IH (handle now r req)) as [IH1|[IH1 IH2]].
  - rewrite IH1. exact Hre.
  - rewrite He in IH2. destruct Hre as [Hre|[Hre _]].
    + rewrite Hre in IH1. right. by split.
    + right. by split.
Qed.

End Handlers.

Lemma voters_are_distinct_and_never_the_reviewer_witness :
  reviewer (ReviewRequests.serve ReviewScenario.toLowerCase ReviewScenario.includes
              ReviewScenario.length_of ReviewScenario.annOnBob ReviewScenario.requests)
    = reviewer ReviewScenario.annOnBob /\
  (reviewer ReviewScenario.annOnBob
     ∉ Vote.user <$>
         votedBy (ReviewRequests.serve ReviewScenario.toLowerCase ReviewScenario.includes
                    ReviewScenario.length_of ReviewScenario.annOnBob
                    ReviewScenario.requests)) /\
  NoDup (Vote.user <$>
           votedBy (ReviewRequests.serve ReviewScenario.toLowerCase ReviewScenario.includes
                      ReviewScenario.length_of ReviewScenario.annOnBob
                      ReviewScenario.requests)).
Proof.
  apply (voters_are_distinct_and_never_the_reviewer
           ReviewScenario.toLowerCase ReviewScenario.includes ReviewScenario.length_of
           ReviewScenario.annOnBob ReviewScenario.requests).
  - simpl. apply not_elem_of_nil.
  - simpl. apply NoDup_nil_2.
Defined.

Example carol_changes_her_vote :
  let r := ReviewRequests.serve ReviewScenario.toLowerCase ReviewScenario.includes
             ReviewScenario.length_of ReviewScenario.annOnBob ReviewScenario.requests in
  Vote.user <$> votedBy r = ["carol"] /\ Vote.vote <$> votedBy r = ["down"] /\
  upvotes r = of_Z 0 /\ downvotes r = of_Z 1 /\
  Flag.flaggedBy <$> flags r = ["dave"; "carol"] /\ status r = "approved".
Proof. by vm_compute. Qed.

Lemma flags_are_counted_and_distinct_witness :
  reportCount (ReviewRequests.serve ReviewScenario.toLowerCase ReviewScenario.includes
                 ReviewScenario.length_of ReviewScenario.annOnBob ReviewScenario.requests)
    = count (flags (ReviewRequests.serve ReviewScenario.toLowerCase
                      ReviewScenario.includes ReviewScenario.length_of
                      ReviewScenario.annOnBob ReviewScenario.requests)) /\
  NoDup (Flag.flaggedBy <$>
           flags (ReviewRequests.serve ReviewScenario.toLowerCase ReviewScenario.includes
                    ReviewScenario.length_of ReviewScenario.annOnBob
                    ReviewScenario.requests)) /\
  (status (ReviewRequests.serve ReviewScenario.toLowerCase ReviewScenario.includes
             ReviewScenario.length_of ReviewScenario.annOnBob ReviewScenario.requests)
     = "flagged" ->
   status ReviewScenario.annOnBob = "flagged" \/
   status ReviewScenario.annOnBob = "approved" /\
   (3 <= length (flags (ReviewRequests.serve ReviewScenario.toLowerCase
                          ReviewScenario.includes ReviewScenario.length_of
                          ReviewScenario.annOnBob ReviewScenario.requests)))%nat).
Proof.
  apply (flags_are_counted_and_distinct
           ReviewScenario.toLowerCase ReviewScenario.includes ReviewScenario.length_of
           ReviewScenario.annOnBob ReviewScenario.requests).
  - reflexivity.
  - simpl. apply NoDup_nil_2.
Defined.


Example edit_at_the_24th_hour :
  (exists r', updateReview 86400000 "ann" []
                {| UpdateBody.rating := Some (of_Z 5); UpdateBody.title := None;
                   UpdateBody.comment := None |}
                (Some ReviewScenario.annOnBob) = Accepted r' /\
              status r' = "pending") /\
  updateReview 86400001 "ann" []
    {| UpdateBody.rating := Some (of_Z 5); UpdateBody.title := None;
       UpdateBody.comment := None |}
    (Some ReviewScenario.annOnBob)
  = Rejected (bad_request "Reviews can only be edited within 24 hours of creation").
Proof. split; [eexists; split; reflexivity|reflexivity]. Qed.

(** X29. Deleting is a soft delete that frees nothing: after the
    reviewer has deleted a review, the document is still stored, inactive,
    and every request to create a review for the same booking is
    refused. *)
Theorem deleted_review_still_blocks_creation
    (bookings : gmap string Booking.booking) (reviews : Review.collection)
    (id : nat) (r : Review.review) :
  reviews !! id = Some r ->
  exists reviews',
    deleteReview (Review.reviewer r) id reviews = Accepted reviews' /\
    length reviews' = length reviews /\
    Review.isActive <$> reviews' !! id = Some false /\
    Review.booking <$> reviews' = Review.booking <$> reviews /\
    forall req,
      ReviewRoutes.Body.booking (ReviewRoutes.body req) = Review.booking r ->
      exists resp, ReviewRoutes.createReview bookings reviews' req = Rejected resp.
Proof.
  intros Hr. unfold deleteReview. rewrite Hr, String.eqb_refl. cbn [negb].
  eexists. split; [reflexivity|].
  assert (Hb : Review.booking <$> <[id := {|
                 Review.reviewer := Review.reviewer r;
                 Review.reviewee := Review.reviewee r;
                 Review.service := Review.service r;
                 Review.booking := Review.booking r;
                 Review.rating := Review.rating r;
                 Review.comment := Review.comment r;
                 Review.reviewType := Review.reviewType r;
                 Review.isActive := false |}]> reviews
               = Review.booking <$> reviews).
  { rewrite list_fmap_insert. cbn [Review.booking].
    apply list_insert_id. by rewrite list_lookup_fmap, Hr. }
  split; [apply length_insert|].
  split; [rewrite list_lookup_insert_eq; [done|by eapply lookup_lt_Some]|].
  split; [exact Hb|].
  intros req Hreq. apply ReviewFacts.createReview_one_per_booking.
  rewrite Hb, Hreq. apply list_elem_of_fmap. exists r. split; [done|].
  by eapply list_elem_of_lookup_2.
Qed.

Lemma deleted_review_still_blocks_creation_witness :
  exists reviews',
    deleteReview "alice" 0 [Scenario.storedReview "alice" "bob" "customer_to_provider"]
      = Accepted reviews' /\
    length reviews' = 1%nat /\
    Review.isActive <$> reviews' !! 0%nat = Some false /\
    Review.booking <$> reviews'
      = Review.booking <$> [Scenario.storedReview "alice" "bob" "customer_to_provider"] /\
    forall req,
      ReviewRoutes.Body.booking (ReviewRoutes.body req)
        = Review.booking (Scenario.storedReview "alice" "bob" "customer_to_provider") ->
      exists resp, ReviewRoutes.createReview Scenario.bookings reviews' req = Rejected resp.
Proof.
  apply (deleted_review_still_blocks_creation Scenario.bookings
           [Scenario.storedReview "alice" "bob" "customer_to_provider"] 0
           (Scenario.storedReview "alice" "bob" "customer_to_provider")).
  reflexivity.
Defined.

End ReviewRequestsFacts.
